(** * SportiQue XRPL contracts: consent credentials, hash-locked escrow,
      audit trail and the platform that sequences them

    A shallow embedding of [consent_manager.py], [escrow_payment.py],
    [audit_trail.py] and [sportique_platform.py].

    Conventions of the embedding
    - A Python [str] is the [string] of the bytes of its UTF-8 encoding:
      [s.encode()] is the string itself, strings compare as in Python (the
      order of UTF-8 bytes is the order of code points), and what Python
      does character by character ([len], [s[:n]], the escapes of
      [json.dumps]) goes by the code points the bytes encode. [str.upper]
      is modelled on text without cased letters outside ASCII.
    - A naive [datetime] is an integer number of microseconds ([Z]) since
      1970-01-01T00:00:00, between [datetime_min] and [datetime_max]; a
      [timedelta] is a number of microseconds. Building a [timedelta] and
      adding it to a datetime raise [OverflowError] as in Python; datetimes
      compare with [Z.ltb].
    - A Python [float] is a binary64 [float] of the kernel.
    - A [Dict[str, X]] registry of a manager is a [gmap string X]; a JSON-like
      [dict] whose key order matters for serialisation is an association list.
    - Every method takes the manager (the Python [self]) and returns the new
      manager next to its result; a raised exception is a [Raise] result, and
      the manager returned with it holds the mutations made before the raise.
    - The values a call draws from the operating system ([secrets.token_hex],
      [uuid.uuid4], the PSS salt) and the clock reading [datetime.utcnow()]
      are arguments of the call; the clock is read once per call. *)

From Stdlib Require Import ZArith Floats String Ascii.
From stdpp Require Import gmap strings list pretty sorting.

Set Warnings "-register-all".

Local Open Scope Z_scope.
Local Open Scope string_scope.

(** ** Exceptions *)

Inductive PyError : Type :=
| ValueError (msg : string)
| KeyError (key : string)
| TypeError (msg : string)
| OverflowError (msg : string).

Inductive outcome (A : Type) : Type :=
| Return (a : A)
| Raise (e : PyError).
Arguments Return {A} a.
Arguments Raise {A} e.

(** Sequencing: a raise skips the rest of the body. *)
#[global] Instance outcome_bind : MBind outcome :=
  fun A B (k : A -> outcome B) (x : outcome A) =>
    match x with
    | Return a => k a
    | Raise e => Raise e
    end.

Definition is_return {A : Type} (x : outcome A) : bool :=
  match x with Return _ => true | Raise _ => false end.

(** ** What the host libraries provide

    [hashlib], [cryptography], [datetime] and the float printer are not part
    of the repository; the contracts are stated over any implementation of
    them. *)

Class Host : Type := {
  (** [hashlib.sha256(s.encode()).digest()] *)
  sha256 : string -> string;
  (** [private_key.public_key()] *)
  rsa_public_key : string -> string;
  (** [private_key.sign(m, PSS(MGF1(SHA256), MAX_LENGTH), SHA256()).hex()],
      with the salt the padding draws *)
  rsa_pss_sign : string -> string -> string -> string;
  (** [public_key.verify(bytes.fromhex(sig), m, PSS(...), SHA256())]:
      [true] when it returns, [false] when it (or [fromhex]) raises *)
  rsa_pss_verify : string -> string -> string -> bool;
  (** [dt.isoformat()] *)
  isoformat : Z -> string;
  (** [int(dt.timestamp())] of a naive datetime: [timestamp] goes by the
      local time zone and raises [ValueError] for a date within a day of
      the limits of [datetime] *)
  posix_timestamp : Z -> outcome Z;
  (** [float.__repr__], used by [str] and by [json.dumps] *)
  float_repr : float -> string;
  (** [FHIRDataManager.create_sample_heart_rate_bundle(patient_id,
      consent_id, days)] of fhir_manager.py at a clock reading and a drawn
      uuid: the bundle id and the bundle hash. The FHIR manager writes to
      its own bundle registry only; it dates its resources up to 30 days
      before the clock reading, which raises [OverflowError] before
      [datetime.min]. *)
  create_sample_heart_rate_bundle :
    Z -> string -> string -> string -> Z -> outcome (string * string)
}.

(** ** Text helpers *)

Definition dquote : ascii := "034"%char.
Definition backslash : ascii := "092"%char.

Definition str1 (c : ascii) : string := String c EmptyString.

Definition hex_digit (upper_case : bool) (n : N) : ascii :=
  if (n <? 10)%N then ascii_of_N (48 + n)
  else ascii_of_N ((if upper_case then 55 else 87) + n).

(** Two hexadecimal digits of one byte. *)
Definition hex_byte (upper_case : bool) (c : ascii) : string :=
  let n := N_of_ascii c in
  String (hex_digit upper_case (n / 16)%N) (str1 (hex_digit upper_case (n mod 16)%N)).

(** [bytes.hex()] *)
Fixpoint bytes_hex (upper_case : bool) (s : string) : string :=
  match s with
  | EmptyString => EmptyString
  | String c rest => hex_byte upper_case c +:+ bytes_hex upper_case rest
  end.

Definition upper_char (c : ascii) : ascii :=
  let n := N_of_ascii c in
  if ((97 <=? n) && (n <=? 122))%N then ascii_of_N (n - 32) else c.

(** [str.upper()] on ASCII text *)
Fixpoint upper (s : string) : string :=
  match s with
  | EmptyString => EmptyString
  | String c rest => String (upper_char c) (upper rest)
  end.

(** A byte 10xxxxxx, which continues a character of UTF-8 text. *)
Definition continuation (c : ascii) : bool :=
  let n := N_of_ascii c in ((128 <=? n) && (n <? 192))%N.

(** [len(s)]: the number of characters (code points) *)
Fixpoint len (s : string) : nat :=
  match s with
  | EmptyString => O
  | String c rest => if continuation c then len rest else S (len rest)
  end.

(** [s[:n]]: the first [n] characters *)
Fixpoint take_str (n : nat) (s : string) : string :=
  match s with
  | EmptyString => EmptyString
  | String c rest =>
      if continuation c then String c (take_str n rest)
      else match n with
           | O => EmptyString
           | S n' => String c (take_str n' rest)
           end
  end.

(** The code points of UTF-8 text; [current] is the code point begun by
    the bytes read so far. *)
Fixpoint code_points_from (current : option N) (s : string) : list N :=
  match s with
  | EmptyString => match current with Some cp => [cp] | None => [] end
  | String c rest =>
      let n := N_of_ascii c in
      if continuation c then
        let cp := match current with Some cp => cp | None => 0%N end in
        code_points_from (Some (cp * 64 + n mod 64)%N) rest
      else
        let lead :=
          if (n <? 128)%N then n
          else if (n <? 224)%N then (n mod 32)%N
          else if (n <? 240)%N then (n mod 16)%N
          else (n mod 8)%N in
        match current with
        | Some cp => cp :: code_points_from (Some lead) rest
        | None => code_points_from (Some lead) rest
        end
  end.

(** [[ord(c) for c in s]] *)
Definition code_points (s : string) : list N := code_points_from None s.

(** [sep.join(parts)] *)
Fixpoint join (sep : string) (parts : list string) : string :=
  match parts with
  | [] => EmptyString
  | [p] => p
  | p :: rest => p +:+ sep +:+ join sep rest
  end.

(** [hashlib.sha256(s.encode()).hexdigest()] *)
Definition sha256_hexdigest `{Host} (s : string) : string := bytes_hex false (sha256 s).

(** [int(x)] of a float: truncation towards zero; raises on NaN and on the
    infinities. *)
Definition int_of_float (x : float) : outcome Z :=
  match Prim2SF x with
  | S754_zero _ => Return 0%Z
  | S754_finite neg m e =>
      let mag := (if (0 <=? e)%Z then Z.pos m * 2 ^ e else Z.pos m / 2 ^ (- e))%Z in
      Return (if neg then (- mag)%Z else mag)
  | S754_nan => Raise (ValueError "cannot convert float NaN to integer")
  | S754_infinity _ => Raise (OverflowError "cannot convert float infinity to integer")
  end.

(** ** Dates

    The limits of [datetime] and [timedelta]; the messages are those of
    CPython. *)

(** [datetime.min] and [datetime.max], in microseconds since 1970 *)
Definition datetime_min : Z := -62135596800000000.
Definition datetime_max : Z := 253402300799999999.

(** [timedelta(microseconds=us)] and the like, for an integer number of
    units: the number of days must have a magnitude of at most
    999999999. *)
Definition timedelta (us : Z) : outcome Z :=
  let days := (us / 86400000000)%Z in
  if ((-999999999 <=? days) && (days <=? 999999999))%Z then Return us
  else if ((-2147483648 <=? days) && (days <=? 2147483647))%Z then
    Raise (OverflowError ("days=" +:+ pretty days +:+ "; must have magnitude <= 999999999"))
  else Raise (OverflowError "Python int too large to convert to C int").

(** [dt + delta] *)
Definition datetime_add (dt delta : Z) : outcome Z :=
  let sum := (dt + delta)%Z in
  if ((datetime_min <=? sum) && (sum <=? datetime_max))%Z then Return sum
  else Raise (OverflowError "date value out of range").

(** ** JSON-like values and [json.dumps] *)

Inductive json : Type :=
| JNull
| JBool (b : bool)
| JInt (n : Z)
| JFloat (x : float)
| JStr (s : string)
| JList (xs : list json)
| JDict (items : list (string * json)).

(** A [dict] in insertion order. *)
Definition pydict : Type := list (string * json).

Fixpoint dict_get (k : string) (d : pydict) : option json :=
  match d with
  | [] => None
  | (k', v) :: rest => if String.eqb k k' then Some v else dict_get k rest
  end.

(** [k in d] *)
Definition dict_in (k : string) (d : pydict) : bool :=
  match dict_get k d with Some _ => true | None => false end.

(** [d[k]], raising [KeyError] *)
Definition dict_item (k : string) (d : pydict) : outcome json :=
  match dict_get k d with Some v => Return v | None => Raise (KeyError k) end.

(** [x[k]] for a value [x] that should be a dict *)
Definition subscript (k : string) (x : json) : outcome json :=
  match x with
  | JDict d => dict_item k d
  | _ => Raise (TypeError "not subscriptable by a string key")
  end.

(** [list(s)]: the characters of a string; [current] holds the bytes of
    the character begun before [s]. *)
Fixpoint characters_from (current : string) (s : string) : list string :=
  match s with
  | EmptyString => match current with EmptyString => [] | _ => [current] end
  | String c rest =>
      if continuation c then characters_from (current +:+ String c EmptyString) rest
      else match current with
           | EmptyString => characters_from (String c EmptyString) rest
           | _ => current :: characters_from (String c EmptyString) rest
           end
  end.

Definition characters (s : string) : list string := characters_from EmptyString s.

(** The items of a list when all of them are strings. *)
Fixpoint strings_of (xs : list json) : option (list string) :=
  match xs with
  | [] => Some []
  | JStr s :: rest => option_map (cons s) (strings_of rest)
  | _ :: _ => None
  end.

(** [sep.join(x)]: [x] is a list of strings, a string (its characters are
    joined) or a dict (its keys are joined); anything else raises. *)
Definition join_value (sep : string) (x : json) : outcome string :=
  match x with
  | JList xs =>
      match strings_of xs with
      | Some parts => Return (join sep parts)
      | None => Raise (TypeError "sequence item: expected str instance")
      end
  | JStr s => Return (join sep (characters s))
  | JDict d => Return (join sep (fst <$> d))
  | _ => Raise (TypeError "can only join an iterable")
  end.

(** [x[:n]]: a prefix of a string or of a list; anything else raises (for
    a dict the class of the exception depends on the version of Python). *)
Definition slice_to (n : nat) (x : json) : outcome json :=
  match x with
  | JStr s => Return (JStr (take_str n s))
  | JList xs => Return (JList (take n xs))
  | _ => Raise (TypeError "not sliceable")
  end.

(** [d[k] = v]: an existing key keeps its place, a new one goes last. *)
Fixpoint dict_set (k : string) (v : json) (d : pydict) : pydict :=
  match d with
  | [] => [(k, v)]
  | (k', v') :: rest =>
      if String.eqb k k' then (k', v) :: rest else (k', v') :: dict_set k v rest
  end.

(** [del d[k]] for a key that is present *)
Fixpoint dict_del (k : string) (d : pydict) : pydict :=
  match d with
  | [] => []
  | (k', v') :: rest =>
      if String.eqb k k' then rest else (k', v') :: dict_del k rest
  end.

(** Python truthiness of a JSON-like value *)
Definition truthy (j : json) : bool :=
  match j with
  | JNull => false
  | JBool b => b
  | JInt n => negb (n =? 0)%Z
  | JFloat x => negb (PrimFloat.eqb x 0%float)
  | JStr s => negb (String.eqb s "")
  | JList xs => match xs with [] => false | _ => true end
  | JDict items => match items with [] => false | _ => true end
  end.

(** ['\\u{0:04x}'.format(n)] for [n] below 65536 *)
Definition unicode_escape (n : N) : string :=
  String backslash
    ("u" +:+ hex_byte false (ascii_of_N (n / 256)) +:+ hex_byte false (ascii_of_N (n mod 256))).

(** One character of [json.encoder.py_encode_basestring_ascii], by its
    code point; a character beyond the basic plane gives a surrogate
    pair. *)
Definition escape_char (n : N) : string :=
  if (n =? 34)%N then String backslash (str1 dquote)
  else if (n =? 92)%N then String backslash (str1 backslash)
  else if (n =? 8)%N then String backslash "b"
  else if (n =? 12)%N then String backslash "f"
  else if (n =? 10)%N then String backslash "n"
  else if (n =? 13)%N then String backslash "r"
  else if (n =? 9)%N then String backslash "t"
  else if ((32 <=? n) && (n <=? 126))%N then str1 (ascii_of_N n)
  else if (n <? 65536)%N then unicode_escape n
  else
    let v := (n - 65536)%N in
    unicode_escape (55296 + (v / 1024) mod 1024) +:+ unicode_escape (56320 + v mod 1024).

Definition escape_body (s : string) : string :=
  foldr (fun n rest => escape_char n +:+ rest) EmptyString (code_points s).

Definition encode_basestring_ascii (s : string) : string :=
  String dquote (escape_body s +:+ str1 dquote).

(** Stable insertion sort of rendered items by key ([sorted(dct.items())]
    on a dict, whose keys are distinct). *)
Fixpoint insert_by_key (kv : string * string) (l : list (string * string)) : list (string * string) :=
  match l with
  | [] => [kv]
  | kv' :: rest =>
      if String.ltb (fst kv) (fst kv') then kv :: l else kv' :: insert_by_key kv rest
  end.

Definition sort_by_key (l : list (string * string)) : list (string * string) :=
  foldr insert_by_key [] l.

Definition render_item (key_sep : string) (kv : string * string) : string :=
  encode_basestring_ascii (fst kv) +:+ key_sep +:+ snd kv.

(** A float in [json.dumps]: [float.__repr__], but for NaN and the
    infinities. *)
Definition float_text `{Host} (x : float) : string :=
  if PrimFloat.is_nan x then "NaN"
  else if PrimFloat.is_infinity x then
    (if PrimFloat.ltb x 0%float then "-Infinity" else "Infinity")
  else float_repr x.

(** [json.dumps(j, sort_keys=..., separators=(item_sep, key_sep))]. The
    values of a dict are rendered before its items are ordered, which gives
    the text Python produces by ordering first. *)
Fixpoint dumps `{Host} (sort_keys : bool) (item_sep key_sep : string) (j : json) : string :=
  match j with
  | JNull => "null"
  | JBool true => "true"
  | JBool false => "false"
  | JInt n => pretty n
  | JFloat x => float_text x
  | JStr s => encode_basestring_ascii s
  | JList xs => "[" +:+ join item_sep (map (dumps sort_keys item_sep key_sep) xs) +:+ "]"
  | JDict items =>
      let rendered :=
        map (fun kv => match kv with
                       | (k, v) => (k, dumps sort_keys item_sep key_sep v)
                       end) items in
      let ordered := if sort_keys then sort_by_key rendered else rendered in
      "{" +:+ join item_sep (map (render_item key_sep) ordered) +:+ "}"
  end.

(** [json.dumps(j)] *)
Definition json_dumps `{Host} (j : json) : string := dumps false ", " ": " j.

(** [json.dumps(j, sort_keys=True, separators=(',', ':'))] *)
Definition json_dumps_canonical `{Host} (j : json) : string := dumps true "," ":" j.

(** [text.encode('utf-8').hex().upper()] *)
Definition _hex_encode (text : string) : string := bytes_hex true text.

(** ** escrow_payment.py *)

Module Escrow.

Inductive EscrowStatus : Type := CREATED | LOCKED | FULFILLED | EXPIRED | CANCELLED.

#[global] Instance EscrowStatus_eq_dec : EqDecision EscrowStatus.
Proof. solve_decision. Defined.

(** [EscrowStatus.value] *)
Definition status_value (s : EscrowStatus) : string :=
  match s with
  | CREATED => "created"
  | LOCKED => "locked"
  | FULFILLED => "fulfilled"
  | EXPIRED => "expired"
  | CANCELLED => "cancelled"
  end.

Record DataDeliveryCondition : Type := {
  fhir_bundle_hash : string;
  preimage : string;
  preimage_hash : string;
  delivery_deadline : Z
}.

Record EscrowContract : Type := {
  escrow_id : string;
  payer : string;
  payee : string;
  amount : float;
  consent_id : string;
  data_condition : DataDeliveryCondition;
  created_at : Z;
  expires_at : Z;
  status : EscrowStatus;
  xrpl_sequence : option Z;
  fulfillment_tx : option string
}.

Record XRPLEscrowManager : Type := {
  testnet : bool;
  active_escrows : gmap string EscrowContract;
  escrow_history : list pydict
}.

(** [XRPLEscrowManager(testnet)] *)
Definition init (testnet : bool) : XRPLEscrowManager :=
  {| testnet := testnet; active_escrows := ∅; escrow_history := [] |}.

(** [escrow.status = s] *)
Definition set_status (s : EscrowStatus) (e : EscrowContract) : EscrowContract :=
  {| escrow_id := escrow_id e; payer := payer e; payee := payee e; amount := amount e;
     consent_id := consent_id e; data_condition := data_condition e;
     created_at := created_at e; expires_at := expires_at e;
     status := s; xrpl_sequence := xrpl_sequence e; fulfillment_tx := fulfillment_tx e |}.

(** [escrow.xrpl_sequence = n] *)
Definition set_xrpl_sequence (n : Z) (e : EscrowContract) : EscrowContract :=
  {| escrow_id := escrow_id e; payer := payer e; payee := payee e; amount := amount e;
     consent_id := consent_id e; data_condition := data_condition e;
     created_at := created_at e; expires_at := expires_at e;
     status := status e; xrpl_sequence := Some n; fulfillment_tx := fulfillment_tx e |}.

(** [self.active_escrows[eid] = e]. The escrow object is shared between the
    registry and every name bound to it, so a field assignment to an escrow
    found under [eid] is a write to that entry. *)
Definition store (eid : string) (e : EscrowContract) (m : XRPLEscrowManager) : XRPLEscrowManager :=
  {| testnet := testnet m;
     active_escrows := <[eid := e]> (active_escrows m);
     escrow_history := escrow_history m |}.

Definition hours (h : Z) : Z := h * 3600000000.

Definition opt_int (o : option Z) : json :=
  match o with Some n => JInt n | None => JNull end.

Definition opt_str (o : option string) : json :=
  match o with Some s => JStr s | None => JNull end.

Section WithHost.
Context `{Host}.

(** [_log_escrow_action] *)
Definition _log_escrow_action (now : Z) (action eid payer_ payee_ : string) (amount_ : float)
    (m : XRPLEscrowManager) : XRPLEscrowManager :=
  {| testnet := testnet m;
     active_escrows := active_escrows m;
     escrow_history := escrow_history m ++
       [[("timestamp", JStr (isoformat now +:+ "Z")); ("action", JStr action);
         ("escrowId", JStr eid); ("payer", JStr payer_); ("payee", JStr payee_);
         ("amount", JFloat amount_)]] |}.

(** [get_escrow_status] *)
Definition get_escrow_status (eid : string) (m : XRPLEscrowManager) : option pydict :=
  match active_escrows m !! eid with
  | None => None
  | Some escrow =>
      Some [("escrowId", JStr (escrow_id escrow));
            ("status", JStr (status_value (status escrow)));
            ("payer", JStr (payer escrow));
            ("payee", JStr (payee escrow));
            ("amount", JFloat (amount escrow));
            ("consentId", JStr (consent_id escrow));
            ("createdAt", JStr (isoformat (created_at escrow) +:+ "Z"));
            ("expiresAt", JStr (isoformat (expires_at escrow) +:+ "Z"));
            ("dataDeliveryDeadline",
               JStr (isoformat (delivery_deadline (data_condition escrow)) +:+ "Z"));
            ("xrplSequence", opt_int (xrpl_sequence escrow));
            ("fulfillmentTx", opt_str (fulfillment_tx escrow))]
  end.

(** [get_xrpl_memo_data] *)
Definition get_xrpl_memo_data (eid : string) (m : XRPLEscrowManager) : pydict :=
  match active_escrows m !! eid with
  | None => []
  | Some escrow =>
      [("EscrowID", JStr (escrow_id escrow));
       ("ConsentID", JStr (consent_id escrow));
       ("DataHash", JStr (take_str 32 (fhir_bundle_hash (data_condition escrow))));
       ("Amount", JStr (float_repr (amount escrow)));
       ("Purpose", JStr "HealthDataPayment")]
  end.

Definition memos (memo_type : string) (memo_data : json) : json :=
  JList [JDict [("Memo", JDict [("MemoType", JStr (_hex_encode memo_type));
                                ("MemoData", JStr (_hex_encode (json_dumps memo_data)))])]].

(** [_build_escrow_create_transaction]; it looks the memo data up in the
    registry under the escrow's id. *)
Definition _build_escrow_create_transaction (escrow : EscrowContract) (m : XRPLEscrowManager)
    : outcome pydict :=
  drops ← int_of_float (amount escrow * 1000000)%float;
  let amount_drops := pretty drops in
  let ripple_epoch_offset := 946684800 in
  seconds ← posix_timestamp (expires_at escrow);
  let finish_after := seconds - ripple_epoch_offset in
  Return [("TransactionType", JStr "EscrowCreate");
          ("Account", JStr (payer escrow));
          ("Destination", JStr (payee escrow));
          ("Amount", JStr amount_drops);
          ("FinishAfter", JInt finish_after);
          ("Condition", JStr (preimage_hash (data_condition escrow)));
          ("Memos", memos "SportiQueEscrow"
                      (JDict (get_xrpl_memo_data (escrow_id escrow) m)))].

(** [_build_escrow_finish_transaction] *)
Definition _build_escrow_finish_transaction (now : Z) (escrow : EscrowContract)
    (preimage_ : string) : pydict :=
  [("TransactionType", JStr "EscrowFinish");
   ("Account", JStr (payee escrow));
   ("Owner", JStr (payer escrow));
   ("OfferSequence", opt_int (xrpl_sequence escrow));
   ("Fulfillment", JStr (upper preimage_));
   ("Memos", memos "SportiQueComplete"
               (JDict [("EscrowID", JStr (escrow_id escrow));
                       ("ConsentID", JStr (consent_id escrow));
                       ("CompletedAt", JStr (isoformat now +:+ "Z"))]))].

(** [_build_escrow_cancel_transaction] *)
Definition _build_escrow_cancel_transaction (now : Z) (escrow : EscrowContract) : pydict :=
  [("TransactionType", JStr "EscrowCancel");
   ("Account", JStr (payer escrow));
   ("Owner", JStr (payer escrow));
   ("OfferSequence", opt_int (xrpl_sequence escrow));
   ("Memos", memos "SportiQueCancel"
               (JDict [("EscrowID", JStr (escrow_id escrow));
                       ("CancelledAt", JStr (isoformat now +:+ "Z"));
                       ("Reason", JStr "Expired")]))].

(** The two dates of [create_escrow_offer]:
    [datetime.utcnow() + timedelta(hours=delivery_hours)] and
    [delivery_deadline + timedelta(hours=24)]. *)
Definition escrow_dates (now delivery_hours : Z) : outcome (Z * Z) :=
  delta ← timedelta (hours delivery_hours);
  delivery_deadline_ ← datetime_add now delta;
  day ← timedelta (hours 24);
  expires_at_ ← datetime_add delivery_deadline_ day;
  Return (delivery_deadline_, expires_at_).

(** [create_escrow_offer]; [token_id] and [token_preimage] are the values of
    [_generate_id()] and [_generate_preimage()]. *)
Definition create_escrow_offer (now : Z) (token_id token_preimage : string)
    (payer_address payee_address : string) (amount_ : float)
    (consent_id_ fhir_bundle_hash_ : string) (delivery_hours : Z)
    (m : XRPLEscrowManager) : XRPLEscrowManager * outcome (EscrowContract * pydict) :=
  let escrow_id_ := "escrow_" +:+ token_id in
  let preimage_ := token_preimage in
  let preimage_hash_ := upper (sha256_hexdigest preimage_) in
  match escrow_dates now delivery_hours with
  | Raise e => (m, Raise e)
  | Return (delivery_deadline_, expires_at_) =>
      let data_condition_ :=
        {| fhir_bundle_hash := fhir_bundle_hash_; preimage := preimage_;
           preimage_hash := preimage_hash_; delivery_deadline := delivery_deadline_ |} in
      let escrow_contract :=
        {| escrow_id := escrow_id_; payer := payer_address; payee := payee_address;
           amount := amount_; consent_id := consent_id_; data_condition := data_condition_;
           created_at := now; expires_at := expires_at_;
           status := CREATED; xrpl_sequence := None; fulfillment_tx := None |} in
      match _build_escrow_create_transaction escrow_contract m with
      | Raise e => (m, Raise e)
      | Return xrpl_transaction =>
          let m1 := store escrow_id_ escrow_contract m in
          let m2 :=
            _log_escrow_action now "CREATED" escrow_id_ payer_address payee_address
              amount_ m1 in
          (m2, Return (escrow_contract, xrpl_transaction))
      end
  end.

(** [lock_escrow_funds] *)
Definition lock_escrow_funds (now : Z) (eid : string) (xrpl_sequence_ : Z)
    (m : XRPLEscrowManager) : XRPLEscrowManager * bool :=
  match active_escrows m !! eid with
  | None => (m, false)
  | Some escrow =>
      let escrow1 := set_status LOCKED escrow in
      let escrow2 := set_xrpl_sequence xrpl_sequence_ escrow1 in
      let m1 := store eid escrow2 m in
      (_log_escrow_action now "LOCKED" eid (payer escrow2) (payee escrow2) (amount escrow2) m1,
       true)
  end.

(** [fulfill_escrow] *)
Definition fulfill_escrow (now : Z) (eid fhir_bundle_hash_ preimage_ : string)
    (m : XRPLEscrowManager) : XRPLEscrowManager * (bool * option pydict) :=
  match active_escrows m !! eid with
  | None => (m, (false, None))
  | Some escrow =>
      if negb (bool_decide (status escrow = LOCKED)) then (m, (false, None))
      else if (now >? expires_at escrow)%Z then
        (store eid (set_status EXPIRED escrow) m, (false, None))
      else if negb (String.eqb fhir_bundle_hash_ (fhir_bundle_hash (data_condition escrow)))
      then (m, (false, None))
      else
        let provided_hash := upper (sha256_hexdigest preimage_) in
        if negb (String.eqb provided_hash (preimage_hash (data_condition escrow)))
        then (m, (false, None))
        else
          let finish_transaction := _build_escrow_finish_transaction now escrow preimage_ in
          let escrow1 := set_status FULFILLED escrow in
          let m1 := store eid escrow1 m in
          (_log_escrow_action now "FULFILLED" eid (payer escrow1) (payee escrow1) (amount escrow1) m1,
           (true, Some finish_transaction))
  end.

(** [cancel_escrow] *)
Definition cancel_escrow (now : Z) (eid : string)
    (m : XRPLEscrowManager) : XRPLEscrowManager * (bool * option pydict) :=
  match active_escrows m !! eid with
  | None => (m, (false, None))
  | Some escrow =>
      if (now <=? expires_at escrow)%Z then (m, (false, None))
      else
        let cancel_transaction := _build_escrow_cancel_transaction now escrow in
        let escrow1 := set_status EXPIRED escrow in
        let m1 := store eid escrow1 m in
        (_log_escrow_action now "CANCELLED" eid (payer escrow1) (payee escrow1) (amount escrow1) m1,
         (true, Some cancel_transaction))
  end.

End WithHost.

End Escrow.

(** ** consent_manager.py *)

Module Consent.

Record ConsentScope : Type := {
  data_types : list string;
  collection_period : string;
  usage_purpose : string;
  third_party_sharing : bool;
  retention_period : string
}.

(** [created_at] is filled with the clock reading by [__post_init__] when
    the caller leaves it out. *)
Record ConsentTerms : Type := {
  recipient : string;
  scope : ConsentScope;
  compensation : float;
  valid_until : Z;
  withdrawal_right : bool;
  created_at : Z
}.

Record VerifiableCredential : Type := {
  context : list string;
  id : string;
  type : list string;
  issuer : string;
  issuance_date : Z;
  expiration_date : Z;
  credential_subject : pydict;
  proof : option pydict
}.

Record ConsentManager : Type := {
  platform_did : string;
  private_key : string;
  public_key : string;
  active_consents : gmap string VerifiableCredential;
  consent_history : list pydict
}.

(** [vc.proof = p] *)
Definition set_proof (p : option pydict) (vc : VerifiableCredential) : VerifiableCredential :=
  {| context := context vc; id := id vc; type := type vc; issuer := issuer vc;
     issuance_date := issuance_date vc; expiration_date := expiration_date vc;
     credential_subject := credential_subject vc; proof := p |}.

(** [vc.credential_subject = cs] (the dict is updated in place) *)
Definition set_credential_subject (cs : pydict) (vc : VerifiableCredential) : VerifiableCredential :=
  {| context := context vc; id := id vc; type := type vc; issuer := issuer vc;
     issuance_date := issuance_date vc; expiration_date := expiration_date vc;
     credential_subject := cs; proof := proof vc |}.

(** The notice of the consequences of refusal, in Korean. *)
Definition consequences_of_refusal : string :=
  "데이터 제공 불가로 인한 연구 참여 제한".

(** [x != s] for a string [s] *)
Definition ne_str (x : json) (s : string) : bool :=
  match x with
  | JStr s' => negb (String.eqb s' s)
  | _ => true
  end.

Section WithHost.
Context `{Host}.

(** [ConsentManager(platform_did, private_key)] *)
Definition init (platform_did_ private_key_ : string) : ConsentManager :=
  {| platform_did := platform_did_; private_key := private_key_;
     public_key := rsa_public_key private_key_;
     active_consents := ∅; consent_history := [] |}.

(** [VerifiableCredential.to_dict] *)
Definition to_dict (vc : VerifiableCredential) : pydict :=
  [("@context", JList (JStr <$> context vc));
   ("id", JStr (id vc));
   ("type", JList (JStr <$> type vc));
   ("issuer", JStr (issuer vc));
   ("issuanceDate", JStr (isoformat (issuance_date vc) +:+ "Z"));
   ("expirationDate", JStr (isoformat (expiration_date vc) +:+ "Z"));
   ("credentialSubject", JDict (credential_subject vc));
   ("proof", match proof vc with Some p => JDict p | None => JNull end)].

(** [_log_consent_action] *)
Definition _log_consent_action (now : Z) (action vc_id patient_did : string) (recipient_ : json)
    (m : ConsentManager) : ConsentManager :=
  {| platform_did := platform_did m; private_key := private_key m;
     public_key := public_key m; active_consents := active_consents m;
     consent_history := consent_history m ++
       [[("timestamp", JStr (isoformat now +:+ "Z")); ("action", JStr action);
         ("consentId", JStr vc_id); ("patientDid", JStr patient_did);
         ("recipient", recipient_)]] |}.

(** [_create_proof]; [salt] is the salt the PSS padding draws. *)
Definition _create_proof (now : Z) (salt : string) (vc : VerifiableCredential)
    (m : ConsentManager) : pydict :=
  let vc_dict := to_dict vc in
  let vc_json := json_dumps_canonical (JDict vc_dict) in
  let message_hash := sha256 vc_json in
  let signature := rsa_pss_sign (private_key m) salt message_hash in
  [("type", JStr "RsaSignature2018");
   ("created", JStr (isoformat now +:+ "Z"));
   ("verificationMethod", JStr (platform_did m +:+ "#key-1"));
   ("proofPurpose", JStr "assertionMethod");
   ("signatureValue", JStr signature)].

(** [_verify_proof]: every exception inside is caught and gives [False]. *)
Definition _verify_proof (vc : VerifiableCredential) (m : ConsentManager) : bool :=
  let vc_dict := dict_del "proof" (to_dict vc) in
  let vc_json := json_dumps_canonical (JDict vc_dict) in
  let message_hash := sha256 vc_json in
  match proof vc with
  | None => false
  | Some p =>
      match dict_get "signatureValue" p with
      | Some (JStr signature) => rsa_pss_verify (public_key m) signature message_hash
      | _ => false
      end
  end.

(** The [credential_subject] built by [create_consent_vc]. *)
Definition make_credential_subject (patient_did : string) (terms : ConsentTerms) : pydict :=
  [("id", JStr patient_did);
   ("consentGiven", JBool true);
   ("consentTerms", JDict
      [("recipient", JStr (recipient terms));
       ("purpose", JStr (usage_purpose (scope terms)));
       ("dataTypes", JList (JStr <$> data_types (scope terms)));
       ("collectionPeriod", JStr (collection_period (scope terms)));
       ("retentionPeriod", JStr (retention_period (scope terms)));
       ("thirdPartySharing", JBool (third_party_sharing (scope terms)));
       ("compensation", JDict [("amount", JFloat (compensation terms));
                               ("currency", JStr "XRP")]);
       ("withdrawalRight", JBool (withdrawal_right terms));
       ("pipaCompliance", JDict
          [("recipientNotified", JBool true);
           ("purposeSpecified", JBool true);
           ("dataTypesListed", JBool true);
           ("retentionPeriodSpecified", JBool true);
           ("consequencesOfRefusal", JStr consequences_of_refusal)])]);
   ("consentDate", JStr (isoformat (created_at terms) +:+ "Z"));
   ("validUntil", JStr (isoformat (valid_until terms) +:+ "Z"))].

(** [create_consent_vc]; [uuid] is the value of [_generate_uuid()]. *)
Definition create_consent_vc (now : Z) (uuid salt : string) (patient_did : string)
    (terms : ConsentTerms) (m : ConsentManager) : ConsentManager * VerifiableCredential :=
  let vc_id := "urn:uuid:" +:+ uuid in
  let vc0 :=
    {| context := ["https://www.w3.org/2018/credentials/v1";
                   "https://www.w3.org/2018/credentials/examples/v1";
                   "https://sportique.health/contexts/consent/v1"];
       id := vc_id;
       type := ["VerifiableCredential"; "HealthDataConsentCredential"];
       issuer := platform_did m;
       issuance_date := now;
       expiration_date := valid_until terms;
       credential_subject := make_credential_subject patient_did terms;
       proof := None |} in
  let vc := set_proof (Some (_create_proof now salt vc0 m)) vc0 in
  let m1 :=
    {| platform_did := platform_did m; private_key := private_key m;
       public_key := public_key m;
       active_consents := <[vc_id := vc]> (active_consents m);
       consent_history := consent_history m |} in
  (_log_consent_action now "CREATED" vc_id patient_did (JStr (recipient terms)) m1, vc).

(** [withdraw_consent]. The credential it marks as withdrawn leaves the
    registry in the same call. *)
Definition withdraw_consent (now : Z) (vc_id patient_did : string)
    (m : ConsentManager) : ConsentManager * outcome bool :=
  match active_consents m !! vc_id with
  | None => (m, Return false)
  | Some vc =>
      match dict_item "id" (credential_subject vc) with
      | Raise e => (m, Raise e)
      | Return subject_id =>
          if ne_str subject_id patient_did then (m, Return false)
          else
            let cs1 := dict_set "consentGiven" (JBool false) (credential_subject vc) in
            let cs2 := dict_set "withdrawalDate" (JStr (isoformat now +:+ "Z")) cs1 in
            let m1 :=
              {| platform_did := platform_did m; private_key := private_key m;
                 public_key := public_key m;
                 active_consents := delete vc_id (active_consents m);
                 consent_history := consent_history m |} in
            match terms ← dict_item "consentTerms" cs2; subscript "recipient" terms with
            | Raise e => (m1, Raise e)
            | Return recipient_ =>
                (_log_consent_action now "WITHDRAWN" vc_id patient_did recipient_ m1,
                 Return true)
            end
      end
  end.

(** [verify_consent] *)
Definition verify_consent (now : Z) (vc_id recipient_ : string)
    (m : ConsentManager) : outcome bool :=
  match active_consents m !! vc_id with
  | None => Return false
  | Some vc =>
      if (now >? expiration_date vc)%Z then Return false
      else
        terms ← dict_item "consentTerms" (credential_subject vc);
        r ← subscript "recipient" terms;
        if ne_str r recipient_ then Return false
        else
          given ← dict_item "consentGiven" (credential_subject vc);
          if negb (truthy given) then Return false
          else Return (_verify_proof vc m)
  end.

(** [_calculate_vc_hash] *)
Definition _calculate_vc_hash (vc : VerifiableCredential) : string :=
  sha256_hexdigest (json_dumps_canonical (JDict (to_dict vc))).

(** [get_consent_metadata_for_xrpl] *)
Definition get_consent_metadata_for_xrpl (vc_id : string) (m : ConsentManager)
    : outcome pydict :=
  match active_consents m !! vc_id with
  | None => Return []
  | Some vc =>
      let vc_hash := _calculate_vc_hash vc in
      terms ← dict_item "consentTerms" (credential_subject vc);
      types ← subscript "dataTypes" terms;
      joined ← join_value "," types;
      terms' ← dict_item "consentTerms" (credential_subject vc);
      purpose_ ← subscript "purpose" terms';
      purpose50 ← slice_to 50 purpose_;
      Return [("ConsentID", JStr vc_id);
              ("ConsentHash", JStr vc_hash);
              ("ConsentVersion", JStr "2.0");
              ("DataTypes", JStr joined);
              ("Purpose", purpose50)]
  end.

End WithHost.

End Consent.

(** ** audit_trail.py *)

Module Audit.

Inductive AuditEventType : Type :=
| CONSENT_CREATED
| CONSENT_WITHDRAWN
| DATA_REQUESTED
| ESCROW_CREATED
| ESCROW_LOCKED
| DATA_DELIVERED
| PAYMENT_COMPLETED
| ACCESS_GRANTED
| ACCESS_REVOKED
| COMPLIANCE_CHECK.

#[global] Instance AuditEventType_eq_dec : EqDecision AuditEventType.
Proof. solve_decision. Defined.

(** [AuditEventType.value] *)
Definition event_type_value (t : AuditEventType) : string :=
  match t with
  | CONSENT_CREATED => "consent_created"
  | CONSENT_WITHDRAWN => "consent_withdrawn"
  | DATA_REQUESTED => "data_requested"
  | ESCROW_CREATED => "escrow_created"
  | ESCROW_LOCKED => "escrow_locked"
  | DATA_DELIVERED => "data_delivered"
  | PAYMENT_COMPLETED => "payment_completed"
  | ACCESS_GRANTED => "access_granted"
  | ACCESS_REVOKED => "access_revoked"
  | COMPLIANCE_CHECK => "compliance_check"
  end.

Record AuditEvent : Type := {
  event_id : string;
  event_type : AuditEventType;
  timestamp : Z;
  actor : string;
  subject : string;
  resource_id : string;
  xrpl_tx_hash : option string;
  metadata : option pydict;
  compliance_status : option string
}.

Record AuditTrailManager : Type := {
  platform_did : string;
  audit_events : list AuditEvent;
  xrpl_transactions : gmap string pydict
}.

Record ComplianceReport : Type := {
  report_id : string;
  period_start : Z;
  period_end : Z;
  total_consents : Z;
  active_consents : Z;
  withdrawn_consents : Z;
  data_transfers : Z;
  compliance_violations : list pydict;
  generated_at : Z
}.

(** [AuditTrailManager(platform_did)] *)
Definition init (platform_did_ : string) : AuditTrailManager :=
  {| platform_did := platform_did_; audit_events := []; xrpl_transactions := ∅ |}.

(** [audit_event.compliance_status = s] *)
Definition set_compliance_status (s : string) (e : AuditEvent) : AuditEvent :=
  {| event_id := event_id e; event_type := event_type e; timestamp := timestamp e;
     actor := actor e; subject := subject e; resource_id := resource_id e;
     xrpl_tx_hash := xrpl_tx_hash e; metadata := metadata e;
     compliance_status := Some s |}.

(** [all(field in d for field in fields)] *)
Definition all_in (fields : list string) (d : pydict) : bool :=
  forallb (fun field => dict_in field d) fields.

(** [_check_compliance] *)
Definition _check_compliance (event : AuditEvent) : string :=
  if bool_decide (event_type event = CONSENT_CREATED) then
    let required_fields := ["purpose"; "dataTypes"; "retentionPeriod"; "recipient"] in
    match metadata event with
    | Some (item :: items) =>
        if all_in required_fields (item :: items) then "COMPLIANT" else "NON_COMPLIANT"
    | _ => "NON_COMPLIANT"
    end
  else if bool_decide (event_type event = ACCESS_GRANTED) then "COMPLIANT"
  else "COMPLIANT".

(** [record_audit_event]; [token] is the value of [_generate_id()]. A
    missing or empty [metadata] is stored as the empty dict. *)
Definition record_audit_event (now : Z) (token : string) (event_type_ : AuditEventType)
    (actor_ subject_ resource_id_ : string) (xrpl_tx_hash_ : option string)
    (metadata_ : option pydict) (m : AuditTrailManager) : AuditTrailManager * string :=
  let event_id_ := "audit_" +:+ token in
  let audit_event :=
    {| event_id := event_id_; event_type := event_type_; timestamp := now;
       actor := actor_; subject := subject_; resource_id := resource_id_;
       xrpl_tx_hash := xrpl_tx_hash_;
       metadata := Some (match metadata_ with Some d => d | None => [] end);
       compliance_status := None |} in
  let audit_event1 := set_compliance_status (_check_compliance audit_event) audit_event in
  ({| platform_did := platform_did m;
      audit_events := audit_events m ++ [audit_event1];
      xrpl_transactions := xrpl_transactions m |},
   event_id_).

(** Stable insertion sort by timestamp ([list.sort(key=lambda x: x.timestamp)]). *)
Fixpoint insert_by_timestamp (e : AuditEvent) (l : list AuditEvent) : list AuditEvent :=
  match l with
  | [] => [e]
  | e' :: rest =>
      if (timestamp e <=? timestamp e')%Z then e :: l
      else e' :: insert_by_timestamp e rest
  end.

Definition sort_by_timestamp (l : list AuditEvent) : list AuditEvent :=
  foldr insert_by_timestamp [] l.

(** [s and s not in d] for an optional string [s] *)
Definition missing_transaction (h : option string) (txs : gmap string pydict) : bool :=
  match h with
  | Some s => negb (String.eqb s "") && bool_decide (txs !! s = None)
  | None => false
  end.

Section WithHost.
Context `{Host}.

(** The body of the loop of [verify_data_integrity] for one event;
    [prev_event] is [related_events[i-1]], absent when [i = 0]. *)
Definition integrity_check (txs : gmap string pydict) (prev_event : option AuditEvent)
    (event : AuditEvent) : pydict :=
  let missing := missing_transaction (xrpl_tx_hash event) txs in
  let disorder :=
    match prev_event with
    | Some prev => (timestamp event <? timestamp prev)%Z
    | None => false
    end in
  [("eventId", JStr (event_id event));
   ("timestamp", JStr (isoformat (timestamp event) +:+ "Z"));
   ("valid", JBool (negb (missing || disorder)));
   ("issues", JList ((if missing then [JStr "Missing XRPL transaction"] else []) ++
                     (if disorder then [JStr "Invalid timestamp order"] else [])))].

Fixpoint integrity_checks (txs : gmap string pydict) (prev_event : option AuditEvent)
    (events : list AuditEvent) : list pydict :=
  match events with
  | [] => []
  | event :: rest =>
      integrity_check txs prev_event event :: integrity_checks txs (Some event) rest
  end.

(** [check["valid"]] *)
Definition check_valid (check : pydict) : bool :=
  match dict_get "valid" check with Some v => truthy v | None => false end.

(** [verify_data_integrity] *)
Definition verify_data_integrity (now : Z) (resource_id_ : string)
    (m : AuditTrailManager) : pydict :=
  let related_events :=
    filter (fun e => resource_id e = resource_id_) (audit_events m) in
  match related_events with
  | [] => [("valid", JBool false); ("reason", JStr "No audit trail found")]
  | _ =>
      let related_events := sort_by_timestamp related_events in
      let checks := integrity_checks (xrpl_transactions m) None related_events in
      let overall_valid := forallb check_valid checks in
      [("resourceId", JStr resource_id_);
       ("valid", JBool overall_valid);
       ("eventCount", JInt (Z.of_nat (length related_events)));
       ("checks", JList (JDict <$> checks));
       ("verifiedAt", JStr (isoformat now +:+ "Z"))]
  end.

(** [_event_to_dict] *)
Definition _event_to_dict (event : AuditEvent) : pydict :=
  [("eventId", JStr (event_id event));
   ("eventType", JStr (event_type_value (event_type event)));
   ("timestamp", JStr (isoformat (timestamp event) +:+ "Z"));
   ("actor", JStr (actor event));
   ("subject", JStr (subject event));
   ("resourceId", JStr (resource_id event));
   ("xrplTxHash", match xrpl_tx_hash event with Some h => JStr h | None => JNull end);
   ("metadata", match metadata event with Some d => JDict d | None => JNull end);
   ("complianceStatus",
      match compliance_status event with Some c => JStr c | None => JNull end)].

(** [get_audit_trail]. A filter is applied when its argument is truthy: a
    string that is given and not empty, a date that is given. *)
Definition get_audit_trail (subject_ resource_id_ : option string)
    (start_date end_date : option Z) (m : AuditTrailManager) : list pydict :=
  let filtered_events := audit_events m in
  let filtered_events :=
    match subject_ with
    | Some s =>
        if negb (String.eqb s "") then filter (fun e => subject e = s) filtered_events
        else filtered_events
    | None => filtered_events
    end in
  let filtered_events :=
    match resource_id_ with
    | Some r =>
        if negb (String.eqb r "") then filter (fun e => resource_id e = r) filtered_events
        else filtered_events
    | None => filtered_events
    end in
  let filtered_events :=
    match start_date with
    | Some d => filter (fun e => (d <= timestamp e)%Z) filtered_events
    | None => filtered_events
    end in
  let filtered_events :=
    match end_date with
    | Some d => filter (fun e => (timestamp e <= d)%Z) filtered_events
    | None => filtered_events
    end in
  let filtered_events := sort_by_timestamp filtered_events in
  _event_to_dict <$> filtered_events.

(** [generate_compliance_report]; [token] is the value of [_generate_id()]. *)
Definition generate_compliance_report (now : Z) (token : string) (start_date end_date : Z)
    (m : AuditTrailManager) : ComplianceReport :=
  let report_id_ := "compliance_" +:+ token in
  let period_events :=
    filter (fun e => (start_date <= timestamp e)%Z /\ (timestamp e <= end_date)%Z)
      (audit_events m) in
  let consent_created :=
    Z.of_nat (length (filter (fun e => event_type e = CONSENT_CREATED) period_events)) in
  let consent_withdrawn :=
    Z.of_nat (length (filter (fun e => event_type e = CONSENT_WITHDRAWN) period_events)) in
  let data_transfers_ :=
    Z.of_nat (length (filter (fun e => event_type e = DATA_DELIVERED) period_events)) in
  let violations :=
    (fun e =>
       [("eventId", JStr (event_id e));
        ("type", JStr "COMPLIANCE_VIOLATION");
        ("description", JStr ("Non-compliant " +:+ event_type_value (event_type e)));
        ("timestamp", JStr (isoformat (timestamp e) +:+ "Z"))])
    <$> filter (fun e => compliance_status e = Some "NON_COMPLIANT") period_events in
  {| report_id := report_id_;
     period_start := start_date;
     period_end := end_date;
     total_consents := consent_created;
     active_consents := consent_created - consent_withdrawn;
     withdrawn_consents := consent_withdrawn;
     data_transfers := data_transfers_;
     compliance_violations := violations;
     generated_at := now |}.

End WithHost.

End Audit.

(** ** sportique_platform.py *)

Module Platform.

Inductive OfferStatus : Type := PENDING | ACCEPTED | REJECTED | COMPLETED | EXPIRED.

#[global] Instance OfferStatus_eq_dec : EqDecision OfferStatus.
Proof. solve_decision. Defined.

Record DataOffer : Type := {
  offer_id : string;
  requester : string;
  requester_name : string;
  data_types : list string;
  purpose : string;
  compensation : float;
  collection_period : string;
  retention_period : string;
  third_party_sharing : bool;
  valid_until : Z;
  created_at : Z;
  status : OfferStatus;
  target_criteria : option pydict
}.

(** The fields [offer_id], [status] and [created_at] of the dataclass carry
    a [tx_] prefix here, as [DataOffer] has fields of the same names. *)
Record DataTransaction : Type := {
  transaction_id : string;
  tx_offer_id : string;
  patient_did : string;
  consent_id : string;
  escrow_id : string;
  bundle_id : string;
  bundle_hash : string;
  tx_status : string;
  tx_created_at : Z;
  completed_at : option Z
}.

Record SportiQuePlatform : Type := {
  platform_did : string;
  testnet : bool;
  private_key : string;
  consent_manager : Consent.ConsentManager;
  escrow_manager : Escrow.XRPLEscrowManager;
  audit_manager : Audit.AuditTrailManager;
  offers : gmap string DataOffer;
  transactions : gmap string DataTransaction
}.

(** [SportiQuePlatform(platform_did, testnet)]; [key] is the generated RSA key. *)
Definition init `{Host} (platform_did_ : string) (testnet_ : bool) (key : string)
    : SportiQuePlatform :=
  {| platform_did := platform_did_; testnet := testnet_; private_key := key;
     consent_manager := Consent.init platform_did_ key;
     escrow_manager := Escrow.init testnet_;
     audit_manager := Audit.init platform_did_;
     offers := ∅; transactions := ∅ |}.

Definition set_consent_manager (c : Consent.ConsentManager) (p : SportiQuePlatform)
    : SportiQuePlatform :=
  {| platform_did := platform_did p; testnet := testnet p; private_key := private_key p;
     consent_manager := c; escrow_manager := escrow_manager p;
     audit_manager := audit_manager p; offers := offers p; transactions := transactions p |}.

Definition set_escrow_manager (e : Escrow.XRPLEscrowManager) (p : SportiQuePlatform)
    : SportiQuePlatform :=
  {| platform_did := platform_did p; testnet := testnet p; private_key := private_key p;
     consent_manager := consent_manager p; escrow_manager := e;
     audit_manager := audit_manager p; offers := offers p; transactions := transactions p |}.

Definition set_audit_manager (a : Audit.AuditTrailManager) (p : SportiQuePlatform)
    : SportiQuePlatform :=
  {| platform_did := platform_did p; testnet := testnet p; private_key := private_key p;
     consent_manager := consent_manager p; escrow_manager := escrow_manager p;
     audit_manager := a; offers := offers p; transactions := transactions p |}.

(** [self.offers[oid] = o], also a field write to the offer found under [oid] *)
Definition store_offer (oid : string) (o : DataOffer) (p : SportiQuePlatform) : SportiQuePlatform :=
  {| platform_did := platform_did p; testnet := testnet p; private_key := private_key p;
     consent_manager := consent_manager p; escrow_manager := escrow_manager p;
     audit_manager := audit_manager p;
     offers := <[oid := o]> (offers p); transactions := transactions p |}.

(** [self.transactions[tid] = t], also a field write to the one found under [tid] *)
Definition store_transaction (tid : string) (t : DataTransaction) (p : SportiQuePlatform)
    : SportiQuePlatform :=
  {| platform_did := platform_did p; testnet := testnet p; private_key := private_key p;
     consent_manager := consent_manager p; escrow_manager := escrow_manager p;
     audit_manager := audit_manager p;
     offers := offers p; transactions := <[tid := t]> (transactions p) |}.

(** [offer.status = s] *)
Definition set_offer_status (s : OfferStatus) (o : DataOffer) : DataOffer :=
  {| offer_id := offer_id o; requester := requester o; requester_name := requester_name o;
     data_types := data_types o; purpose := purpose o; compensation := compensation o;
     collection_period := collection_period o; retention_period := retention_period o;
     third_party_sharing := third_party_sharing o; valid_until := valid_until o;
     created_at := created_at o; status := s; target_criteria := target_criteria o |}.

(** [transaction.status = "COMPLETED"; transaction.completed_at = now] *)
Definition complete_transaction (now : Z) (t : DataTransaction) : DataTransaction :=
  {| transaction_id := transaction_id t; tx_offer_id := tx_offer_id t;
     patient_did := patient_did t; consent_id := consent_id t; escrow_id := escrow_id t;
     bundle_id := bundle_id t; bundle_hash := bundle_hash t;
     tx_status := "COMPLETED"; tx_created_at := tx_created_at t;
     completed_at := Some now |}.

(** [s.split(":")[-1]] *)
Fixpoint last_segment_from (acc s : string) : string :=
  match s with
  | EmptyString => acc
  | String c rest =>
      if Ascii.eqb c ":"%char then last_segment_from EmptyString rest
      else last_segment_from (acc +:+ str1 c) rest
  end.

Definition last_segment (s : string) : string := last_segment_from EmptyString s.

Definition days (d : Z) : Z := d * 86400000000.

(** The values one [accept_offer] draws, in the order it draws them. *)
Record AcceptDraws : Type := {
  vc_uuid : string;
  pss_salt : string;
  bundle_uuid : string;
  escrow_token : string;
  preimage_token : string;
  transaction_token : string;
  audit_token : string
}.

Section WithHost.
Context `{Host}.

(** [datetime.utcnow() + timedelta(days=valid_days)] *)
Definition offer_valid_until (now valid_days : Z) : outcome Z :=
  delta ← timedelta (days valid_days); datetime_add now delta.

(** [create_data_offer]; [token] and [audit_token_] are the two values of
    [_generate_id()] it draws. *)
Definition create_data_offer (now : Z) (token audit_token_ : string)
    (requester_did requester_name_ : string) (data_types_ : list string) (purpose_ : string)
    (compensation_ : float) (collection_period_ retention_period_ : string)
    (third_party_sharing_ : bool) (valid_days : Z) (target_criteria_ : option pydict)
    (p : SportiQuePlatform) : SportiQuePlatform * outcome string :=
  let offer_id_ := "offer_" +:+ token in
  match offer_valid_until now valid_days with
  | Raise e => (p, Raise e)
  | Return valid_until_ =>
      let offer :=
        {| offer_id := offer_id_; requester := requester_did;
           requester_name := requester_name_;
           data_types := data_types_; purpose := purpose_; compensation := compensation_;
           collection_period := collection_period_; retention_period := retention_period_;
           third_party_sharing := third_party_sharing_; valid_until := valid_until_;
           created_at := now; status := PENDING; target_criteria := target_criteria_ |} in
      let p1 := store_offer offer_id_ offer p in
      let '(a, _) :=
        Audit.record_audit_event now audit_token_ Audit.DATA_REQUESTED requester_did
          "platform" offer_id_ None
          (Some [("dataTypes", JList (JStr <$> data_types_)); ("purpose", JStr purpose_);
                 ("compensation", JFloat compensation_)])
          (audit_manager p1) in
      (set_audit_manager a p1, Return offer_id_)
  end.

(** [accept_offer] *)
Definition accept_offer (now : Z) (d : AcceptDraws)
    (offer_id_ patient_did_ patient_xrpl_address requester_xrpl_address : string)
    (p : SportiQuePlatform) : SportiQuePlatform * outcome pydict :=
  match offers p !! offer_id_ with
  | None => (p, Raise (ValueError "Offer not found"))
  | Some offer =>
      if negb (bool_decide (status offer = PENDING)) then
        (p, Raise (ValueError "Offer is not available"))
      else if (now >? valid_until offer)%Z then
        (store_offer offer_id_ (set_offer_status EXPIRED offer) p,
         Raise (ValueError "Offer has expired"))
      else
        let consent_scope :=
          {| Consent.data_types := data_types offer;
             Consent.collection_period := collection_period offer;
             Consent.usage_purpose := purpose offer;
             Consent.third_party_sharing := third_party_sharing offer;
             Consent.retention_period := retention_period offer |} in
        let consent_terms :=
          {| Consent.recipient := requester offer; Consent.scope := consent_scope;
             Consent.compensation := compensation offer;
             Consent.valid_until := valid_until offer;
             Consent.withdrawal_right := true; Consent.created_at := now |} in
        let '(cm, consent_vc) :=
          Consent.create_consent_vc now (vc_uuid d) (pss_salt d) patient_did_ consent_terms
            (consent_manager p) in
        let p1 := set_consent_manager cm p in
        match create_sample_heart_rate_bundle now (last_segment patient_did_)
                (Consent.id consent_vc) (bundle_uuid d) 7 with
        | Raise e => (p1, Raise e)
        | Return (bundle_id_, bundle_hash_) =>
            match Escrow.create_escrow_offer now (escrow_token d) (preimage_token d)
                    requester_xrpl_address patient_xrpl_address (compensation offer)
                    (Consent.id consent_vc) bundle_hash_ 72 (escrow_manager p1) with
            | (em, Raise e) => (set_escrow_manager em p1, Raise e)
            | (em, Return (escrow_contract, xrpl_tx)) =>
                let p2 := set_escrow_manager em p1 in
                let transaction_id_ := "tx_" +:+ transaction_token d in
                let transaction :=
                  {| transaction_id := transaction_id_; tx_offer_id := offer_id_;
                     patient_did := patient_did_; consent_id := Consent.id consent_vc;
                     escrow_id := Escrow.escrow_id escrow_contract;
                     bundle_id := bundle_id_; bundle_hash := bundle_hash_;
                     tx_status := "CONSENT_GIVEN"; tx_created_at := now;
                     completed_at := None |} in
                let p3 := store_transaction transaction_id_ transaction p2 in
                let p4 := store_offer offer_id_ (set_offer_status ACCEPTED offer) p3 in
                let '(a, _) :=
                  Audit.record_audit_event now (audit_token d) Audit.CONSENT_CREATED
                    patient_did_ patient_did_ (Consent.id consent_vc) None
                    (Some [("offerId", JStr offer_id_);
                           ("transactionId", JStr transaction_id_);
                           ("escrowId", JStr (Escrow.escrow_id escrow_contract))])
                    (audit_manager p4) in
                (set_audit_manager a p4,
                 Return [("transactionId", JStr transaction_id_);
                         ("consentId", JStr (Consent.id consent_vc));
                         ("escrowId", JStr (Escrow.escrow_id escrow_contract));
                         ("bundleId", JStr bundle_id_);
                         ("bundleHash", JStr bundle_hash_);
                         ("xrplTransaction", JStr (json_dumps (JDict xrpl_tx)))])
            end
        end
  end.

(** [complete_data_delivery]; the two tokens are the values of
    [_generate_id()] drawn for the two audit events. *)
Definition complete_data_delivery (now : Z) (audit_token1 audit_token2 : string)
    (transaction_id_ : string) (xrpl_sequence : Z)
    (p : SportiQuePlatform) : SportiQuePlatform * outcome pydict :=
  match transactions p !! transaction_id_ with
  | None => (p, Raise (ValueError "Transaction not found"))
  | Some transaction =>
      let '(em1, _) :=
        Escrow.lock_escrow_funds now (escrow_id transaction) xrpl_sequence (escrow_manager p) in
      let p1 := set_escrow_manager em1 p in
      match Escrow.active_escrows em1 !! escrow_id transaction with
      | None => (p1, Raise (KeyError (escrow_id transaction)))
      | Some escrow_contract =>
          let '(em2, (success, finish_tx)) :=
            Escrow.fulfill_escrow now (escrow_id transaction) (bundle_hash transaction)
              (Escrow.preimage (Escrow.data_condition escrow_contract)) em1 in
          let p2 := set_escrow_manager em2 p1 in
          if negb success then (p2, Raise (ValueError "Failed to fulfill escrow"))
          else
            let p3 := store_transaction transaction_id_ (complete_transaction now transaction) p2 in
            let '(a1, _) :=
              Audit.record_audit_event now audit_token1 Audit.DATA_DELIVERED
                (platform_did p3) (patient_did transaction) (consent_id transaction) None
                (Some [("transactionId", JStr transaction_id_);
                       ("bundleHash", JStr (bundle_hash transaction));
                       ("escrowId", JStr (escrow_id transaction))])
                (audit_manager p3) in
            let '(a2, _) :=
              Audit.record_audit_event now audit_token2 Audit.PAYMENT_COMPLETED
                (platform_did p3) (patient_did transaction) (escrow_id transaction) None
                (Some [("amount", JFloat (Escrow.amount escrow_contract));
                       ("currency", JStr "XRP")])
                a1 in
            (set_audit_manager a2 p3,
             Return [("success", JBool true);
                     ("transactionId", JStr transaction_id_);
                     ("status", JStr "COMPLETED");
                     ("completedAt", JStr (isoformat now +:+ "Z"));
                     ("xrplFinishTransaction",
                        match finish_tx with Some t => JDict t | None => JNull end)])
      end
  end.

(** [tx.status = "CANCELLED"] *)
Definition cancel_transaction (t : DataTransaction) : DataTransaction :=
  {| transaction_id := transaction_id t; tx_offer_id := tx_offer_id t;
     patient_did := patient_did t; consent_id := consent_id t; escrow_id := escrow_id t;
     bundle_id := bundle_id t; bundle_hash := bundle_hash t;
     tx_status := "CANCELLED"; tx_created_at := tx_created_at t;
     completed_at := completed_at t |}.

(** The loop of [withdraw_consent] over [related_transactions], each with
    the key it is registered under. *)
Fixpoint cancel_related (now : Z) (related_transactions : list (string * DataTransaction))
    (p : SportiQuePlatform) : SportiQuePlatform :=
  match related_transactions with
  | [] => p
  | (tid, tx) :: rest =>
      if bool_decide (tx_status tx ∈ ["COMPLETED"; "CANCELLED"]) then
        cancel_related now rest p
      else
        let '(em, (cancel_success, _)) :=
          Escrow.cancel_escrow now (escrow_id tx) (escrow_manager p) in
        let p1 := set_escrow_manager em p in
        let p2 := if cancel_success
                  then store_transaction tid (cancel_transaction tx) p1
                  else p1 in
        cancel_related now rest p2
  end.

(** [self.transactions.values()], each value with its key. Python
    enumerates the registry in insertion order, which the map does not
    record: [order] lists the keys in that order. *)
Definition transactions_in (order : list string) (p : SportiQuePlatform)
    : list (string * DataTransaction) :=
  omap (fun tid => (fun tx => (tid, tx)) <$> transactions p !! tid) order.

(** [withdraw_consent]; [audit_token_] is the value of [_generate_id()]
    drawn for the audit event. *)
Definition withdraw_consent (now : Z) (audit_token_ : string) (order : list string)
    (consent_id_ patient_did_ : string) (p : SportiQuePlatform)
    : SportiQuePlatform * outcome bool :=
  match Consent.withdraw_consent now consent_id_ patient_did_ (consent_manager p) with
  | (cm, Raise e) => (set_consent_manager cm p, Raise e)
  | (cm, Return success) =>
      let p1 := set_consent_manager cm p in
      if success then
        let related_transactions :=
          filter (fun kv => consent_id kv.2 = consent_id_) (transactions_in order p1) in
        let p2 := cancel_related now related_transactions p1 in
        let '(a, _) :=
          Audit.record_audit_event now audit_token_ Audit.CONSENT_WITHDRAWN
            patient_did_ patient_did_ consent_id_ None None (audit_manager p2) in
        (set_audit_manager a p2, Return success)
      else (p1, Return success)
  end.

End WithHost.

End Platform.

(** ** A reference host

    A small implementation of [Host] on which the contracts run inside the
    kernel: the digest is the identity (so it has no collisions), a
    signature is the signed digest itself and verifies against that digest
    only, and times and floats print as plain numerals. *)

Definition reference_float_repr (x : float) : string :=
  match Prim2SF x with
  | S754_zero neg => if neg then "-0.0" else "0.0"
  | S754_infinity neg => if neg then "-inf" else "inf"
  | S754_nan => "nan"
  | S754_finite neg m e =>
      (if neg then "-" else "") +:+ pretty (Z.pos m) +:+ "p" +:+ pretty e
  end.

Definition reference_host : Host :=
  {| sha256 := fun s => s;
     rsa_public_key := fun key => key;
     rsa_pss_sign := fun key salt digest => digest;
     rsa_pss_verify := fun key signature digest => String.eqb signature digest;
     isoformat := fun t => pretty t;
     posix_timestamp := fun t => Return (t / 1000000);
     float_repr := reference_float_repr;
     create_sample_heart_rate_bundle :=
       fun now patient_id consent_id uuid days =>
         Return ("bundle_" +:+ uuid, "hash-of-" +:+ patient_id +:+ "-" +:+ consent_id) |}.

(** ** Scenarios

    States reached through the public operations, used to run the
    contracts on concrete inputs. *)

Module Scenario.

Definition payer : string := "rN7n7otQDd6FczFgLdSqtcsAUxDkw6fzRH".
Definition payee : string := "rHb9CJAWyB4rj91VRWn96DkukG4bwdtyTh".

(** The clock reading one hour after the expiry of an escrow opened at
    time 0 with the default 72 hours of delivery time. *)
Definition after_expiry : Z := Escrow.hours 97.

(** An escrow manager, and what [create_escrow_offer] returns, after one
    offer of 50 XRP for consent ["c1"] opened at time 0. *)
Definition opened : Escrow.XRPLEscrowManager * outcome (Escrow.EscrowContract * pydict) :=
  Escrow.create_escrow_offer (H := reference_host) 0 "01" "5ec7e7" payer payee 50%float
    "c1" "bundle-hash" 72 (Escrow.init true).

(** The contract that call registers under ["escrow_01"]. *)
Definition contract : Escrow.EscrowContract :=
  {| Escrow.escrow_id := "escrow_01"; Escrow.payer := payer; Escrow.payee := payee;
     Escrow.amount := 50%float; Escrow.consent_id := "c1";
     Escrow.data_condition :=
       {| Escrow.fhir_bundle_hash := "bundle-hash"; Escrow.preimage := "5ec7e7";
          Escrow.preimage_hash := "356563376537";
          Escrow.delivery_deadline := Escrow.hours 72 |};
     Escrow.created_at := 0; Escrow.expires_at := Escrow.hours 96;
     Escrow.status := Escrow.CREATED; Escrow.xrpl_sequence := None;
     Escrow.fulfillment_tx := None |}.

(** ... then locked at time 1 with sequence 12345 *)
Definition locked : Escrow.XRPLEscrowManager :=
  (Escrow.lock_escrow_funds (H := reference_host) 1 "escrow_01" 12345 opened.1).1.

(** ... then fulfilled at time 2 with the right bundle hash and secret *)
Definition fulfilled : Escrow.XRPLEscrowManager :=
  (Escrow.fulfill_escrow (H := reference_host) 2 "escrow_01" "bundle-hash" "5ec7e7" locked).1.

(** An audit trail where three events for the resource ["consent-1"] were
    appended at the clock readings 20, 10 and 30, in that order. *)
Definition out_of_order : Audit.AuditTrailManager :=
  let m0 := Audit.init "did:xrpl:sportique-platform-001" in
  let m1 := (Audit.record_audit_event 20 "a1" Audit.DATA_REQUESTED "actor" "subject"
               "consent-1" None None m0).1 in
  let m2 := (Audit.record_audit_event 10 "a2" Audit.ACCESS_GRANTED "actor" "subject"
               "consent-1" None None m1).1 in
  (Audit.record_audit_event 30 "a3" Audit.DATA_DELIVERED "actor" "subject"
     "consent-1" None None m2).1.

(** The consent terms of the demonstration: 50 XRP, valid until time 1000. *)
Definition terms : Consent.ConsentTerms :=
  {| Consent.recipient := "did:xrpl:seoul-national-hospital-cardiology";
     Consent.scope :=
       {| Consent.data_types := ["Observation"; "MedicationStatement"; "Condition"];
          Consent.collection_period := "3months";
          Consent.usage_purpose := "heart rate pattern analysis";
          Consent.third_party_sharing := false;
          Consent.retention_period := "5years" |};
     Consent.compensation := 50%float;
     Consent.valid_until := 1000;
     Consent.withdrawal_right := true;
     Consent.created_at := 0 |}.

(** A consent manager, and the credential, after one credential was
    issued at time 0 for those terms. *)
Definition issued : Consent.ConsentManager * Consent.VerifiableCredential :=
  Consent.create_consent_vc (H := reference_host) 0 "u1" "salt" "did:xrpl:patient-kim-001"
    terms (Consent.init (H := reference_host) "did:xrpl:sportique-platform-001" "key").

(** The consent terms of the demonstration of consent_manager.py, with
    its purpose of 21 characters (53 bytes of UTF-8), and the manager and
    the credential after they were issued at time 0. *)
Definition demo_terms : Consent.ConsentTerms :=
  {| Consent.recipient := "did:xrpl:seoul-national-hospital-cardiology";
     Consent.scope :=
       {| Consent.data_types := ["Observation"; "MedicationStatement"; "Condition"];
          Consent.collection_period := "3months";
          Consent.usage_purpose := "심방세동 연구를 위한 심박수 패턴 분석";
          Consent.third_party_sharing := false;
          Consent.retention_period := "5years" |};
     Consent.compensation := 50%float;
     Consent.valid_until := 1000;
     Consent.withdrawal_right := true;
     Consent.created_at := 0 |}.

Definition demo_issued : Consent.ConsentManager * Consent.VerifiableCredential :=
  Consent.create_consent_vc (H := reference_host) 0 "u1" "salt" "did:xrpl:patient-kim-001"
    demo_terms (Consent.init (H := reference_host) "did:xrpl:sportique-platform-001" "key").

(** A platform with one pending offer of 50 XRP, created at time 0 and
    valid for 30 days. *)
Definition offered : Platform.SportiQuePlatform :=
  (Platform.create_data_offer 0 "0ffe5" "a0"
     "did:xrpl:seoul-national-hospital-cardiology" "SNUH Cardiology"
     ["Observation"; "Condition"; "Device"] "heart rate pattern analysis" 50%float
     "3months" "5years" false 30 None
     (Platform.init (H := reference_host) "did:xrpl:sportique-platform-001" true "key")).1.

Definition draws : Platform.AcceptDraws :=
  {| Platform.vc_uuid := "u1"; Platform.pss_salt := "salt"; Platform.bundle_uuid := "b1";
     Platform.escrow_token := "01"; Platform.preimage_token := "5ec7e7";
     Platform.transaction_token := "7a"; Platform.audit_token := "a1" |}.

(** ... and what [accept_offer] gives when a patient accepts it at time 10 *)
Definition accepted : Platform.SportiQuePlatform * outcome pydict :=
  Platform.accept_offer (H := reference_host) 10 draws "offer_0ffe5"
    "did:xrpl:patient-kim-001" payee payer offered.

(** A platform with one pending offer whose compensation is not a number. *)
Definition offered_nan : Platform.SportiQuePlatform :=
  (Platform.create_data_offer 0 "bad" "a0"
     "did:xrpl:seoul-national-hospital-cardiology" "SNUH Cardiology"
     ["Observation"] "heart rate pattern analysis" nan
     "3months" "5years" false 30 None
     (Platform.init (H := reference_host) "did:xrpl:sportique-platform-001" true "key")).1.


(** An audit trail with a consent recorded with the four notice fields
    at time 5, a consent recorded without them at time 6, a withdrawal at
    time 7 and a delivery at time 8. *)
Definition mixed_trail : Audit.AuditTrailManager :=
  let m0 := Audit.init "did:xrpl:sportique-platform-001" in
  let m1 := (Audit.record_audit_event 5 "b1" Audit.CONSENT_CREATED "patient-1" "patient-1"
               "consent-1" None
               (Some [("purpose", JStr "research"); ("dataTypes", JList [JStr "Observation"]);
                      ("retentionPeriod", JStr "5years"); ("recipient", JStr "hospital")])
               m0).1 in
  let m2 := (Audit.record_audit_event 6 "b2" Audit.CONSENT_CREATED "patient-2" "patient-2"
               "consent-2" None (Some [("offerId", JStr "offer-9")]) m1).1 in
  let m3 := (Audit.record_audit_event 7 "b3" Audit.CONSENT_WITHDRAWN "patient-1" "patient-1"
               "consent-1" None None m2).1 in
  (Audit.record_audit_event 8 "b4" Audit.DATA_DELIVERED "platform" "patient-2"
     "consent-2" (Some "TX1") None m3).1.

End Scenario.

(** ** Vocabulary of the statements *)

Section EscrowVocabulary.
Import Escrow.

(** What is registered for each escrow id: the amount and the consent id. *)
Definition terms_of (m : XRPLEscrowManager) : gmap string (float * string) :=
  (fun e => (amount e, consent_id e)) <$> active_escrows m.

(** An escrow with its secret blanked. *)
Definition redact (e : EscrowContract) : EscrowContract :=
  {| escrow_id := escrow_id e; payer := payer e; payee := payee e; amount := amount e;
     consent_id := consent_id e;
     data_condition :=
       {| fhir_bundle_hash := fhir_bundle_hash (data_condition e);
          preimage := "";
          preimage_hash := preimage_hash (data_condition e);
          delivery_deadline := delivery_deadline (data_condition e) |};
     created_at := created_at e; expires_at := expires_at e;
     status := status e; xrpl_sequence := xrpl_sequence e;
     fulfillment_tx := fulfillment_tx e |}.

(** A manager with the secret of every registered escrow blanked. *)
Definition redact_manager (m : XRPLEscrowManager) : XRPLEscrowManager :=
  {| testnet := testnet m;
     active_escrows := redact <$> active_escrows m;
     escrow_history := escrow_history m |}.

(** The dates of an escrow opened at [now] for [delivery_hours] hours can
    be represented: the [timedelta] of the hours has at most 999999999
    days, and the delivery deadline and the expiry, 24 hours later, lie
    between [datetime.min] and [datetime.max]. *)
Definition dates_representable (now delivery_hours : Z) : Prop :=
  (-999999999 <= delivery_hours / 24 <= 999999999)%Z /\
  (datetime_min <= now + hours delivery_hours <= datetime_max)%Z /\
  (datetime_min <= now + hours delivery_hours + hours 24 <= datetime_max)%Z.

(** An escrow once [lock_escrow_funds] has run on it. *)
Definition locked_with (seq : Z) (e : EscrowContract) : EscrowContract :=
  set_xrpl_sequence seq (set_status LOCKED e).

End EscrowVocabulary.

Section AuditVocabulary.
Import Audit.

(** The per-event checks of a report, and the issues of one check. *)
Definition report_checks (report : pydict) : list pydict :=
  match dict_get "checks" report with
  | Some (JList checks) =>
      omap (fun c => match c with JDict d => Some d | _ => None end) checks
  | _ => []
  end.

Definition check_issues (check : pydict) : list json :=
  match dict_get "issues" check with
  | Some (JList issues) => issues
  | _ => []
  end.

Definition not_later (a b : AuditEvent) : Prop := (timestamp a <= timestamp b)%Z.

End AuditVocabulary.

Section PlatformVocabulary.
Import Platform.

(** The audit event a successful [accept_offer] appends. *)
Definition consent_created_event (now : Z) (d : AcceptDraws) (offer_id_ patient_did_ : string)
    : Audit.AuditEvent :=
  {| Audit.event_id := "audit_" +:+ audit_token d;
     Audit.event_type := Audit.CONSENT_CREATED;
     Audit.timestamp := now;
     Audit.actor := patient_did_;
     Audit.subject := patient_did_;
     Audit.resource_id := "urn:uuid:" +:+ vc_uuid d;
     Audit.xrpl_tx_hash := None;
     Audit.metadata :=
       Some [("offerId", JStr offer_id_);
             ("transactionId", JStr ("tx_" +:+ transaction_token d));
             ("escrowId", JStr ("escrow_" +:+ escrow_token d))];
     Audit.compliance_status := Some "NON_COMPLIANT" |}.

(** The steps of [accept_offer] that can raise on a PENDING offer within
    its validity all return: the sample bundle is built, the two dates of
    the escrow, 72 and 96 hours after the clock reading, can be
    represented, the compensation times 1,000,000 converts to an integer
    and the expiry of the escrow has a POSIX timestamp. *)
Definition acceptance_possible `{Host} (now : Z) (d : AcceptDraws) (patient_did_ : string)
    (compensation_ : float) : Prop :=
  is_return (create_sample_heart_rate_bundle now (last_segment patient_did_)
               ("urn:uuid:" +:+ vc_uuid d) (bundle_uuid d) 7) = true /\
  dates_representable now 72 /\
  is_return (int_of_float (compensation_ * 1000000)%float) = true /\
  is_return (posix_timestamp (now + Escrow.hours 72 + Escrow.hours 24)%Z) = true.

(** The end of validity of an offer created at [now] for [valid_days]
    days can be represented: the [timedelta] has at most 999999999 days and
    the date lies between [datetime.min] and [datetime.max]. *)
Definition validity_representable (now valid_days : Z) : Prop :=
  (-999999999 <= valid_days <= 999999999)%Z /\
  (datetime_min <= now + days valid_days <= datetime_max)%Z.

End PlatformVocabulary.

Section ConsentVocabulary.
Context `{Host}.
Import Consent.

(** The managers the operations can produce. *)
Inductive reachable : ConsentManager -> Prop :=
| reachable_init (platform_did_ key : string) : reachable (init platform_did_ key)
| reachable_create (now : Z) (uuid salt patient_did : string) (terms : ConsentTerms)
    (m : ConsentManager) :
    reachable m -> reachable (create_consent_vc now uuid salt patient_did terms m).1
| reachable_withdraw (now : Z) (vc_id patient_did : string) (m : ConsentManager) :
    reachable m -> reachable (withdraw_consent now vc_id patient_did m).1.

(** Every registered credential has the subject block of some terms. *)
Definition subjects_issued (m : ConsentManager) : Prop :=
  forall vc_id vc, active_consents m !! vc_id = Some vc ->
    exists patient_did terms, credential_subject vc = make_credential_subject patient_did terms.

End ConsentVocabulary.

Section AuditQueryVocabulary.
Import Audit.

(** An event passes the filters of [get_audit_trail]: each filter that is
    given (for a string: given and not empty) holds of the event. *)
Definition selected (subject_ resource_id_ : option string) (start_date end_date : option Z)
    (e : AuditEvent) : Prop :=
  (forall s, subject_ = Some s -> s <> "" -> subject e = s) /\
  (forall r, resource_id_ = Some r -> r <> "" -> resource_id e = r) /\
  (forall d, start_date = Some d -> (d <= timestamp e)%Z) /\
  (forall d, end_date = Some d -> (timestamp e <= d)%Z).

(** The audit managers [record_audit_event] can produce from a new one. *)
Inductive recorded : AuditTrailManager -> Prop :=
| recorded_init (platform_did_ : string) : recorded (init platform_did_)
| recorded_event (now : Z) (token : string) (event_type_ : AuditEventType)
    (actor_ subject_ resource_id_ : string) (xrpl_tx_hash_ : option string)
    (metadata_ : option pydict) (m : AuditTrailManager) :
    recorded m ->
    recorded (record_audit_event now token event_type_ actor_ subject_ resource_id_
                xrpl_tx_hash_ metadata_ m).1.


End AuditQueryVocabulary.

(** * Properties *)

(** ** The escrow engine *)

Section EscrowProperties.
Context `{Host}.
Import Escrow.

Lemma timedelta_return (us : Z) :
  (-999999999 <= us / 86400000000 <= 999999999)%Z -> timedelta us = Return us.
Proof.
  intros [Hlo Hhi]. unfold timedelta.
  apply Z.leb_le in Hlo, Hhi. by rewrite Hlo, Hhi.
Qed.

Lemma timedelta_inv (us delta : Z) :
  timedelta us = Return delta ->
  delta = us /\ (-999999999 <= us / 86400000000 <= 999999999)%Z.
Proof.
  unfold timedelta.
  destruct (Z.leb_spec (-999999999) (us / 86400000000)),
    (Z.leb_spec (us / 86400000000) 999999999); cbn [andb];
    try (intros [= <-]; split; [done | lia]);
    by destruct (_ && _).
Qed.

Lemma datetime_add_return (dt delta : Z) :
  (datetime_min <= dt + delta <= datetime_max)%Z -> datetime_add dt delta = Return (dt + delta)%Z.
Proof.
  intros [Hlo Hhi]. unfold datetime_add.
  apply Z.leb_le in Hlo, Hhi. by rewrite Hlo, Hhi.
Qed.

Lemma datetime_add_inv (dt delta sum : Z) :
  datetime_add dt delta = Return sum ->
  sum = (dt + delta)%Z /\ (datetime_min <= dt + delta <= datetime_max)%Z.
Proof.
  unfold datetime_add.
  destruct (Z.leb_spec datetime_min (dt + delta)), (Z.leb_spec (dt + delta) datetime_max);
    cbn [andb]; try discriminate. intros [= <-]. split; [done | lia].
Qed.

Lemma hours_days (h : Z) : (hours h / 86400000000 = h / 24)%Z.
Proof.
  unfold hours. change 86400000000%Z with (24 * 3600000000)%Z.
  by rewrite Z.div_mul_cancel_r.
Qed.

(** The two dates of [create_escrow_offer], when they exist. *)
Lemma escrow_dates_return (now delivery_hours : Z) (dates : Z * Z) :
  escrow_dates now delivery_hours = Return dates ->
  dates = ((now + hours delivery_hours)%Z, (now + hours delivery_hours + hours 24)%Z) /\
  dates_representable now delivery_hours.
Proof.
  unfold escrow_dates, dates_representable. rewrite <- hours_days.
  destruct (timedelta (hours delivery_hours)) as [delta |] eqn:Hdelta;
    cbn [mbind outcome_bind]; [| discriminate].
  apply timedelta_inv in Hdelta as [-> Hdays].
  destruct (datetime_add now (hours delivery_hours)) as [deadline |] eqn:Hdeadline;
    cbn [mbind outcome_bind]; [| discriminate].
  apply datetime_add_inv in Hdeadline as [-> Hdeadline].
  destruct (timedelta (hours 24)) as [day |] eqn:Hday;
    cbn [mbind outcome_bind]; [| discriminate].
  apply timedelta_inv in Hday as [-> _].
  destruct (datetime_add (now + hours delivery_hours) (hours 24)) as [expiry |] eqn:Hexpiry;
    cbn [mbind outcome_bind]; [| discriminate].
  apply datetime_add_inv in Hexpiry as [-> Hexpiry].
  by intros [= <-].
Qed.

Lemma escrow_dates_eq (now delivery_hours : Z) :
  dates_representable now delivery_hours ->
  escrow_dates now delivery_hours
  = Return ((now + hours delivery_hours)%Z, (now + hours delivery_hours + hours 24)%Z).
Proof.
  intros (Hdays & Hdeadline & Hexpiry). unfold escrow_dates.
  rewrite (timedelta_return (hours delivery_hours)) by (by rewrite hours_days).
  cbn [mbind outcome_bind].
  rewrite datetime_add_return by done. cbn [mbind outcome_bind].
  rewrite (timedelta_return (hours 24)) by (by vm_compute). cbn [mbind outcome_bind].
  by rewrite datetime_add_return.
Qed.

(** When the two dates of [create_escrow_offer] exist. *)
Lemma escrow_dates_representable (now delivery_hours : Z) :
  is_return (escrow_dates now delivery_hours) = true <->
  dates_representable now delivery_hours.
Proof.
  split.
  - destruct (escrow_dates now delivery_hours) as [dates |] eqn:Hdates; [| discriminate].
    intros _. by apply escrow_dates_return in Hdates as [_ ?].
  - intros Hdates. by rewrite escrow_dates_eq.
Qed.

Lemma lookup_store_eq (eid : string) (e : EscrowContract) (m : XRPLEscrowManager) :
  active_escrows (store eid e m) !! eid = Some e.
Proof. apply lookup_insert_eq. Qed.

Lemma lookup_store_ne (eid k : string) (e : EscrowContract) (m : XRPLEscrowManager) :
  eid <> k -> active_escrows (store eid e m) !! k = active_escrows m !! k.
Proof. intros Hne. by apply lookup_insert_ne. Qed.

Lemma active_escrows_log (now : Z) (action eid p1 p2 : string) (a : float)
    (m : XRPLEscrowManager) :
  active_escrows (_log_escrow_action now action eid p1 p2 a m) = active_escrows m.
Proof. reflexivity. Qed.

(** C3. [fulfill_escrow] on a registered escrow returns success exactly
    when the escrow is LOCKED, the clock is not past [expires_at], the
    bundle hash given equals the bound one and the digest of the secret
    given equals the stored commitment; a success leaves the escrow
    FULFILLED. On a LOCKED, unexpired escrow a mismatch of the bundle hash
    or of the secret's digest returns failure and changes nothing, so the
    escrow stays LOCKED. On a LOCKED escrow past its expiry the call returns
    failure and the escrow becomes EXPIRED. *)
Theorem fulfill_escrow_iff (now : Z) (eid h secret : string)
    (m : XRPLEscrowManager) (e : EscrowContract) :
  active_escrows m !! eid = Some e ->
  let r := fulfill_escrow now eid h secret m in
  (r.2.1 = true <->
     status e = LOCKED /\ (now <= expires_at e)%Z /\
     h = fhir_bundle_hash (data_condition e) /\
     upper (sha256_hexdigest secret) = preimage_hash (data_condition e)) /\
  (r.2.1 = true ->
     active_escrows r.1 !! eid = Some (set_status FULFILLED e) /\
     status <$> active_escrows r.1 !! eid = Some FULFILLED) /\
  (status e = LOCKED -> (now <= expires_at e)%Z ->
     h <> fhir_bundle_hash (data_condition e) \/
     upper (sha256_hexdigest secret) <> preimage_hash (data_condition e) ->
     r = (m, (false, None)) /\
     status <$> active_escrows r.1 !! eid = Some LOCKED) /\
  (status e = LOCKED -> (expires_at e < now)%Z ->
     r.2 = (false, None) /\
     active_escrows r.1 !! eid = Some (set_status EXPIRED e) /\
     status <$> active_escrows r.1 !! eid = Some EXPIRED).
Proof.
  intros Hreg r. subst r. unfold fulfill_escrow. rewrite Hreg.
  destruct (bool_decide_reflect (status e = LOCKED)) as [Hst | Hst]; cbn [negb];
    [| by intuition].
  assert (Hlocked : status <$> active_escrows m !! eid = Some LOCKED)
    by (by rewrite Hreg, <- Hst).
  destruct (Z.gtb_spec now (expires_at e)) as [Hexp | Hexp].
  { cbn [fst snd]. rewrite lookup_store_eq. intuition (try discriminate; lia). }
  destruct (String.eqb_spec h (fhir_bundle_hash (data_condition e))) as [Hh | Hh];
    cbn [negb]; [| intuition (try discriminate; lia)].
  destruct (String.eqb_spec (upper (sha256_hexdigest secret))
              (preimage_hash (data_condition e))) as [Hd | Hd];
    cbn [negb]; [| intuition (try discriminate; lia)].
  cbn [fst snd]. rewrite active_escrows_log, lookup_store_eq.
  intuition (try discriminate; lia).
Qed.

(** [lock_escrow_funds] on a registered escrow returns [True] and writes
    LOCKED and the sequence, whatever the state of the escrow was. *)
Lemma lock_escrow_funds_registered (now : Z) (eid : string) (seq : Z)
    (m : XRPLEscrowManager) (e : EscrowContract) :
  active_escrows m !! eid = Some e ->
  let r := lock_escrow_funds now eid seq m in
  r.2 = true /\ active_escrows r.1 !! eid = Some (locked_with seq e) /\
  status <$> active_escrows r.1 !! eid = Some LOCKED /\
  xrpl_sequence <$> active_escrows r.1 !! eid = Some (Some seq).
Proof.
  intros Hreg r. subst r. unfold lock_escrow_funds. rewrite Hreg.
  split; [done |]. cbn [fst]. rewrite active_escrows_log, lookup_store_eq. done.
Qed.

(** X9. [cancel_escrow] on a registered escrow succeeds exactly when the clock
    is past [expires_at], whatever the state of the escrow was; a success
    writes EXPIRED, a failure changes nothing. *)
Lemma cancel_escrow_iff (now : Z) (eid : string) (m : XRPLEscrowManager) (e : EscrowContract) :
  active_escrows m !! eid = Some e ->
  let r := cancel_escrow now eid m in
  (r.2.1 = true <-> (expires_at e < now)%Z) /\
  (r.2.1 = true ->
     active_escrows r.1 !! eid = Some (set_status EXPIRED e) /\
     status <$> active_escrows r.1 !! eid = Some EXPIRED) /\
  (r.2.1 = false -> r = (m, (false, None))).
Proof.
  intros Hreg r. subst r. unfold cancel_escrow. rewrite Hreg.
  destruct (Z.leb_spec now (expires_at e)) as [Hle | Hgt].
  - intuition (try discriminate; lia).
  - cbn [fst snd]. rewrite active_escrows_log, lookup_store_eq.
    intuition (try discriminate; lia).
Qed.

End EscrowProperties.

Lemma fulfill_escrow_iff_witness :
  let e := Escrow.set_xrpl_sequence 12345 (Escrow.set_status Escrow.LOCKED Scenario.contract) in
  Escrow.active_escrows Scenario.locked !! "escrow_01" = Some e /\
  (Escrow.fulfill_escrow (H := reference_host) 2 "escrow_01" "bundle-hash" "5ec7e7"
     Scenario.locked).2.1 = true /\
  Escrow.fulfill_escrow (H := reference_host) 2 "escrow_01" "other-hash" "5ec7e7"
     Scenario.locked = (Scenario.locked, (false, None)) /\
  Escrow.status <$>
  Escrow.active_escrows
    (Escrow.fulfill_escrow (H := reference_host) Scenario.after_expiry "escrow_01"
       "bundle-hash" "5ec7e7" Scenario.locked).1 !! "escrow_01"
  = Some Escrow.EXPIRED.
Proof.
  intros e.
  assert (Hreg : Escrow.active_escrows Scenario.locked !! "escrow_01" = Some e)
    by (vm_compute; reflexivity).
  split; [exact Hreg |].
  split; [| split].
  - apply (fulfill_escrow_iff (H := reference_host) 2 "escrow_01" "bundle-hash" "5ec7e7"
             Scenario.locked e Hreg).
    vm_compute. repeat split; discriminate.
  - apply (fulfill_escrow_iff (H := reference_host) 2 "escrow_01" "other-hash" "5ec7e7"
             Scenario.locked e Hreg).
    + reflexivity.
    + vm_compute. discriminate.
    + left. vm_compute. discriminate.
  - apply (fulfill_escrow_iff (H := reference_host) Scenario.after_expiry "escrow_01"
             "bundle-hash" "5ec7e7" Scenario.locked e Hreg).
    + reflexivity.
    + vm_compute. reflexivity.
Defined.

(** C2. The escrow of the scenario, opened, locked and then FULFILLED, is
    cancelled by [cancel_escrow] once the clock is past its expiry: the call
    returns success with an EscrowCancel transaction, and the stored state
    goes from FULFILLED to EXPIRED. *)
Theorem cancel_escrow_overwrites_fulfilled :
  Escrow.status <$> (Escrow.active_escrows Scenario.fulfilled !! "escrow_01")
    = Some Escrow.FULFILLED /\
  let r := Escrow.cancel_escrow (H := reference_host) Scenario.after_expiry "escrow_01"
             Scenario.fulfilled in
  r.2.1 = true /\
  (dict_get "TransactionType" <$> r.2.2) = Some (Some (JStr "EscrowCancel")) /\
  Escrow.status <$> (Escrow.active_escrows r.1 !! "escrow_01") = Some Escrow.EXPIRED.
Proof. vm_compute. repeat split; reflexivity. Qed.

(** C4. The escrow of the scenario, opened, locked and then FULFILLED, is
    locked again by [lock_escrow_funds]: the call returns [True], the stored
    state goes from FULFILLED back to LOCKED and the sequence reference is
    replaced. *)
Theorem lock_escrow_funds_relocks_fulfilled :
  (Escrow.status <$> (Escrow.active_escrows Scenario.fulfilled !! "escrow_01")
     = Some Escrow.FULFILLED /\
   Escrow.xrpl_sequence <$> (Escrow.active_escrows Scenario.fulfilled !! "escrow_01")
     = Some (Some 12345)) /\
  let r := Escrow.lock_escrow_funds (H := reference_host) 3 "escrow_01" 999
             Scenario.fulfilled in
  r.2 = true /\
  Escrow.status <$> (Escrow.active_escrows r.1 !! "escrow_01") = Some Escrow.LOCKED /\
  Escrow.xrpl_sequence <$> (Escrow.active_escrows r.1 !! "escrow_01") = Some (Some 999).
Proof. vm_compute. repeat split; reflexivity. Qed.

Section EscrowRegistry.
Context `{Host}.
Import Escrow.

Lemma terms_of_log (now : Z) (action eid p1 p2 : string) (a : float) (m : XRPLEscrowManager) :
  terms_of (_log_escrow_action now action eid p1 p2 a m) = terms_of m.
Proof. reflexivity. Qed.

Lemma terms_of_store_same (eid : string) (e e' : EscrowContract) (m : XRPLEscrowManager) :
  active_escrows m !! eid = Some e ->
  amount e' = amount e -> consent_id e' = consent_id e ->
  terms_of (store eid e' m) = terms_of m.
Proof.
  intros Hreg Ha Hc. unfold terms_of, store. cbn [active_escrows].
  rewrite fmap_insert. apply insert_id.
  rewrite lookup_fmap, Hreg. cbn. by rewrite Ha, Hc.
Qed.

Lemma terms_of_lock (now : Z) (eid : string) (n : Z) (m : XRPLEscrowManager) :
  terms_of (lock_escrow_funds now eid n m).1 = terms_of m.
Proof.
  unfold lock_escrow_funds.
  destruct (active_escrows m !! eid) as [e |] eqn:Hreg; [| done].
  cbn [fst]. rewrite terms_of_log. by apply terms_of_store_same with e.
Qed.

Lemma terms_of_fulfill (now : Z) (eid h secret : string) (m : XRPLEscrowManager) :
  terms_of (fulfill_escrow now eid h secret m).1 = terms_of m.
Proof.
  unfold fulfill_escrow.
  destruct (active_escrows m !! eid) as [e |] eqn:Hreg; [| done].
  repeat case_match; cbn [fst]; rewrite ?terms_of_log; try done;
    by apply terms_of_store_same with e.
Qed.

Lemma terms_of_cancel (now : Z) (eid : string) (m : XRPLEscrowManager) :
  terms_of (cancel_escrow now eid m).1 = terms_of m.
Proof.
  unfold cancel_escrow.
  destruct (active_escrows m !! eid) as [e |] eqn:Hreg; [| done].
  case_match; [done |]. cbn [fst]. rewrite terms_of_log.
  by apply terms_of_store_same with e.
Qed.

(** C8 (as amended). [lock_escrow_funds], [fulfill_escrow] and
    [cancel_escrow] never change the amount or the consent id registered
    under any escrow id. [create_escrow_offer] looks neither at the sign of
    the amount nor at the escrows already registered for the consent id:
    when its two dates can be represented, the amount times 1,000,000
    converts to an integer and the expiry has a POSIX timestamp, it
    registers the new escrow, with the amount and the consent id it was
    given, under the generated id; when the date arithmetic overflows, or
    else the conversion raises (the product is NaN or infinite), or else
    [timestamp] raises, it raises that exception and changes nothing. *)
Theorem escrow_terms_registered_unchecked (now : Z) (m : XRPLEscrowManager) :
  (forall eid n, terms_of (lock_escrow_funds now eid n m).1 = terms_of m) /\
  (forall eid h secret, terms_of (fulfill_escrow now eid h secret m).1 = terms_of m) /\
  (forall eid, terms_of (cancel_escrow now eid m).1 = terms_of m) /\
  (forall token_id token_preimage payer_ payee_ amount_ consent_id_ hash_ delivery_hours,
     let r := create_escrow_offer now token_id token_preimage payer_ payee_ amount_
                consent_id_ hash_ delivery_hours m in
     match escrow_dates now delivery_hours with
     | Raise err => r = (m, Raise err)
     | Return (_, expires_at_) =>
         match int_of_float (amount_ * 1000000)%float with
         | Raise err => r = (m, Raise err)
         | Return _ =>
             match posix_timestamp expires_at_ with
             | Raise err => r = (m, Raise err)
             | Return _ =>
                 is_return r.2 = true /\
                 terms_of r.1
                 = <["escrow_" +:+ token_id := (amount_, consent_id_)]> (terms_of m)
             end
         end
     end) /\
  (forall delivery_hours dates,
     escrow_dates now delivery_hours = Return dates <->
     dates_representable now delivery_hours /\
     dates = ((now + hours delivery_hours)%Z, (now + hours delivery_hours + hours 24)%Z)).
Proof.
  split; [| split; [| split; [| split]]].
  - intros. apply terms_of_lock.
  - intros. apply terms_of_fulfill.
  - intros. apply terms_of_cancel.
  - intros. subst r. unfold create_escrow_offer, _build_escrow_create_transaction.
    destruct (escrow_dates now delivery_hours) as [[deadline expiry] | err]; [| done].
    cbn [amount expires_at].
    destruct (int_of_float (amount_ * 1000000)%float) as [drops | err];
      cbn [mbind outcome_bind]; [| done].
    destruct (posix_timestamp expiry) as [seconds | err];
      cbn [mbind outcome_bind]; [| done].
    split; [done |]. cbn [fst]. rewrite terms_of_log.
    unfold terms_of, store. cbn [active_escrows]. by rewrite fmap_insert.
  - intros. split.
    + intros Hdates. by apply escrow_dates_return in Hdates as [-> ?].
    + intros [Hdates ->]. by apply escrow_dates_eq.
Qed.

Lemma get_escrow_status_redact (eid : string) (m : XRPLEscrowManager) :
  get_escrow_status eid (redact_manager m) = get_escrow_status eid m.
Proof.
  unfold get_escrow_status, redact_manager. cbn [active_escrows].
  rewrite lookup_fmap. by destruct (active_escrows m !! eid).
Qed.

Lemma get_xrpl_memo_data_redact (eid : string) (m : XRPLEscrowManager) :
  get_xrpl_memo_data eid (redact_manager m) = get_xrpl_memo_data eid m.
Proof.
  unfold get_xrpl_memo_data, redact_manager. cbn [active_escrows].
  rewrite lookup_fmap. by destruct (active_escrows m !! eid).
Qed.

(** C9 (as amended). The outputs of [get_escrow_status] and of
    [get_xrpl_memo_data] are the same when the secret of every registered
    escrow is blanked, and the XRPL transaction returned by
    [create_escrow_offer] can be rebuilt from the new contract with its
    secret blanked: these carry the commitment only. The contract returned
    by [create_escrow_offer] next to that transaction does hold the secret
    in its [preimage] field. *)
Theorem preimage_only_in_returned_contract (now : Z) (m : XRPLEscrowManager) :
  (forall eid, get_escrow_status eid (redact_manager m) = get_escrow_status eid m) /\
  (forall eid, get_xrpl_memo_data eid (redact_manager m) = get_xrpl_memo_data eid m) /\
  (forall token_id token_preimage payer_ payee_ amount_ consent_id_ hash_ delivery_hours,
     match (create_escrow_offer now token_id token_preimage payer_ payee_ amount_
              consent_id_ hash_ delivery_hours m).2 with
     | Return (c, xrpl_transaction) =>
         preimage (data_condition c) = token_preimage /\
         preimage_hash (data_condition c) = upper (sha256_hexdigest token_preimage) /\
         _build_escrow_create_transaction (redact c) (redact_manager m)
           = Return xrpl_transaction
     | Raise _ => True
     end).
Proof.
  split; [| split].
  - intros. apply get_escrow_status_redact.
  - intros. apply get_xrpl_memo_data_redact.
  - intros. unfold create_escrow_offer, _build_escrow_create_transaction.
    destruct (escrow_dates now delivery_hours) as [[deadline expiry] | err]; [| done].
    cbn [amount expires_at].
    destruct (int_of_float (amount_ * 1000000)%float) as [drops | err] eqn:Hdrops;
      cbn [mbind outcome_bind snd]; [| done].
    destruct (posix_timestamp expiry) as [seconds | err] eqn:Hseconds;
      cbn [mbind outcome_bind snd]; [| done].
    split; [done |]. split; [done |].
    cbn [redact amount escrow_id expires_at].
    rewrite Hdrops. cbn [mbind outcome_bind]. rewrite Hseconds.
    cbn [mbind outcome_bind]. rewrite get_xrpl_memo_data_redact. done.
Qed.

End EscrowRegistry.

(** C8, as the specification states it, fails: a second escrow for the
    consent id ["c1"], with a negative amount, is registered next to the
    first one. *)
Lemma second_escrow_for_consent_registered :
  let m := (Escrow.create_escrow_offer (H := reference_host) 5 "02" "aa" Scenario.payer
              Scenario.payee (-5)%float "c1" "bundle-hash" 72 Scenario.opened.1).1 in
  (Escrow.consent_id <$> Escrow.active_escrows m !! "escrow_01" = Some "c1" /\
   Escrow.status <$> Escrow.active_escrows m !! "escrow_01" = Some Escrow.CREATED) /\
  (Escrow.consent_id <$> Escrow.active_escrows m !! "escrow_02" = Some "c1" /\
   Escrow.status <$> Escrow.active_escrows m !! "escrow_02" = Some Escrow.CREATED) /\
  Escrow.amount <$> Escrow.active_escrows m !! "escrow_02" = Some (-5)%float /\
  PrimFloat.leb (-5) 0 = true.
Proof. vm_compute. repeat split; reflexivity. Qed.

(** C9, as the specification states it, fails: the contract returned by
    [create_escrow_offer] holds the secret of the escrow, which is still in
    state CREATED. *)
Lemma create_escrow_offer_returns_preimage :
  (fun c : Escrow.EscrowContract =>
     (Escrow.preimage (Escrow.data_condition c), Escrow.status c)) <$>
  (match Scenario.opened.2 with Return (c, _) => Some c | Raise _ => None end)
  = Some ("5ec7e7", Escrow.CREATED).
Proof. vm_compute. reflexivity. Qed.

(** ** The audit trail *)

Section AuditProperties.
Context `{Host}.
Import Audit.

Lemma insert_by_timestamp_perm (e : AuditEvent) (l : list AuditEvent) :
  insert_by_timestamp e l ≡ₚ e :: l.
Proof.
  induction l as [| e' l IH]; cbn; [done |].
  case_match; [done |]. rewrite IH. apply Permutation_swap.
Qed.

Lemma sort_by_timestamp_perm (l : list AuditEvent) : sort_by_timestamp l ≡ₚ l.
Proof.
  induction l as [| e l IH]; cbn; [done |].
  fold (sort_by_timestamp l). by rewrite insert_by_timestamp_perm, IH.
Qed.

Lemma insert_by_timestamp_sorted (e : AuditEvent) (l : list AuditEvent) :
  Sorted not_later l -> Sorted not_later (insert_by_timestamp e l).
Proof.
  induction 1 as [| e' l Hs IH Hhd]; cbn.
  - by repeat constructor.
  - destruct (Z.leb_spec (timestamp e) (timestamp e')) as [Hle | Hgt].
    + by repeat constructor.
    + constructor; [done |].
      destruct Hhd as [| e'' l Hle]; cbn.
      * constructor. unfold not_later. lia.
      * destruct (Z.leb_spec (timestamp e) (timestamp e'')).
        -- constructor. unfold not_later. lia.
        -- by constructor.
Qed.

Lemma sort_by_timestamp_sorted (l : list AuditEvent) : Sorted not_later (sort_by_timestamp l).
Proof.
  induction l as [| e l IH]; cbn; [constructor |].
  by apply insert_by_timestamp_sorted.
Qed.




End AuditProperties.

(** C5. On the trail of the scenario, whose events for ["consent-1"] were
    appended with timestamps 20, 10, 30, [verify_data_integrity] reports
    the resource valid, and none of its three checks lists an issue. *)
Theorem verify_data_integrity_accepts_disorder :
  Audit.timestamp <$> Audit.audit_events Scenario.out_of_order = [20; 10; 30] /\
  let report := Audit.verify_data_integrity (H := reference_host) 40 "consent-1"
                  Scenario.out_of_order in
  dict_get "valid" report = Some (JBool true) /\
  dict_get "eventId" <$> report_checks report
    = [Some (JStr "audit_a2"); Some (JStr "audit_a1"); Some (JStr "audit_a3")] /\
  check_issues <$> report_checks report = [[]; []; []].
Proof. vm_compute. repeat split; reflexivity. Qed.

(** ** Consent credentials *)

Section ConsentProperties.
Context `{Host}.
Import Consent.

(** [json.dumps] escapes by code point: a Korean syllable and a Latin
    letter with an accent give one escape each, a character beyond the
    basic plane a surrogate pair; [s[:n]] and [len] count characters. *)
Lemma escape_body_code_points :
  escape_body "심방세동 é😀" = String backslash "uc2ec" +:+ String backslash "ubc29" +:+
                           String backslash "uc138" +:+ String backslash "ub3d9" +:+ " " +:+
                           String backslash "u00e9" +:+ String backslash "ud83d" +:+
                           String backslash "ude00" /\
  take_str 3 "심방세동 é😀" = "심방세" /\ len "심방세동 é😀" = 7%nat.
Proof. vm_compute. repeat split; reflexivity. Qed.

Lemma append_cons (x : ascii) (a b : string) : String x a +:+ b = String x (a +:+ b).
Proof. reflexivity. Qed.

Lemma append_assoc_str (a b c : string) : (a +:+ b) +:+ c = a +:+ (b +:+ c).
Proof. induction a as [| x a IH]; [done |]. by rewrite !append_cons, IH. Qed.

Lemma dumps_dict_canonical (items : pydict) :
  json_dumps_canonical (JDict items)
  = "{" +:+ join "," (map (render_item ":")
        (sort_by_key (map (fun kv => (kv.1, json_dumps_canonical kv.2)) items))) +:+ "}".
Proof.
  unfold json_dumps_canonical. cbn [dumps]. do 5 f_equal.
  apply map_ext. by intros [k v].
Qed.

Lemma encode_proof_key : encode_basestring_ascii "proof" = String dquote ("proof" +:+ str1 dquote).
Proof. reflexivity. Qed.

Lemma encode_type_key : encode_basestring_ascii "type" = String dquote ("type" +:+ str1 dquote).
Proof. reflexivity. Qed.

(** The text that is signed has a ["proof":null] member; the text that is
    checked has no ["proof"] member. The two differ at the first character
    after the ["issuer"] member. *)
Lemma canonical_form_proof_null_vs_stripped (v1 v2 v3 v4 v5 v6 v7 : json) :
  json_dumps_canonical
    (JDict [("@context", v1); ("id", v2); ("type", v3); ("issuer", v4);
            ("issuanceDate", v5); ("expirationDate", v6);
            ("credentialSubject", v7); ("proof", JNull)])
  <> json_dumps_canonical
    (JDict [("@context", v1); ("id", v2); ("type", v3); ("issuer", v4);
            ("issuanceDate", v5); ("expirationDate", v6);
            ("credentialSubject", v7)]).
Proof.
  rewrite !dumps_dict_canonical.
  cbn [map fst snd].
  set (r1 := json_dumps_canonical v1). set (r2 := json_dumps_canonical v2).
  set (r3 := json_dumps_canonical v3). set (r4 := json_dumps_canonical v4).
  set (r5 := json_dumps_canonical v5). set (r6 := json_dumps_canonical v6).
  set (r7 := json_dumps_canonical v7). set (r8 := json_dumps_canonical JNull).
  change (sort_by_key [("@context", r1); ("id", r2); ("type", r3); ("issuer", r4);
                       ("issuanceDate", r5); ("expirationDate", r6);
                       ("credentialSubject", r7); ("proof", r8)])
    with [("@context", r1); ("credentialSubject", r7); ("expirationDate", r6);
          ("id", r2); ("issuanceDate", r5); ("issuer", r4); ("proof", r8); ("type", r3)].
  change (sort_by_key [("@context", r1); ("id", r2); ("type", r3); ("issuer", r4);
                       ("issuanceDate", r5); ("expirationDate", r6);
                       ("credentialSubject", r7)])
    with [("@context", r1); ("credentialSubject", r7); ("expirationDate", r6);
          ("id", r2); ("issuanceDate", r5); ("issuer", r4); ("type", r3)].
  cbn [map join]. unfold render_item. cbn [fst snd].
  rewrite !append_assoc_str.
  intros Heq.
  do 25 (apply (inj (append _)) in Heq || idtac).
  rewrite encode_proof_key, encode_type_key, !append_cons in Heq.
  discriminate Heq.
Qed.

Section IdealCryptography.

(** The digest has no collisions. *)
Hypothesis sha256_collision_free : forall a b : string, sha256 a = sha256 b -> a = b.

(** A signature made with a key verifies, under the key's public half,
    against the signed digest only. *)
Hypothesis rsa_pss_unforgeable :
  forall key salt d d' : string,
    rsa_pss_verify (rsa_public_key key) (rsa_pss_sign key salt d) d' = true -> d = d'.

(** [_verify_proof] rejects the proof [_create_proof] has just made for a
    credential whose [proof] was still unset. *)
Lemma verify_proof_of_created_proof (now : Z) (salt : string) (vc : VerifiableCredential)
    (m m' : ConsentManager) :
  proof vc = None ->
  public_key m' = rsa_public_key (private_key m) ->
  _verify_proof (set_proof (Some (_create_proof now salt vc m)) vc) m' = false.
Proof.
  intros Hnone Hkey. unfold _verify_proof, _create_proof, to_dict.
  cbn [set_proof proof context id type issuer issuance_date expiration_date
       credential_subject dict_get dict_del String.eqb Ascii.eqb Bool.eqb].
  rewrite Hnone, Hkey.
  apply not_true_is_false. intros Hverify.
  apply rsa_pss_unforgeable, sha256_collision_free in Hverify.
  by apply canonical_form_proof_null_vs_stripped in Hverify.
Qed.

(** [verify_consent] on a registered credential whose subject block is the
    one [create_consent_vc] builds. *)
Lemma verify_consent_registered (later : Z) (vc_id recipient_ patient_did : string)
    (terms : ConsentTerms) (vc : VerifiableCredential) (m : ConsentManager) :
  active_consents m !! vc_id = Some vc ->
  credential_subject vc = make_credential_subject patient_did terms ->
  verify_consent later vc_id recipient_ m
  = Return (negb (later >? expiration_date vc)%Z
            && String.eqb (recipient terms) recipient_
            && _verify_proof vc m).
Proof.
  intros Hreg Hcs. unfold verify_consent. rewrite Hreg, Hcs.
  destruct (later >? expiration_date vc)%Z; [done |].
  cbn [make_credential_subject dict_item dict_get String.eqb Ascii.eqb Bool.eqb
       mbind outcome_bind subscript ne_str negb andb].
  destruct (String.eqb (recipient terms) recipient_); done.
Qed.

(** C1. A credential issued by [create_consent_vc] is rejected by
    [verify_consent] at every later clock reading and for every recipient,
    the recipient it names and a reading before its expiry included:
    [_create_proof] signs the digest of the canonical form that has a
    ["proof":null] member, [_verify_proof] checks the signature against the
    digest of the canonical form from which the ["proof"] member is
    deleted, and the two forms differ. The call never raises. *)
Theorem verify_consent_rejects_issued_credential
    (now : Z) (uuid salt patient_did : string) (terms : ConsentTerms) (m : ConsentManager)
    (later : Z) (recipient_ : string) :
  public_key m = rsa_public_key (private_key m) ->
  let r := create_consent_vc now uuid salt patient_did terms m in
  verify_consent later (id r.2) recipient_ r.1 = Return false.
Proof.
  intros Hkey r. subst r. unfold create_consent_vc. cbn [fst snd].
  match goal with
  | |- context [set_proof (Some (_create_proof now salt ?v m)) ?v] =>
      rewrite (verify_consent_registered later _ recipient_ patient_did terms
                 (set_proof (Some (_create_proof now salt v m)) v))
  end.
  - rewrite verify_proof_of_created_proof; [| done | done]. by rewrite andb_false_r.
  - apply lookup_insert_eq.
  - done.
Qed.

End IdealCryptography.

(** X15. Once withdrawn, a credential is unknown to [verify_consent]. *)
Lemma verify_consent_after_withdrawal (now later : Z) (vc_id patient_did recipient_ : string)
    (m : ConsentManager) :
  (withdraw_consent now vc_id patient_did m).2 = Return true ->
  verify_consent later vc_id recipient_ (withdraw_consent now vc_id patient_did m).1
  = Return false.
Proof.
  unfold withdraw_consent.
  destruct (active_consents m !! vc_id) as [vc |]; [| discriminate].
  destruct (dict_item "id" (credential_subject vc)); [| discriminate].
  destruct (ne_str _ _); [discriminate |].
  match goal with |- context [mbind ?f ?x] => destruct (mbind f x) end; [| discriminate].
  intros _. unfold verify_consent. cbn. by rewrite lookup_delete_eq.
Qed.

End ConsentProperties.

Lemma verify_consent_rejects_issued_credential_witness :
  let m := Consent.init (H := reference_host) "did:xrpl:sportique-platform-001" "key" in
  let r := Consent.create_consent_vc (H := reference_host) 0 "u1" "salt"
             "did:xrpl:patient-kim-001" Scenario.terms m in
  Consent.public_key m = rsa_public_key (Host := reference_host) (Consent.private_key m) /\
  (5 <= Consent.expiration_date r.2)%Z /\
  Consent.verify_consent (H := reference_host) 5 (Consent.id r.2)
    (Consent.recipient Scenario.terms) r.1 = Return false.
Proof.
  split; [reflexivity |]. split; [vm_compute; discriminate |].
  apply (verify_consent_rejects_issued_credential (H := reference_host)).
  - intros a b Hab. exact Hab.
  - intros key salt d d' Hverify. by apply String.eqb_eq in Hverify.
  - reflexivity.
Defined.

(** ** The platform *)

Section PlatformProperties.
Context `{Host}.
Import Platform.

(** A call of [accept_offer] that returns has appended that one event, and
    nothing else, to the audit trail. *)
Lemma accept_offer_audit_events (now : Z) (d : AcceptDraws)
    (offer_id_ patient_did_ patient_addr requester_addr : string) (p : SportiQuePlatform) :
  let r := accept_offer now d offer_id_ patient_did_ patient_addr requester_addr p in
  is_return r.2 = true ->
  Audit.audit_events (audit_manager r.1)
  = (Audit.audit_events (audit_manager p)
       ++ [consent_created_event now d offer_id_ patient_did_])%list.
Proof.
  intros r. subst r. unfold accept_offer.
  destruct (offers p !! offer_id_) as [offer |]; [| discriminate].
  destruct (bool_decide (status offer = PENDING)); cbn [negb]; [| discriminate].
  destruct (now >? valid_until offer)%Z; [discriminate |].
  unfold Consent.create_consent_vc.
  destruct (create_sample_heart_rate_bundle _ _ _ _ _) as [[bundle_id_ bundle_hash_] | err];
    [| discriminate].
  unfold Escrow.create_escrow_offer.
  destruct (Escrow.escrow_dates now 72) as [[deadline expiry] | err]; [| discriminate].
  destruct (Escrow._build_escrow_create_transaction _ _) as [xrpl_tx | err];
    [| discriminate].
  intros _. reflexivity.
Qed.

(** C6 (as amended). Every call of [accept_offer] that returns appends
    exactly one audit event to the audit trail: a CONSENT_CREATED event for
    the new consent id, stamped with the clock reading, with the patient as
    actor and subject, whose metadata names the escrow by its id. No event
    for the creation of the escrow is appended. *)
Theorem accept_offer_appends_consent_created_only (now : Z) (d : AcceptDraws)
    (offer_id_ patient_did_ patient_addr requester_addr : string) (p : SportiQuePlatform) :
  let r := accept_offer now d offer_id_ patient_did_ patient_addr requester_addr p in
  is_return r.2 = true ->
  exists e : Audit.AuditEvent,
    Audit.audit_events (audit_manager r.1)
      = (Audit.audit_events (audit_manager p) ++ [e])%list /\
    Audit.event_type e = Audit.CONSENT_CREATED /\
    Audit.resource_id e = "urn:uuid:" +:+ vc_uuid d /\
    Audit.timestamp e = now /\
    Audit.actor e = patient_did_ /\ Audit.subject e = patient_did_ /\
    (dict_get "escrowId" <$> Audit.metadata e)
      = Some (Some (JStr ("escrow_" +:+ escrow_token d))).
Proof.
  intros r Hret. exists (consent_created_event now d offer_id_ patient_did_).
  split; [by apply accept_offer_audit_events |]. by repeat split.
Qed.

(** C10. The CONSENT_CREATED event appended by a call of [accept_offer]
    that returns has the metadata keys offerId, transactionId and escrowId
    and the compliance status NON_COMPLIANT; and the compliance rule marks
    a CONSENT_CREATED event COMPLIANT exactly when its metadata has all of
    the keys purpose, dataTypes, retentionPeriod and recipient. *)
Theorem accept_offer_consent_event_non_compliant (now : Z) (d : AcceptDraws)
    (offer_id_ patient_did_ patient_addr requester_addr : string) (p : SportiQuePlatform) :
  let r := accept_offer now d offer_id_ patient_did_ patient_addr requester_addr p in
  is_return r.2 = true ->
  (exists e : Audit.AuditEvent,
     Audit.audit_events (audit_manager r.1)
      = (Audit.audit_events (audit_manager p) ++ [e])%list /\
     Audit.event_type e = Audit.CONSENT_CREATED /\
     (fst <$> default [] (Audit.metadata e)) = ["offerId"; "transactionId"; "escrowId"] /\
     Audit.compliance_status e = Some "NON_COMPLIANT" /\
     Audit.compliance_status e = Some (Audit._check_compliance e)) /\
  (forall ev : Audit.AuditEvent,
     Audit.event_type ev = Audit.CONSENT_CREATED ->
     (Audit._check_compliance ev = "COMPLIANT" <->
      exists md, Audit.metadata ev = Some md /\
        dict_in "purpose" md = true /\ dict_in "dataTypes" md = true /\
        dict_in "retentionPeriod" md = true /\ dict_in "recipient" md = true)).
Proof.
  intros r Hret. split.
  - exists (consent_created_event now d offer_id_ patient_did_).
    split; [by apply accept_offer_audit_events |]. by repeat split.
  - intros ev Hty. unfold Audit._check_compliance. rewrite Hty.
    rewrite bool_decide_eq_true_2 by done.
    destruct (Audit.metadata ev) as [[| item items] |].
    + split; [discriminate |]. intros (md & [= <-] & Hp & _). discriminate.
    + unfold Audit.all_in. cbn [forallb].
      destruct (dict_in "purpose" (item :: items)) eqn:Hpurpose,
        (dict_in "dataTypes" (item :: items)) eqn:Htypes,
        (dict_in "retentionPeriod" (item :: items)) eqn:Hretention,
        (dict_in "recipient" (item :: items)) eqn:Hrecipient;
        cbn; split; try discriminate;
        try (intros (md & [= <-] & ? & ? & ? & ?); congruence).
      intros _. exists (item :: items). by repeat split.
    + split; [discriminate |]. by intros (md & ? & _).
Qed.


End PlatformProperties.

Lemma accept_offer_appends_consent_created_only_witness :
  is_return Scenario.accepted.2 = true /\
  exists e : Audit.AuditEvent,
    Audit.audit_events (Platform.audit_manager Scenario.accepted.1)
      = (Audit.audit_events (Platform.audit_manager Scenario.offered) ++ [e])%list /\
    Audit.event_type e = Audit.CONSENT_CREATED /\
    Audit.resource_id e = "urn:uuid:u1" /\
    Audit.timestamp e = 10 /\
    Audit.actor e = "did:xrpl:patient-kim-001" /\
    Audit.subject e = "did:xrpl:patient-kim-001" /\
    (dict_get "escrowId" <$> Audit.metadata e) = Some (Some (JStr "escrow_01")).
Proof.
  split; [vm_compute; reflexivity |].
  apply (accept_offer_appends_consent_created_only (H := reference_host) 10 Scenario.draws
           "offer_0ffe5" "did:xrpl:patient-kim-001" Scenario.payee Scenario.payer
           Scenario.offered).
  vm_compute. reflexivity.
Defined.

Lemma accept_offer_consent_event_non_compliant_witness :
  is_return Scenario.accepted.2 = true /\
  exists e : Audit.AuditEvent,
    Audit.audit_events (Platform.audit_manager Scenario.accepted.1)
      = (Audit.audit_events (Platform.audit_manager Scenario.offered) ++ [e])%list /\
    Audit.event_type e = Audit.CONSENT_CREATED /\
    (fst <$> default [] (Audit.metadata e)) = ["offerId"; "transactionId"; "escrowId"] /\
    Audit.compliance_status e = Some "NON_COMPLIANT" /\
    Audit.compliance_status e = Some (Audit._check_compliance e).
Proof.
  split; [vm_compute; reflexivity |].
  apply (accept_offer_consent_event_non_compliant (H := reference_host) 10 Scenario.draws
           "offer_0ffe5" "did:xrpl:patient-kim-001" Scenario.payee Scenario.payer
           Scenario.offered).
  vm_compute. reflexivity.
Defined.

(** C6, as the specification states it, fails: the accepted offer of the
    scenario leaves one new event on the audit trail, the CONSENT_CREATED
    one, and no ESCROW_CREATED event. *)
Lemma accept_offer_appends_one_event :
  is_return Scenario.accepted.2 = true /\
  Audit.event_type <$> Audit.audit_events (Platform.audit_manager Scenario.offered)
    = [Audit.DATA_REQUESTED] /\
  Audit.event_type <$> Audit.audit_events (Platform.audit_manager Scenario.accepted.1)
    = [Audit.DATA_REQUESTED; Audit.CONSENT_CREATED].
Proof. vm_compute. repeat split; reflexivity. Qed.



(** * Further properties *)

(** ** The escrow engine: identifiers, composition, history *)

Section EscrowLifecycle.
Context `{Host}.
Import Escrow.

(** X1. An identifier that is not registered is refused by every operation:
    [lock_escrow_funds], [fulfill_escrow] and [cancel_escrow] return
    failure and change nothing, [get_escrow_status] returns [None] and
    [get_xrpl_memo_data] the empty dict. *)
Theorem unregistered_escrow_id_refused (now : Z) (eid : string) (m : XRPLEscrowManager) :
  active_escrows m !! eid = None ->
  (forall seq, lock_escrow_funds now eid seq m = (m, false)) /\
  (forall h secret, fulfill_escrow now eid h secret m = (m, (false, None))) /\
  cancel_escrow now eid m = (m, (false, None)) /\
  get_escrow_status eid m = None /\
  get_xrpl_memo_data eid m = [].
Proof.
  intros Hnone.
  unfold lock_escrow_funds, fulfill_escrow, cancel_escrow, get_escrow_status,
    get_xrpl_memo_data.
  rewrite Hnone. by repeat split.
Qed.

(** The contract [create_escrow_offer] registers. *)
Lemma create_escrow_offer_registers (now : Z) (token_id token_preimage payer_ payee_ : string)
    (amount_ : float) (consent_id_ hash_ : string) (delivery_hours : Z)
    (m : XRPLEscrowManager) :
  let r := create_escrow_offer now token_id token_preimage payer_ payee_ amount_
             consent_id_ hash_ delivery_hours m in
  is_return r.2 = true ->
  active_escrows r.1 !! ("escrow_" +:+ token_id)
  = Some {| escrow_id := "escrow_" +:+ token_id; payer := payer_; payee := payee_;
            amount := amount_; consent_id := consent_id_;
            data_condition :=
              {| fhir_bundle_hash := hash_; preimage := token_preimage;
                 preimage_hash := upper (sha256_hexdigest token_preimage);
                 delivery_deadline := now + hours delivery_hours |};
            created_at := now; expires_at := now + hours delivery_hours + hours 24;
            status := CREATED; xrpl_sequence := None; fulfillment_tx := None |}.
Proof.
  intros r. subst r. unfold create_escrow_offer.
  destruct (escrow_dates now delivery_hours) as [dates |] eqn:Hdates; [| discriminate].
  apply escrow_dates_return in Hdates as [-> _].
  destruct (_build_escrow_create_transaction _ _); [| discriminate].
  intros _. cbn [fst]. rewrite active_escrows_log. apply lookup_store_eq.
Qed.

(** X2. Commit and reveal. An escrow opened by [create_escrow_offer], then
    locked, is fulfilled by the bundle hash and the secret it was opened
    with, at any clock reading up to its expiry ([delivery_hours] + 24 hours
    after opening): [fulfill_escrow] returns success with an EscrowFinish
    transaction whose [Fulfillment] is the secret in upper case and whose
    [OfferSequence] is the sequence of the lock, and the escrow is
    FULFILLED. *)
Theorem escrow_commit_reveal_round_trip (now lock_time fulfill_time : Z)
    (token_id token_preimage payer_ payee_ : string) (amount_ : float)
    (consent_id_ hash_ : string) (delivery_hours seq : Z) (m : XRPLEscrowManager) :
  let opened := create_escrow_offer now token_id token_preimage payer_ payee_ amount_
                  consent_id_ hash_ delivery_hours m in
  let eid := "escrow_" +:+ token_id in
  let locked := lock_escrow_funds lock_time eid seq opened.1 in
  let r := fulfill_escrow fulfill_time eid hash_ token_preimage locked.1 in
  is_return opened.2 = true ->
  (fulfill_time <= now + hours delivery_hours + hours 24)%Z ->
  locked.2 = true /\
  r.2.1 = true /\
  status <$> active_escrows r.1 !! eid = Some FULFILLED /\
  (dict_get "Fulfillment" <$> r.2.2) = Some (Some (JStr (upper token_preimage))) /\
  (dict_get "OfferSequence" <$> r.2.2) = Some (Some (JInt seq)).
Proof.
  intros opened eid locked r Hret Htime.
  pose proof (create_escrow_offer_registers now token_id token_preimage payer_ payee_
                amount_ consent_id_ hash_ delivery_hours m Hret) as Hreg.
  fold opened eid in Hreg.
  subst locked r. unfold lock_escrow_funds. rewrite Hreg.
  split; [done |]. cbn [fst snd].
  unfold fulfill_escrow. cbn [active_escrows _log_escrow_action store].
  rewrite lookup_insert_eq.
  cbn [status set_status set_xrpl_sequence expires_at data_condition fhir_bundle_hash
       preimage_hash].
  rewrite bool_decide_eq_true_2 by done. cbn [negb].
  destruct (Z.gtb_spec fulfill_time (now + hours delivery_hours + hours 24)) as [Hgt | _];
    [lia |].
  rewrite !String.eqb_refl. cbn [negb fst snd active_escrows _log_escrow_action store].
  rewrite lookup_insert_eq. by repeat split.
Qed.

(** X3. Fulfilled once. After a successful [fulfill_escrow], every further
    [fulfill_escrow] for the same identifier, whatever its arguments and
    the clock reading, returns failure and changes nothing. *)
Theorem fulfill_escrow_only_once (now : Z) (eid h secret : string) (m : XRPLEscrowManager) :
  let r := fulfill_escrow now eid h secret m in
  r.2.1 = true ->
  forall (now' : Z) (h' secret' : string),
    fulfill_escrow now' eid h' secret' r.1 = (r.1, (false, None)).
Proof.
  intros r Hok now' h' secret'.
  assert (exists e, active_escrows r.1 !! eid = Some e /\ status e = FULFILLED)
    as (e & Hreg & Hst).
  { subst r. unfold fulfill_escrow in *.
    destruct (active_escrows m !! eid) as [e |]; [| discriminate].
    repeat (case_match; try discriminate).
    eexists. split; [apply lookup_insert_eq | done]. }
  clearbody r. unfold fulfill_escrow. rewrite Hreg.
  rewrite bool_decide_eq_false_2; [done |]. rewrite Hst. discriminate.
Qed.

(** X4. No operation removes an escrow or touches the entry of another
    identifier: [lock_escrow_funds], [fulfill_escrow] and [cancel_escrow]
    keep the set of registered identifiers, and they and
    [create_escrow_offer] leave every entry other than the one of their own
    identifier as it was. *)
Theorem escrow_operations_touch_own_entry (now : Z) (eid : string) (m : XRPLEscrowManager) :
  (forall seq,
     let r := lock_escrow_funds now eid seq m in
     dom (active_escrows r.1) = dom (active_escrows m) /\
     delete eid (active_escrows r.1) = delete eid (active_escrows m)) /\
  (forall h secret,
     let r := fulfill_escrow now eid h secret m in
     dom (active_escrows r.1) = dom (active_escrows m) /\
     delete eid (active_escrows r.1) = delete eid (active_escrows m)) /\
  (let r := cancel_escrow now eid m in
   dom (active_escrows r.1) = dom (active_escrows m) /\
   delete eid (active_escrows r.1) = delete eid (active_escrows m)) /\
  (forall token_preimage payer_ payee_ amount_ consent_id_ hash_ delivery_hours,
     let r := create_escrow_offer now eid token_preimage payer_ payee_ amount_
                consent_id_ hash_ delivery_hours m in
     delete ("escrow_" +:+ eid) (active_escrows r.1)
     = delete ("escrow_" +:+ eid) (active_escrows m)).
Proof.
  assert (Hstore : forall e e', active_escrows m !! eid = Some e ->
            dom (active_escrows (store eid e' m)) = dom (active_escrows m) /\
            delete eid (active_escrows (store eid e' m)) = delete eid (active_escrows m)).
  { intros e e' Hreg. unfold store. cbn [active_escrows]. split.
    - by apply dom_insert_lookup_L.
    - apply delete_insert_eq. }
  split; [| split; [| split]].
  - intros seq r. subst r. unfold lock_escrow_funds.
    destruct (active_escrows m !! eid) as [e |] eqn:Hreg; [| done].
    cbn [fst]. rewrite active_escrows_log. by apply Hstore with e.
  - intros h secret r. subst r. unfold fulfill_escrow.
    destruct (active_escrows m !! eid) as [e |] eqn:Hreg; [| done].
    repeat case_match; cbn [fst]; rewrite ?active_escrows_log; try done;
      by apply Hstore with e.
  - intros r. subst r. unfold cancel_escrow.
    destruct (active_escrows m !! eid) as [e |] eqn:Hreg; [| done].
    case_match; [done |]. cbn [fst]. rewrite active_escrows_log. by apply Hstore with e.
  - intros. subst r. unfold create_escrow_offer.
    destruct (escrow_dates now delivery_hours) as [[deadline expiry] |]; [| done].
    destruct (_build_escrow_create_transaction _ _); [| done].
    cbn [fst]. rewrite active_escrows_log. unfold store. cbn [active_escrows].
    apply delete_insert_eq.
Qed.

(** X5. The history is append-only and records exactly the successes: a
    call of [lock_escrow_funds], [fulfill_escrow] or [cancel_escrow] that
    succeeds appends one entry, with its action and the identifier, and a
    call that fails appends none (also when [fulfill_escrow] moves an
    expired escrow to EXPIRED). [cancel_escrow] logs the action CANCELLED. *)
Theorem escrow_history_records_successes (now : Z) (eid : string) (m : XRPLEscrowManager) :
  (forall seq,
     let r := lock_escrow_funds now eid seq m in
     if r.2
     then exists entry, escrow_history r.1 = (escrow_history m ++ [entry])%list /\
            dict_get "action" entry = Some (JStr "LOCKED") /\
            dict_get "escrowId" entry = Some (JStr eid)
     else escrow_history r.1 = escrow_history m) /\
  (forall h secret,
     let r := fulfill_escrow now eid h secret m in
     if r.2.1
     then exists entry, escrow_history r.1 = (escrow_history m ++ [entry])%list /\
            dict_get "action" entry = Some (JStr "FULFILLED") /\
            dict_get "escrowId" entry = Some (JStr eid)
     else escrow_history r.1 = escrow_history m) /\
  (let r := cancel_escrow now eid m in
   if r.2.1
   then exists entry, escrow_history r.1 = (escrow_history m ++ [entry])%list /\
          dict_get "action" entry = Some (JStr "CANCELLED") /\
          dict_get "escrowId" entry = Some (JStr eid)
   else escrow_history r.1 = escrow_history m).
Proof.
  split; [| split].
  - intros seq r. subst r. unfold lock_escrow_funds.
    destruct (active_escrows m !! eid); [| done]. cbn.
    eexists. split; [reflexivity | split; reflexivity].
  - intros h secret r. subst r. unfold fulfill_escrow.
    destruct (active_escrows m !! eid) as [e |]; [| done].
    destruct (negb (bool_decide (status e = LOCKED))); [done |].
    destruct (now >? expires_at e)%Z; [done |].
    destruct (negb (h =? fhir_bundle_hash (data_condition e))%string); [done |].
    destruct (negb (upper (sha256_hexdigest secret) =? preimage_hash (data_condition e))%string);
      [done |].
    cbn. eexists. split; [reflexivity | split; reflexivity].
  - intros r. subst r. unfold cancel_escrow.
    destruct (active_escrows m !! eid) as [e |]; [| done].
    destruct (now <=? expires_at e)%Z; cbn; [done |].
    eexists. split; [reflexivity | split; reflexivity].
Qed.

Lemma status_after_store (eid k : string) (e e' : EscrowContract) (m : XRPLEscrowManager) :
  active_escrows m !! eid = Some e ->
  status <$> active_escrows (store eid e' m) !! k = status <$> active_escrows m !! k \/
  status <$> active_escrows (store eid e' m) !! k = Some (status e').
Proof.
  intros Hreg. unfold store. cbn [active_escrows].
  destruct (decide (eid = k)) as [<- | Hne].
  - right. by rewrite lookup_insert_eq.
  - left. by rewrite lookup_insert_ne.
Qed.

(** X6. The states an operation can write. Under every identifier, the state
    after [lock_escrow_funds] is the state before or LOCKED; after
    [fulfill_escrow] the state before, FULFILLED or EXPIRED; after
    [cancel_escrow] the state before or EXPIRED. No operation writes
    CANCELLED. *)
Theorem escrow_states_written (now : Z) (eid k : string) (m : XRPLEscrowManager) :
  let before := status <$> active_escrows m !! k in
  (forall seq,
     let after := status <$> active_escrows (lock_escrow_funds now eid seq m).1 !! k in
     after = before \/ after = Some LOCKED) /\
  (forall h secret,
     let after := status <$> active_escrows (fulfill_escrow now eid h secret m).1 !! k in
     after = before \/ after = Some FULFILLED \/ after = Some EXPIRED) /\
  (let after := status <$> active_escrows (cancel_escrow now eid m).1 !! k in
   after = before \/ after = Some EXPIRED).
Proof.
  intros before. subst before. split; [| split].
  - intros seq after. subst after. unfold lock_escrow_funds.
    destruct (active_escrows m !! eid) as [e |] eqn:Hreg; [| by left].
    cbn [fst]. rewrite active_escrows_log.
    by destruct (status_after_store eid k e
                   (set_xrpl_sequence seq (set_status LOCKED e)) m Hreg); [left | right].
  - intros h secret after. subst after. unfold fulfill_escrow.
    destruct (active_escrows m !! eid) as [e |] eqn:Hreg; [| by left].
    repeat case_match; cbn [fst]; rewrite ?active_escrows_log; try (by left).
    + destruct (status_after_store eid k e (set_status EXPIRED e) m Hreg); auto.
    + destruct (status_after_store eid k e (set_status FULFILLED e) m Hreg); auto.
  - intros after. subst after. unfold cancel_escrow.
    destruct (active_escrows m !! eid) as [e |] eqn:Hreg; [| by left].
    case_match; [by left |]. cbn [fst]. rewrite active_escrows_log.
    destruct (status_after_store eid k e (set_status EXPIRED e) m Hreg); auto.
Qed.

(** X7. The memo of the EscrowCreate transaction is built before the escrow is
    registered. For an identifier that is not yet registered, the
    transaction [create_escrow_offer] returns carries the memo data of the
    empty dict (the text [{}], in hexadecimal 7B7D), although
    [get_xrpl_memo_data] for the new escrow, asked after the call, names
    the escrow, its consent, the first 32 characters of the bundle hash and
    the amount. *)
Theorem create_escrow_offer_memo_is_empty (now : Z)
    (token_id token_preimage payer_ payee_ : string) (amount_ : float)
    (consent_id_ hash_ : string) (delivery_hours : Z) (m : XRPLEscrowManager) :
  let eid := "escrow_" +:+ token_id in
  let r := create_escrow_offer now token_id token_preimage payer_ payee_ amount_
             consent_id_ hash_ delivery_hours m in
  active_escrows m !! eid = None ->
  is_return r.2 = true ->
  (exists c xrpl_transaction,
     r.2 = Return (c, xrpl_transaction) /\
     dict_get "Memos" xrpl_transaction
     = Some (JList [JDict [("Memo",
               JDict [("MemoType", JStr "53706F727469517565457363726F77");
                      ("MemoData", JStr "7B7D")])]])) /\
  get_xrpl_memo_data eid r.1
  = [("EscrowID", JStr eid); ("ConsentID", JStr consent_id_);
     ("DataHash", JStr (take_str 32 hash_)); ("Amount", JStr (float_repr amount_));
     ("Purpose", JStr "HealthDataPayment")].
Proof.
  intros eid r Hfresh. subst r. unfold create_escrow_offer, _build_escrow_create_transaction.
  destruct (escrow_dates now delivery_hours) as [[deadline expiry] |]; [| discriminate].
  cbn [amount escrow_id expires_at]. fold eid.
  destruct (int_of_float (amount_ * 1000000)%float) as [drops | err];
    cbn [mbind outcome_bind]; [| discriminate].
  destruct (posix_timestamp expiry) as [seconds | err];
    cbn [mbind outcome_bind]; [| discriminate].
  intros _. split.
  - do 2 eexists. split; [reflexivity |].
    unfold get_xrpl_memo_data. rewrite Hfresh. reflexivity.
  - cbn [fst]. unfold get_xrpl_memo_data.
    cbn [active_escrows _log_escrow_action store]. by rewrite lookup_insert_eq.
Qed.

Lemma take_str_length (n : nat) (s : string) :
  len (take_str n s) = Nat.min n (len s).
Proof.
  revert n. induction s as [| c s IH]; intros n; cbn [take_str len].
  - by destruct n.
  - destruct (continuation c) eqn:Hc; cbn [len]; rewrite ?Hc; [apply IH |].
    destruct n as [| n]; cbn [len]; rewrite ?Hc; [done |]. by rewrite IH.
Qed.

Lemma take_str_prefix (n : nat) (s : string) : String.prefix (take_str n s) s = true.
Proof.
  revert n. induction s as [| c s IH]; intros n; cbn [take_str]; [done |].
  destruct (continuation c); [| destruct n as [| n]; [done |]];
    cbn [String.prefix]; (destruct (Ascii.ascii_dec c c); [apply IH | done]).
Qed.

(** X8. The memo data of a registered escrow has the five keys EscrowID,
    ConsentID, DataHash, Amount and Purpose; its DataHash is a prefix of
    the bundle hash, 32 characters long ([len]) or the whole hash when that
    is shorter. *)
Theorem memo_data_hash_truncated (eid : string) (m : XRPLEscrowManager) (e : EscrowContract) :
  active_escrows m !! eid = Some e ->
  (fst <$> get_xrpl_memo_data eid m)
    = ["EscrowID"; "ConsentID"; "DataHash"; "Amount"; "Purpose"] /\
  exists data_hash,
    dict_get "DataHash" (get_xrpl_memo_data eid m) = Some (JStr data_hash) /\
    String.prefix data_hash (fhir_bundle_hash (data_condition e)) = true /\
    len data_hash = Nat.min 32 (len (fhir_bundle_hash (data_condition e))).
Proof.
  intros Hreg. unfold get_xrpl_memo_data. rewrite Hreg. split; [done |].
  eexists. split; [reflexivity |]. split; [apply take_str_prefix | apply take_str_length].
Qed.

End EscrowLifecycle.

Lemma unregistered_escrow_id_refused_witness :
  Escrow.active_escrows Scenario.locked !! "escrow_02" = None /\
  Escrow.cancel_escrow (H := reference_host) Scenario.after_expiry "escrow_02" Scenario.locked
  = (Scenario.locked, (false, None)).
Proof.
  assert (Hnone : Escrow.active_escrows Scenario.locked !! "escrow_02" = None)
    by (vm_compute; reflexivity).
  split; [exact Hnone |].
  apply (unregistered_escrow_id_refused (H := reference_host) Scenario.after_expiry
           "escrow_02" Scenario.locked Hnone).
Defined.

Lemma escrow_commit_reveal_round_trip_witness :
  is_return Scenario.opened.2 = true /\
  (2 <= 0 + Escrow.hours 72 + Escrow.hours 24)%Z /\
  (Escrow.fulfill_escrow (H := reference_host) 2 "escrow_01" "bundle-hash" "5ec7e7"
     Scenario.locked).2.1 = true.
Proof.
  assert (Hret : is_return Scenario.opened.2 = true) by (vm_compute; reflexivity).
  assert (Htime : (2 <= 0 + Escrow.hours 72 + Escrow.hours 24)%Z)
    by (vm_compute; discriminate).
  split; [exact Hret |]. split; [exact Htime |].
  apply (escrow_commit_reveal_round_trip (H := reference_host) 0 1 2 "01" "5ec7e7"
           Scenario.payer Scenario.payee 50%float "c1" "bundle-hash" 72 12345
           (Escrow.init true) Hret Htime).
Defined.

Lemma fulfill_escrow_only_once_witness :
  (Escrow.fulfill_escrow (H := reference_host) 2 "escrow_01" "bundle-hash" "5ec7e7"
     Scenario.locked).2.1 = true /\
  Escrow.fulfill_escrow (H := reference_host) 3 "escrow_01" "bundle-hash" "5ec7e7"
    Scenario.fulfilled = (Scenario.fulfilled, (false, None)).
Proof.
  assert (Hok : (Escrow.fulfill_escrow (H := reference_host) 2 "escrow_01" "bundle-hash"
                   "5ec7e7" Scenario.locked).2.1 = true) by (vm_compute; reflexivity).
  split; [exact Hok |].
  apply (fulfill_escrow_only_once (H := reference_host) 2 "escrow_01" "bundle-hash" "5ec7e7"
           Scenario.locked Hok 3 "bundle-hash" "5ec7e7").
Defined.

Lemma create_escrow_offer_memo_is_empty_witness :
  Escrow.active_escrows (Escrow.init true) !! "escrow_01" = None /\
  is_return Scenario.opened.2 = true /\
  Escrow.get_xrpl_memo_data (H := reference_host) "escrow_01" Scenario.opened.1
  = [("EscrowID", JStr "escrow_01"); ("ConsentID", JStr "c1");
     ("DataHash", JStr "bundle-hash"); ("Amount", JStr "7036874417766400p-47");
     ("Purpose", JStr "HealthDataPayment")].
Proof.
  assert (Hfresh : Escrow.active_escrows (Escrow.init true) !! "escrow_01" = None)
    by reflexivity.
  assert (Hret : is_return Scenario.opened.2 = true) by (vm_compute; reflexivity).
  split; [exact Hfresh |]. split; [exact Hret |].
  apply (create_escrow_offer_memo_is_empty (H := reference_host) 0 "01" "5ec7e7"
           Scenario.payer Scenario.payee 50%float "c1" "bundle-hash" 72
           (Escrow.init true) Hfresh Hret).
Defined.

Lemma memo_data_hash_truncated_witness :
  Escrow.active_escrows Scenario.opened.1 !! "escrow_01" = Some Scenario.contract /\
  (fst <$> Escrow.get_xrpl_memo_data (H := reference_host) "escrow_01" Scenario.opened.1)
  = ["EscrowID"; "ConsentID"; "DataHash"; "Amount"; "Purpose"].
Proof.
  assert (Hreg : Escrow.active_escrows Scenario.opened.1 !! "escrow_01"
                 = Some Scenario.contract) by (vm_compute; reflexivity).
  split; [exact Hreg |].
  apply (memo_data_hash_truncated (H := reference_host) "escrow_01" Scenario.opened.1
           Scenario.contract Hreg).
Defined.

Lemma cancel_escrow_iff_witness :
  let e := Escrow.set_status Escrow.FULFILLED
             (Escrow.set_xrpl_sequence 12345 (Escrow.set_status Escrow.LOCKED
                                                Scenario.contract)) in
  Escrow.active_escrows Scenario.fulfilled !! "escrow_01" = Some e /\
  Escrow.cancel_escrow (H := reference_host) 3 "escrow_01" Scenario.fulfilled
  = (Scenario.fulfilled, (false, None)) /\
  Escrow.status <$>
  Escrow.active_escrows
    (Escrow.cancel_escrow (H := reference_host) Scenario.after_expiry "escrow_01"
       Scenario.fulfilled).1 !! "escrow_01"
  = Some Escrow.EXPIRED.
Proof.
  intros e.
  assert (Hreg : Escrow.active_escrows Scenario.fulfilled !! "escrow_01" = Some e)
    by (vm_compute; reflexivity).
  split; [exact Hreg |]. split.
  - apply (cancel_escrow_iff (H := reference_host) 3 "escrow_01" Scenario.fulfilled e Hreg).
    vm_compute. reflexivity.
  - apply (cancel_escrow_iff (H := reference_host) Scenario.after_expiry "escrow_01"
             Scenario.fulfilled e Hreg).
    vm_compute. reflexivity.
Defined.

Lemma lock_escrow_funds_registered_witness :
  Escrow.active_escrows Scenario.opened.1 !! "escrow_01" = Some Scenario.contract /\
  Escrow.active_escrows Scenario.locked !! "escrow_01"
  = Some (locked_with 12345 Scenario.contract).
Proof.
  assert (Hreg : Escrow.active_escrows Scenario.opened.1 !! "escrow_01"
                 = Some Scenario.contract) by (vm_compute; reflexivity).
  split; [exact Hreg |].
  apply (lock_escrow_funds_registered (H := reference_host) 1 "escrow_01" 12345
           Scenario.opened.1 Scenario.contract Hreg).
Defined.

(** ** Consent credentials: withdrawal, metadata, exceptions *)

Section ConsentLifecycle.
Context `{Host}.
Import Consent.

Lemma strings_of_strs (l : list string) : strings_of (JStr <$> l) = Some l.
Proof. induction l as [| s l IH]; cbn; [done |]. by rewrite IH. Qed.

(** X10. Only the subject withdraws. On a registered credential issued to
    [patient_did], [withdraw_consent] called with that DID returns [True],
    removes the credential from the registry, leaves every other credential
    as it was and appends one WITHDRAWN entry to the history; called with
    any other DID it returns [False] and changes nothing. *)
Theorem withdraw_consent_by_subject_only (now : Z) (vc_id who patient_did : string)
    (terms : ConsentTerms) (vc : VerifiableCredential) (m : ConsentManager) :
  active_consents m !! vc_id = Some vc ->
  credential_subject vc = make_credential_subject patient_did terms ->
  let r := withdraw_consent now vc_id who m in
  if String.eqb patient_did who
  then r.2 = Return true /\
       active_consents r.1 = delete vc_id (active_consents m) /\
       exists entry,
         consent_history r.1 = (consent_history m ++ [entry])%list /\
         dict_get "action" entry = Some (JStr "WITHDRAWN") /\
         dict_get "consentId" entry = Some (JStr vc_id)
  else r = (m, Return false).
Proof.
  intros Hreg Hcs r. subst r. unfold withdraw_consent. rewrite Hreg, Hcs.
  cbn [make_credential_subject dict_item dict_get String.eqb Ascii.eqb Bool.eqb ne_str].
  destruct (String.eqb patient_did who); cbn [negb]; [| done].
  cbn [dict_set String.eqb Ascii.eqb Bool.eqb dict_item dict_get mbind outcome_bind
       subscript fst snd].
  split; [done |]. split; [done |].
  eexists. split; [reflexivity | split; reflexivity].
Qed.

Lemma withdraw_consent_registry (now : Z) (vc_id patient_did : string) (m : ConsentManager) :
  active_consents (withdraw_consent now vc_id patient_did m).1 = active_consents m \/
  active_consents (withdraw_consent now vc_id patient_did m).1
  = delete vc_id (active_consents m).
Proof.
  unfold withdraw_consent.
  destruct (active_consents m !! vc_id) as [vc |]; [| by left].
  destruct (dict_item "id" (credential_subject vc)); [| by left].
  destruct (ne_str _ _); [by left |].
  match goal with |- context [mbind ?f ?x] => destruct (mbind f x) end; by right.
Qed.

Lemma reachable_subjects_issued (m : ConsentManager) : reachable m -> subjects_issued m.
Proof.
  induction 1 as [did key | now uuid salt p terms m _ IH | now vc_id p m _ IH];
    intros k vc Hk.
  - unfold init in Hk. cbn [active_consents] in Hk. by rewrite lookup_empty in Hk.
  - cbn in Hk. destruct (decide ("urn:uuid:" +:+ uuid = k)) as [<- | Hne].
    + rewrite lookup_insert_eq in Hk. injection Hk as <-. by exists p, terms.
    + rewrite lookup_insert_ne in Hk by done. by apply IH with k.
  - destruct (withdraw_consent_registry now vc_id p m) as [Heq | Heq];
      rewrite Heq in Hk; [by apply IH with k |].
    apply lookup_delete_Some in Hk as [_ Hk]. by apply IH with k.
Qed.

(** X11. No exception on a manager the operations produced. Whatever the
    identifier, the DID, the recipient and the clock reading,
    [verify_consent], [withdraw_consent] and [get_consent_metadata_for_xrpl]
    return and do not raise on a manager obtained from a new one by calls of
    [create_consent_vc] and [withdraw_consent]. *)
Theorem consent_operations_never_raise (m : ConsentManager) :
  reachable m ->
  forall (now : Z) (vc_id who : string),
    is_return (verify_consent now vc_id who m) = true /\
    is_return (withdraw_consent now vc_id who m).2 = true /\
    is_return (get_consent_metadata_for_xrpl vc_id m) = true.
Proof.
  intros Hreach now vc_id who.
  pose proof (reachable_subjects_issued m Hreach vc_id) as Hissued.
  unfold verify_consent, withdraw_consent, get_consent_metadata_for_xrpl.
  destruct (active_consents m !! vc_id) as [vc |]; [| done].
  destruct (Hissued vc eq_refl) as (p & terms & ->).
  cbn [make_credential_subject dict_item dict_get String.eqb Ascii.eqb Bool.eqb ne_str
       mbind outcome_bind subscript dict_set truthy negb join_value slice_to].
  rewrite strings_of_strs.
  split; [| split].
  - destruct (now >? expiration_date vc)%Z; [done |].
    by destruct (String.eqb (recipient terms) who).
  - by destruct (String.eqb p who).
  - done.
Qed.

(** X12. An identifier that is not registered is refused without an exception:
    [verify_consent] returns [False], [withdraw_consent] returns [False]
    and changes nothing, and [get_consent_metadata_for_xrpl] returns the
    empty dict. *)
Theorem unregistered_consent_id_refused (now : Z) (vc_id who : string) (m : ConsentManager) :
  active_consents m !! vc_id = None ->
  verify_consent now vc_id who m = Return false /\
  withdraw_consent now vc_id who m = (m, Return false) /\
  get_consent_metadata_for_xrpl vc_id m = Return [].
Proof.
  intros Hnone. unfold verify_consent, withdraw_consent, get_consent_metadata_for_xrpl.
  by rewrite Hnone.
Qed.

(** X13. The memo metadata of a consent. For a registered credential issued for
    [terms], [get_consent_metadata_for_xrpl] returns the identifier, the
    hexadecimal SHA-256 digest of the canonical form of the whole
    credential (its proof included), the version 2.0, the data types joined
    by commas, and the first 50 characters of the purpose. *)
Theorem consent_metadata_of_issued (vc_id patient_did : string) (terms : ConsentTerms)
    (vc : VerifiableCredential) (m : ConsentManager) :
  active_consents m !! vc_id = Some vc ->
  credential_subject vc = make_credential_subject patient_did terms ->
  get_consent_metadata_for_xrpl vc_id m
  = Return [("ConsentID", JStr vc_id);
            ("ConsentHash",
               JStr (sha256_hexdigest (json_dumps_canonical (JDict (to_dict vc)))));
            ("ConsentVersion", JStr "2.0");
            ("DataTypes", JStr (join "," (data_types (scope terms))));
            ("Purpose", JStr (take_str 50 (usage_purpose (scope terms))))] /\
  String.prefix (take_str 50 (usage_purpose (scope terms))) (usage_purpose (scope terms))
  = true /\
  len (take_str 50 (usage_purpose (scope terms)))
  = Nat.min 50 (len (usage_purpose (scope terms))).
Proof.
  unfold get_consent_metadata_for_xrpl. intros -> ->.
  cbn [make_credential_subject dict_item dict_get String.eqb Ascii.eqb Bool.eqb
       mbind outcome_bind subscript join_value slice_to].
  rewrite strings_of_strs. split; [done |]. split; [apply take_str_prefix |].
  apply take_str_length.
Qed.

(** X14. [verify_consent] fails closed on an issued credential: past the
    expiration date, or for a recipient other than the one the terms name,
    it returns [False]; it returns [True] only when the clock is not past
    the expiration date, the recipient is the one named and [_verify_proof]
    accepts the proof. *)
Theorem verify_consent_fails_closed (later : Z) (vc_id recipient_ patient_did : string)
    (terms : ConsentTerms) (vc : VerifiableCredential) (m : ConsentManager) :
  active_consents m !! vc_id = Some vc ->
  credential_subject vc = make_credential_subject patient_did terms ->
  ((expiration_date vc < later)%Z \/ recipient terms <> recipient_ ->
   verify_consent later vc_id recipient_ m = Return false) /\
  (verify_consent later vc_id recipient_ m = Return true ->
   (later <= expiration_date vc)%Z /\ recipient terms = recipient_ /\
   _verify_proof vc m = true).
Proof.
  intros Hreg Hcs.
  rewrite (verify_consent_registered later vc_id recipient_ patient_did terms vc m Hreg Hcs).
  destruct (Z.gtb_spec later (expiration_date vc)) as [Hgt | Hle]; cbn [negb andb].
  - split; [done | discriminate].
  - destruct (String.eqb_spec (recipient terms) recipient_) as [Heq | Hne]; cbn [andb].
    + split.
      * intros [Hlt | Hne]; [lia | done].
      * intros [= ->]. by repeat split.
    + split; [done | discriminate].
Qed.

End ConsentLifecycle.

Lemma withdraw_consent_by_subject_only_witness :
  Consent.active_consents Scenario.issued.1 !! "urn:uuid:u1" = Some Scenario.issued.2 /\
  (Consent.withdraw_consent (H := reference_host) 7 "urn:uuid:u1"
     "did:xrpl:patient-kim-001" Scenario.issued.1).2 = Return true /\
  Consent.withdraw_consent (H := reference_host) 7 "urn:uuid:u1"
    "did:xrpl:someone-else" Scenario.issued.1 = (Scenario.issued.1, Return false).
Proof.
  assert (Hreg : Consent.active_consents Scenario.issued.1 !! "urn:uuid:u1"
                 = Some Scenario.issued.2) by (vm_compute; reflexivity).
  split; [exact Hreg |]. split.
  - apply (withdraw_consent_by_subject_only (H := reference_host) 7 "urn:uuid:u1"
             "did:xrpl:patient-kim-001" "did:xrpl:patient-kim-001" Scenario.terms
             Scenario.issued.2 Scenario.issued.1 Hreg eq_refl).
  - apply (withdraw_consent_by_subject_only (H := reference_host) 7 "urn:uuid:u1"
             "did:xrpl:someone-else" "did:xrpl:patient-kim-001" Scenario.terms
             Scenario.issued.2 Scenario.issued.1 Hreg eq_refl).
Defined.

Lemma consent_operations_never_raise_witness :
  reachable (H := reference_host) Scenario.issued.1 /\
  is_return (Consent.verify_consent (H := reference_host) 5 "urn:uuid:u1"
               "did:xrpl:seoul-national-hospital-cardiology" Scenario.issued.1) = true.
Proof.
  assert (Hreach : reachable (H := reference_host) Scenario.issued.1).
  { apply (reachable_create (H := reference_host)), reachable_init. }
  split; [exact Hreach |].
  apply (consent_operations_never_raise (H := reference_host) Scenario.issued.1 Hreach 5
           "urn:uuid:u1" "did:xrpl:seoul-national-hospital-cardiology").
Defined.

Lemma unregistered_consent_id_refused_witness :
  Consent.active_consents Scenario.issued.1 !! "urn:uuid:u2" = None /\
  Consent.verify_consent (H := reference_host) 5 "urn:uuid:u2"
    "did:xrpl:seoul-national-hospital-cardiology" Scenario.issued.1 = Return false.
Proof.
  assert (Hnone : Consent.active_consents Scenario.issued.1 !! "urn:uuid:u2" = None)
    by (vm_compute; reflexivity).
  split; [exact Hnone |].
  apply (unregistered_consent_id_refused (H := reference_host) 5 "urn:uuid:u2"
           "did:xrpl:seoul-national-hospital-cardiology" Scenario.issued.1 Hnone).
Defined.

Lemma consent_metadata_of_issued_witness :
  Consent.active_consents Scenario.demo_issued.1 !! "urn:uuid:u1"
  = Some Scenario.demo_issued.2 /\
  (fun d => (dict_get "DataTypes" d, dict_get "Purpose" d)) <$>
    match Consent.get_consent_metadata_for_xrpl (H := reference_host) "urn:uuid:u1"
            Scenario.demo_issued.1 with
    | Return d => Some d
    | Raise _ => None
    end
  = Some (Some (JStr "Observation,MedicationStatement,Condition"),
          Some (JStr "심방세동 연구를 위한 심박수 패턴 분석")) /\
  len (take_str 50 "심방세동 연구를 위한 심박수 패턴 분석") = 21%nat.
Proof.
  assert (Hreg : Consent.active_consents Scenario.demo_issued.1 !! "urn:uuid:u1"
                 = Some Scenario.demo_issued.2) by (vm_compute; reflexivity).
  split; [exact Hreg |].
  destruct (consent_metadata_of_issued (H := reference_host) "urn:uuid:u1"
              "did:xrpl:patient-kim-001" Scenario.demo_terms Scenario.demo_issued.2
              Scenario.demo_issued.1 Hreg eq_refl) as (-> & _ & Hlen).
  split; [reflexivity |]. etrans; [exact Hlen | reflexivity].
Defined.

Lemma verify_consent_fails_closed_witness :
  Consent.active_consents Scenario.issued.1 !! "urn:uuid:u1" = Some Scenario.issued.2 /\
  Consent.verify_consent (H := reference_host) 5 "urn:uuid:u1" "did:xrpl:someone-else"
    Scenario.issued.1 = Return false.
Proof.
  assert (Hreg : Consent.active_consents Scenario.issued.1 !! "urn:uuid:u1"
                 = Some Scenario.issued.2) by (vm_compute; reflexivity).
  split; [exact Hreg |].
  apply (verify_consent_fails_closed (H := reference_host) 5 "urn:uuid:u1"
           "did:xrpl:someone-else" "did:xrpl:patient-kim-001" Scenario.terms
           Scenario.issued.2 Scenario.issued.1 Hreg eq_refl).
  right. vm_compute. discriminate.
Defined.

Lemma verify_consent_after_withdrawal_witness :
  (Consent.withdraw_consent (H := reference_host) 7 "urn:uuid:u1"
     "did:xrpl:patient-kim-001" Scenario.issued.1).2 = Return true /\
  Consent.verify_consent (H := reference_host) 8 "urn:uuid:u1"
    "did:xrpl:seoul-national-hospital-cardiology"
    (Consent.withdraw_consent (H := reference_host) 7 "urn:uuid:u1"
       "did:xrpl:patient-kim-001" Scenario.issued.1).1 = Return false.
Proof.
  assert (Hok : (Consent.withdraw_consent (H := reference_host) 7 "urn:uuid:u1"
                   "did:xrpl:patient-kim-001" Scenario.issued.1).2 = Return true)
    by (vm_compute; reflexivity).
  split; [exact Hok |].
  apply (verify_consent_after_withdrawal (H := reference_host) 7 8 "urn:uuid:u1"
           "did:xrpl:patient-kim-001" "did:xrpl:seoul-national-hospital-cardiology"
           Scenario.issued.1 Hok).
Defined.

(** ** The audit trail: queries and reports *)

Section AuditQueries.
Context `{Host}.
Import Audit.

Lemma get_audit_trail_events (subject_ resource_id_ : option string)
    (start_date end_date : option Z) (m : AuditTrailManager) :
  exists events : list AuditEvent,
    get_audit_trail subject_ resource_id_ start_date end_date m = _event_to_dict <$> events /\
    Sorted not_later events /\
    (forall e, e ∈ events <->
               e ∈ audit_events m /\ selected subject_ resource_id_ start_date end_date e) /\
    exists chosen, events ≡ₚ chosen /\ sublist chosen (audit_events m).
Proof.
  unfold get_audit_trail.
  match goal with
  | |- context [_event_to_dict <$> sort_by_timestamp ?l] => set (chosen := l)
  end.
  exists (sort_by_timestamp chosen). split; [done |].
  split; [apply sort_by_timestamp_sorted |].
  assert (Hchosen : (forall e, e ∈ chosen <->
                       e ∈ audit_events m /\
                       selected subject_ resource_id_ start_date end_date e) /\
                    sublist chosen (audit_events m)).
  { subst chosen. unfold selected.
    destruct subject_ as [s |], resource_id_ as [r |], start_date as [d1 |],
      end_date as [d2 |];
      try destruct (String.eqb_spec s "") as [-> | Hs];
      try destruct (String.eqb_spec r "") as [-> | Hr]; cbn [negb];
      (split;
       [ intros e; rewrite ?list_elem_of_filter; split;
         [ intros Hin; repeat split; try tauto; intros; simplify_eq; tauto
         | intros (Hin & Hs1 & Hr1 & Hd1 & Hd2); repeat split; eauto ]
       | repeat (etrans; [apply sublist_filter |]); done ]). }
  destruct Hchosen as [Hiff Hsub]. split.
  - intros e. rewrite <- Hiff. by rewrite (sort_by_timestamp_perm chosen).
  - exists chosen. split; [apply sort_by_timestamp_perm | done].
Qed.

(** X17. [get_audit_trail] returns the events that pass its filters, in
    non-decreasing order of timestamp: its result is the list of dicts of
    a list of events that is sorted by timestamp and is a rearrangement of
    a sublist of the trail, holding exactly the selected events. *)
Theorem get_audit_trail_sorted_selection (subject_ resource_id_ : option string)
    (start_date end_date : option Z) (m : AuditTrailManager) :
  exists events : list AuditEvent,
    get_audit_trail subject_ resource_id_ start_date end_date m = _event_to_dict <$> events /\
    Sorted not_later events /\
    (forall e, e ∈ events <->
               e ∈ audit_events m /\ selected subject_ resource_id_ start_date end_date e) /\
    exists chosen, events ≡ₚ chosen /\ sublist chosen (audit_events m).
Proof. apply get_audit_trail_events. Qed.

(** X18. A recorded event can be read back. After [record_audit_event], which
    returns the identifier "audit_" followed by the drawn token and keeps
    the earlier events in place, the trail queried by the subject and the
    resource of the event holds a dict with that identifier and with the
    compliance status the rule gives the event. *)
Theorem recorded_event_is_retrievable (now : Z) (token : string) (event_type_ : AuditEventType)
    (actor_ subject_ resource_id_ : string) (xrpl_tx_hash_ : option string)
    (metadata_ : option pydict) (m : AuditTrailManager) :
  let r := record_audit_event now token event_type_ actor_ subject_ resource_id_
             xrpl_tx_hash_ metadata_ m in
  r.2 = "audit_" +:+ token /\
  audit_events m `prefix_of` audit_events r.1 /\
  xrpl_transactions r.1 = xrpl_transactions m /\
  exists e d,
    audit_events r.1 = (audit_events m ++ [e])%list /\
    d ∈ get_audit_trail (Some subject_) (Some resource_id_) None None r.1 /\
    d = _event_to_dict e /\
    dict_get "eventId" d = Some (JStr r.2) /\
    dict_get "complianceStatus" d = Some (JStr (_check_compliance e)).
Proof.
  intros r. subst r. unfold record_audit_event. cbn [fst snd audit_events xrpl_transactions].
  split; [done |]. split; [by apply prefix_app_r |]. split; [done |].
  match goal with
  | |- context [(audit_events m ++ [?e0])%list] => set (e := e0)
  end.
  exists e, (_event_to_dict e). split; [reflexivity |].
  destruct (get_audit_trail_events (Some subject_) (Some resource_id_) None None
              {| platform_did := platform_did m;
                 audit_events := (audit_events m ++ [e])%list;
                 xrpl_transactions := xrpl_transactions m |})
    as (events & -> & _ & Hiff & _).
  split; [| split; [reflexivity | split; reflexivity]].
  apply list_elem_of_fmap_2, Hiff. cbn [audit_events]. split.
  - apply elem_of_app. right. apply list_elem_of_singleton. reflexivity.
  - unfold selected. cbn. repeat split; intros; simplify_eq; done.
Qed.

Lemma filter_length_le_of_imp {A : Type} (P Q : A -> Prop)
    `{!forall x, Decision (P x)} `{!forall x, Decision (Q x)} (l : list A) :
  (forall x, x ∈ l -> P x -> Q x) ->
  (length (filter P l) <= length (filter Q l))%nat.
Proof.
  induction l as [| x l IH]; intros Himp; [done |].
  rewrite !filter_cons.
  assert (IH' : (length (filter P l) <= length (filter Q l))%nat).
  { apply IH. intros y Hy. apply Himp. by right. }
  destruct (decide (P x)) as [HP | HP].
  - rewrite decide_True by (apply Himp; [by left | done]). cbn. lia.
  - destruct (decide (Q x)); cbn; lia.
Qed.



Lemma set_compliance_status_rule (s : string) (e : AuditEvent) :
  _check_compliance (set_compliance_status s e) = _check_compliance e.
Proof. reflexivity. Qed.

Lemma recorded_rule_applied (m : AuditTrailManager) :
  recorded m ->
  Forall (fun e => compliance_status e = Some (_check_compliance e)) (audit_events m).
Proof.
  induction 1 as [did | now token ty a s rid tx md m _ IH]; [constructor |].
  cbn [record_audit_event fst audit_events]. apply Forall_app. split; [done |].
  by repeat constructor.
Qed.

Lemma non_compliant_is_consent_created (e : AuditEvent) :
  _check_compliance e = "NON_COMPLIANT" -> event_type e = CONSENT_CREATED.
Proof.
  unfold _check_compliance.
  destruct (bool_decide_reflect (event_type e = CONSENT_CREATED)); [done |].
  destruct (bool_decide (event_type e = ACCESS_GRANTED)); discriminate.
Qed.

(** X20. Violations are consent creations. On a trail filled by
    [record_audit_event], every event carries the status the compliance
    rule gives it, so that only CONSENT_CREATED events can be NON_COMPLIANT:
    a compliance report lists at most as many violations as it counts
    consents, and each is described as "Non-compliant consent_created". *)
Theorem compliance_violations_are_consent_creations (now : Z) (token : string)
    (start_date end_date : Z) (m : AuditTrailManager) :
  recorded m ->
  let r := generate_compliance_report now token start_date end_date m in
  Forall (fun e => compliance_status e = Some (_check_compliance e)) (audit_events m) /\
  (Z.of_nat (length (compliance_violations r)) <= total_consents r)%Z /\
  Forall (fun v => dict_get "description" v = Some (JStr "Non-compliant consent_created"))
    (compliance_violations r).
Proof.
  intros Hrec r. subst r.
  pose proof (recorded_rule_applied m Hrec) as Hrule.
  split; [done |].
  unfold generate_compliance_report. cbn [compliance_violations total_consents].
  set (period := filter _ (audit_events m)).
  assert (Hperiod : forall e, e ∈ period ->
            compliance_status e = Some "NON_COMPLIANT" -> event_type e = CONSENT_CREATED).
  { intros e He Hnc. subst period. apply list_elem_of_filter in He as [_ He].
    rewrite Forall_forall in Hrule. specialize (Hrule e He).
    rewrite Hnc in Hrule. injection Hrule as Hrule.
    by apply non_compliant_is_consent_created. }
  split.
  - rewrite length_fmap. apply inj_le.
    by apply (filter_length_le_of_imp _ (fun e => event_type e = CONSENT_CREATED)).
  - apply Forall_fmap, Forall_forall. intros e He.
    apply list_elem_of_filter in He as [Hnc He]. cbn.
    by rewrite (Hperiod e He Hnc).
Qed.

End AuditQueries.

Lemma compliance_violations_are_consent_creations_witness :
  recorded Scenario.mixed_trail /\
  let r := Audit.generate_compliance_report (H := reference_host) 9 "c0" 0 10
             Scenario.mixed_trail in
  (Z.of_nat (length (Audit.compliance_violations r)) <= Audit.total_consents r)%Z.
Proof.
  assert (Hrec : recorded Scenario.mixed_trail) by (repeat constructor).
  split; [exact Hrec |].
  apply (compliance_violations_are_consent_creations (H := reference_host) 9 "c0" 0 10
           Scenario.mixed_trail Hrec).
Defined.


(** ** The platform: acceptance, delivery, withdrawal *)

Section PlatformSaga.
Context `{Host}.
Import Platform.

(** The transaction, the escrow and the offer a successful [accept_offer]
    leaves in the registries. *)
Lemma accept_offer_success_state (now : Z) (d : AcceptDraws)
    (offer_id_ patient_did_ patient_addr requester_addr : string) (p : SportiQuePlatform) :
  let r := accept_offer now d offer_id_ patient_did_ patient_addr requester_addr p in
  is_return r.2 = true ->
  exists offer bundle,
    offers p !! offer_id_ = Some offer /\ status offer = PENDING /\
    (now <= valid_until offer)%Z /\
    is_return (int_of_float (compensation offer * 1000000)%float) = true /\
    create_sample_heart_rate_bundle now (last_segment patient_did_)
      ("urn:uuid:" +:+ vc_uuid d) (bundle_uuid d) 7 = Return bundle /\
    platform_did r.1 = platform_did p /\
    offers r.1 = <[offer_id_ := set_offer_status ACCEPTED offer]> (offers p) /\
    transactions r.1
    = <["tx_" +:+ transaction_token d :=
          {| transaction_id := "tx_" +:+ transaction_token d; tx_offer_id := offer_id_;
             patient_did := patient_did_; consent_id := "urn:uuid:" +:+ vc_uuid d;
             escrow_id := "escrow_" +:+ escrow_token d;
             bundle_id := bundle.1; bundle_hash := bundle.2;
             tx_status := "CONSENT_GIVEN"; tx_created_at := now;
             completed_at := None |}]> (transactions p) /\
    Escrow.active_escrows (escrow_manager r.1)
    = <["escrow_" +:+ escrow_token d :=
          {| Escrow.escrow_id := "escrow_" +:+ escrow_token d;
             Escrow.payer := requester_addr; Escrow.payee := patient_addr;
             Escrow.amount := compensation offer;
             Escrow.consent_id := "urn:uuid:" +:+ vc_uuid d;
             Escrow.data_condition :=
               {| Escrow.fhir_bundle_hash := bundle.2;
                  Escrow.preimage := preimage_token d;
                  Escrow.preimage_hash := upper (sha256_hexdigest (preimage_token d));
                  Escrow.delivery_deadline := now + Escrow.hours 72 |};
             Escrow.created_at := now;
             Escrow.expires_at := now + Escrow.hours 72 + Escrow.hours 24;
             Escrow.status := Escrow.CREATED; Escrow.xrpl_sequence := None;
             Escrow.fulfillment_tx := None |}]>
        (Escrow.active_escrows (escrow_manager p)) /\
    Consent.active_consents (consent_manager r.1) !! ("urn:uuid:" +:+ vc_uuid d)
    = Some (Consent.create_consent_vc now (vc_uuid d) (pss_salt d) patient_did_
              {| Consent.recipient := requester offer;
                 Consent.scope :=
                   {| Consent.data_types := data_types offer;
                      Consent.collection_period := collection_period offer;
                      Consent.usage_purpose := purpose offer;
                      Consent.third_party_sharing := third_party_sharing offer;
                      Consent.retention_period := retention_period offer |};
                 Consent.compensation := compensation offer;
                 Consent.valid_until := valid_until offer;
                 Consent.withdrawal_right := true; Consent.created_at := now |}
              (consent_manager p)).2.
Proof.
  intros r. subst r. unfold accept_offer.
  destruct (offers p !! offer_id_) as [offer |]; [| discriminate].
  destruct (bool_decide_reflect (status offer = PENDING)) as [Hpending | ?];
    cbn [negb]; [| discriminate].
  destruct (Z.gtb_spec now (valid_until offer)) as [? | Hvalid]; [discriminate |].
  unfold Consent.create_consent_vc. cbn [Consent.id Consent.set_proof snd].
  destruct (create_sample_heart_rate_bundle _ _ _ _ _)
    as [[bundle_id_ bundle_hash_] | err] eqn:Hbundle; [| discriminate].
  unfold Escrow.create_escrow_offer, Escrow._build_escrow_create_transaction.
  destruct (Escrow.escrow_dates now 72) as [dates |] eqn:Hdates; [| discriminate].
  apply escrow_dates_return in Hdates as [-> _].
  cbn [Escrow.amount Escrow.expires_at].
  destruct (int_of_float (compensation offer * 1000000)%float) as [drops | err]
    eqn:Hdrops; cbn [mbind outcome_bind]; [| discriminate].
  destruct (posix_timestamp _) as [seconds | err]; cbn [mbind outcome_bind];
    [| discriminate].
  intros _. exists offer, (bundle_id_, bundle_hash_).
  cbn [fst snd]. split; [done |]. split; [done |]. split; [done |].
  split; [by rewrite Hdrops |].
  split; [done |]. split; [done |]. split; [done |]. split; [done |]. split; [done |].
  cbn. apply lookup_insert_eq.
Qed.

(** What [complete_data_delivery] leaves when the transaction and its
    escrow are registered, the clock is not past the expiry of the escrow,
    the bundle hash of the transaction is the one the escrow is bound to
    and the secret kept in the escrow has the stored commitment as digest. *)
Lemma complete_data_delivery_success (now : Z) (token1 token2 tid : string) (seq : Z)
    (p : SportiQuePlatform) (t : DataTransaction) (e : Escrow.EscrowContract) :
  transactions p !! tid = Some t ->
  Escrow.active_escrows (escrow_manager p) !! escrow_id t = Some e ->
  (now <= Escrow.expires_at e)%Z ->
  bundle_hash t = Escrow.fhir_bundle_hash (Escrow.data_condition e) ->
  upper (sha256_hexdigest (Escrow.preimage (Escrow.data_condition e)))
  = Escrow.preimage_hash (Escrow.data_condition e) ->
  let r := complete_data_delivery now token1 token2 tid seq p in
  is_return r.2 = true /\
  transactions r.1 = <[tid := complete_transaction now t]> (transactions p) /\
  Escrow.active_escrows (escrow_manager r.1)
  = <[escrow_id t := Escrow.set_status Escrow.FULFILLED (locked_with seq e)]>
      (Escrow.active_escrows (escrow_manager p)) /\
  offers r.1 = offers p /\ consent_manager r.1 = consent_manager p /\
  platform_did r.1 = platform_did p /\
  exists delivered paid,
    Audit.audit_events (audit_manager r.1)
    = (Audit.audit_events (audit_manager p) ++ [delivered; paid])%list /\
    (Audit.event_type delivered = Audit.DATA_DELIVERED /\
     Audit.resource_id delivered = consent_id t /\
     Audit.compliance_status delivered = Some "COMPLIANT") /\
    (Audit.event_type paid = Audit.PAYMENT_COMPLETED /\
     Audit.resource_id paid = escrow_id t /\
     Audit.compliance_status paid = Some "COMPLIANT" /\
     (dict_get "amount" <$> Audit.metadata paid) = Some (Some (JFloat (Escrow.amount e)))).
Proof.
  intros Htx Hreg Htime Hhash Hdigest r. subst r. unfold complete_data_delivery.
  rewrite Htx. unfold Escrow.lock_escrow_funds. rewrite Hreg.
  cbn [fst snd Escrow.active_escrows Escrow._log_escrow_action Escrow.store
       set_escrow_manager escrow_manager].
  rewrite lookup_insert_eq.
  unfold Escrow.fulfill_escrow.
  cbn [Escrow.active_escrows Escrow._log_escrow_action Escrow.store].
  rewrite lookup_insert_eq.
  fold (locked_with seq e).
  cbn [Escrow.status locked_with Escrow.set_xrpl_sequence Escrow.set_status
       Escrow.expires_at Escrow.data_condition Escrow.preimage].
  rewrite bool_decide_eq_true_2 by done. cbn [negb].
  destruct (Z.gtb_spec now (Escrow.expires_at e)) as [? | _]; [lia |].
  rewrite Hhash, Hdigest, !String.eqb_refl. cbn [negb].
  cbn [fst snd Escrow.active_escrows Escrow._log_escrow_action Escrow.store
       set_escrow_manager escrow_manager store_transaction transactions offers
       consent_manager audit_manager set_audit_manager platform_did
       Audit.record_audit_event Audit.audit_events is_return].
  split; [done |]. split; [done |].
  split; [by rewrite insert_insert_eq |].
  split; [done |]. split; [done |]. split; [done |].
  eexists. eexists. split; [by rewrite <- app_assoc |].
  by repeat split.
Qed.

Lemma complete_data_delivery_returns (now : Z) (token1 token2 tid : string) (seq : Z)
    (p : SportiQuePlatform) :
  is_return (complete_data_delivery now token1 token2 tid seq p).2 = true ->
  exists t e,
    transactions p !! tid = Some t /\
    Escrow.active_escrows (escrow_manager p) !! escrow_id t = Some e /\
    (now <= Escrow.expires_at e)%Z /\
    bundle_hash t = Escrow.fhir_bundle_hash (Escrow.data_condition e) /\
    upper (sha256_hexdigest (Escrow.preimage (Escrow.data_condition e)))
    = Escrow.preimage_hash (Escrow.data_condition e).
Proof.
  unfold complete_data_delivery.
  destruct (transactions p !! tid) as [t |]; [| discriminate].
  unfold Escrow.lock_escrow_funds.
  destruct (Escrow.active_escrows (escrow_manager p) !! escrow_id t) as [e |] eqn:Hreg.
  2: { rewrite Hreg. discriminate. }
  cbn [fst snd Escrow.active_escrows Escrow._log_escrow_action Escrow.store].
  rewrite lookup_insert_eq.
  unfold Escrow.fulfill_escrow.
  cbn [Escrow.active_escrows Escrow._log_escrow_action Escrow.store].
  rewrite lookup_insert_eq.
  fold (locked_with seq e).
  cbn [Escrow.status locked_with Escrow.set_xrpl_sequence Escrow.set_status
       Escrow.expires_at Escrow.data_condition Escrow.preimage].
  rewrite bool_decide_eq_true_2 by done. cbn [negb].
  destruct (Z.gtb_spec now (Escrow.expires_at e)) as [? | Htime]; [discriminate |].
  destruct (String.eqb_spec (bundle_hash t)
              (Escrow.fhir_bundle_hash (Escrow.data_condition e))) as [Hhash | ?];
    cbn [negb]; [| discriminate].
  destruct (String.eqb_spec
              (upper (sha256_hexdigest (Escrow.preimage (Escrow.data_condition e))))
              (Escrow.preimage_hash (Escrow.data_condition e))) as [Hdigest | ?];
    cbn [negb]; [| discriminate].
  intros _. by exists t, e.
Qed.

(** X22. [complete_data_delivery] returns exactly when the transaction and its
    escrow are registered, the clock is not past the expiry of the escrow,
    the bundle hash of the transaction is the one the escrow is bound to
    and the secret kept in the escrow has the stored commitment as digest.
    It looks neither at the status of the transaction nor at the state of
    the escrow. *)
Theorem complete_data_delivery_iff (now : Z) (token1 token2 tid : string) (seq : Z)
    (p : SportiQuePlatform) :
  is_return (complete_data_delivery now token1 token2 tid seq p).2 = true <->
  exists t e,
    transactions p !! tid = Some t /\
    Escrow.active_escrows (escrow_manager p) !! escrow_id t = Some e /\
    (now <= Escrow.expires_at e)%Z /\
    bundle_hash t = Escrow.fhir_bundle_hash (Escrow.data_condition e) /\
    upper (sha256_hexdigest (Escrow.preimage (Escrow.data_condition e)))
    = Escrow.preimage_hash (Escrow.data_condition e).
Proof.
  split; [apply complete_data_delivery_returns |].
  intros (t & e & Htx & Hreg & Htime & Hhash & Hdigest).
  by apply (complete_data_delivery_success now token1 token2 tid seq p t e).
Qed.

(** X23. From acceptance to settlement. After a call of [accept_offer] that
    returns, [complete_data_delivery] for the new transaction, at any clock
    reading up to 96 hours after the acceptance, returns: the transaction
    is COMPLETED with that reading as completion time, the escrow is
    FULFILLED, and the audit trail has grown by a CONSENT_CREATED, a
    DATA_DELIVERED and a PAYMENT_COMPLETED event, in that order. *)
Theorem accept_then_complete_settles (now later : Z) (d : AcceptDraws)
    (offer_id_ patient_did_ patient_addr requester_addr token1 token2 : string) (seq : Z)
    (p : SportiQuePlatform) :
  let accepted := accept_offer now d offer_id_ patient_did_ patient_addr requester_addr p in
  let tid := "tx_" +:+ transaction_token d in
  let r := complete_data_delivery later token1 token2 tid seq accepted.1 in
  is_return accepted.2 = true ->
  (later <= now + Escrow.hours 72 + Escrow.hours 24)%Z ->
  is_return r.2 = true /\
  (tx_status <$> transactions r.1 !! tid) = Some "COMPLETED" /\
  (completed_at <$> transactions r.1 !! tid) = Some (Some later) /\
  (Escrow.status <$>
     Escrow.active_escrows (escrow_manager r.1) !! ("escrow_" +:+ escrow_token d))
  = Some Escrow.FULFILLED /\
  Audit.event_type <$> Audit.audit_events (audit_manager r.1)
  = ((Audit.event_type <$> Audit.audit_events (audit_manager p))
       ++ [Audit.CONSENT_CREATED; Audit.DATA_DELIVERED; Audit.PAYMENT_COMPLETED])%list.
Proof.
  intros accepted tid r Hret Htime.
  destruct (accept_offer_success_state now d offer_id_ patient_did_ patient_addr
              requester_addr p Hret)
    as (offer & bundle & _ & _ & _ & _ & _ & _ & _ & Htxs & Hescrows & _).
  fold accepted in Htxs, Hescrows.
  pose proof (accept_offer_audit_events now d offer_id_ patient_did_ patient_addr
                requester_addr p Hret) as Haudit.
  fold accepted in Haudit.
  match type of Htxs with _ = <[_ := ?t0]> _ => set (t := t0) in * end.
  match type of Hescrows with _ = <[_ := ?e0]> _ => set (e := e0) in * end.
  assert (Htx : transactions accepted.1 !! tid = Some t)
    by (rewrite Htxs; apply lookup_insert_eq).
  assert (Hreg : Escrow.active_escrows (escrow_manager accepted.1) !! escrow_id t = Some e)
    by (rewrite Hescrows; apply lookup_insert_eq).
  destruct (complete_data_delivery_success later token1 token2 tid seq accepted.1 t e
              Htx Hreg Htime eq_refl eq_refl)
    as (Hok & Htxs' & Hescrows' & _ & _ & _ & delivered & paid & Haudit' & Hd & Hp).
  fold r in Hok, Htxs', Hescrows', Haudit'.
  split; [done |].
  rewrite Htxs', Hescrows', Haudit', Haudit, !lookup_insert_eq.
  split; [done |]. split; [done |]. split; [done |].
  rewrite !fmap_app, <- app_assoc. cbn.
  destruct Hd as (-> & _), Hp as (-> & _). done.
Qed.

(** X24. Delivery can be confirmed again. When [complete_data_delivery] has
    returned for a transaction, a second call for it at the same clock
    reading returns as well: the escrow, FULFILLED, is locked and fulfilled
    once more, and the audit trail gets a second DATA_DELIVERED and a
    second PAYMENT_COMPLETED event. *)
Theorem complete_data_delivery_repeatable (now : Z)
    (token1 token2 token3 token4 tid : string) (seq seq' : Z) (p : SportiQuePlatform) :
  let first := complete_data_delivery now token1 token2 tid seq p in
  let second := complete_data_delivery now token3 token4 tid seq' first.1 in
  is_return first.2 = true ->
  is_return second.2 = true /\
  Audit.event_type <$> Audit.audit_events (audit_manager second.1)
  = ((Audit.event_type <$> Audit.audit_events (audit_manager p))
       ++ [Audit.DATA_DELIVERED; Audit.PAYMENT_COMPLETED;
           Audit.DATA_DELIVERED; Audit.PAYMENT_COMPLETED])%list /\
  exists t,
    transactions p !! tid = Some t /\
    (Escrow.xrpl_sequence <$>
       Escrow.active_escrows (escrow_manager second.1) !! escrow_id t) = Some (Some seq') /\
    (Escrow.status <$>
       Escrow.active_escrows (escrow_manager second.1) !! escrow_id t)
    = Some Escrow.FULFILLED.
Proof.
  intros first second Hret.
  destruct (complete_data_delivery_returns now token1 token2 tid seq p Hret)
    as (t & e & Htx & Hreg & Htime & Hhash & Hdigest).
  destruct (complete_data_delivery_success now token1 token2 tid seq p t e
              Htx Hreg Htime Hhash Hdigest)
    as (_ & Htxs1 & Hescrows1 & _ & _ & _ & d1 & p1 & Haudit1 & Hd1 & Hp1).
  fold first in Htxs1, Hescrows1, Haudit1.
  assert (Htx1 : transactions first.1 !! tid = Some (complete_transaction now t))
    by (rewrite Htxs1; apply lookup_insert_eq).
  assert (Hreg1 : Escrow.active_escrows (escrow_manager first.1)
                    !! escrow_id (complete_transaction now t)
                  = Some (Escrow.set_status Escrow.FULFILLED (locked_with seq e)))
    by (rewrite Hescrows1; apply lookup_insert_eq).
  destruct (complete_data_delivery_success now token3 token4 tid seq' first.1
              (complete_transaction now t)
              (Escrow.set_status Escrow.FULFILLED (locked_with seq e))
              Htx1 Hreg1 Htime Hhash Hdigest)
    as (Hok & _ & Hescrows2 & _ & _ & _ & d2 & p2 & Haudit2 & Hd2 & Hp2).
  fold second in Hok, Hescrows2, Haudit2.
  split; [done |]. split.
  - rewrite Haudit2, Haudit1, !fmap_app, <- app_assoc. cbn.
    destruct Hd1 as (-> & _), Hp1 as (-> & _), Hd2 as (-> & _), Hp2 as (-> & _). done.
  - exists t. split; [done |].
    rewrite Hescrows2. cbn [escrow_id complete_transaction].
    by rewrite lookup_insert_eq.
Qed.

(** X25. An offer is accepted once. After a call of [accept_offer] that
    returns, the offer is ACCEPTED, and every further [accept_offer] for it
    raises "Offer is not available" and changes nothing. *)
Theorem accept_offer_only_once (now now' : Z) (d d' : AcceptDraws)
    (offer_id_ patient_did_ patient_addr requester_addr : string)
    (patient_did' patient_addr' requester_addr' : string) (p : SportiQuePlatform) :
  let r := accept_offer now d offer_id_ patient_did_ patient_addr requester_addr p in
  is_return r.2 = true ->
  (status <$> offers r.1 !! offer_id_) = Some ACCEPTED /\
  accept_offer now' d' offer_id_ patient_did' patient_addr' requester_addr' r.1
  = (r.1, Raise (ValueError "Offer is not available")).
Proof.
  intros r Hret.
  destruct (accept_offer_success_state now d offer_id_ patient_did_ patient_addr
              requester_addr p Hret)
    as (offer & bundle & _ & _ & _ & _ & _ & _ & Hoffers & _).
  fold r in Hoffers.
  assert (Hoffer : offers r.1 !! offer_id_ = Some (set_offer_status ACCEPTED offer))
    by (rewrite Hoffers; apply lookup_insert_eq).
  clearbody r. split; [by rewrite Hoffer |].
  unfold accept_offer. rewrite Hoffer. done.
Qed.

(** When [accept_offer] returns on a PENDING offer within its validity. *)
Lemma accept_offer_valid_returns (now : Z) (d : AcceptDraws)
    (offer_id_ patient_did_ patient_addr requester_addr : string) (p : SportiQuePlatform)
    (offer : DataOffer) :
  offers p !! offer_id_ = Some offer ->
  status offer = PENDING ->
  (now >? valid_until offer)%Z = false ->
  is_return (accept_offer now d offer_id_ patient_did_ patient_addr requester_addr p).2
  = true <->
  acceptance_possible now d patient_did_ (compensation offer).
Proof.
  intros Hoffer Hpending Hvalid. unfold accept_offer, acceptance_possible.
  rewrite Hoffer, bool_decide_eq_true_2, Hvalid by done. cbn [negb].
  unfold Consent.create_consent_vc. cbn [Consent.id Consent.set_proof snd].
  destruct (create_sample_heart_rate_bundle _ _ _ _ _) as [[bundle_id_ bundle_hash_] |];
    [| cbn; intuition discriminate].
  unfold Escrow.create_escrow_offer, Escrow._build_escrow_create_transaction.
  destruct (Escrow.escrow_dates now 72) as [dates |] eqn:Hdates.
  2: { cbn. split; [discriminate |]. intros (_ & Hrep & _).
       apply escrow_dates_eq in Hrep. congruence. }
  apply escrow_dates_return in Hdates as [-> Hrep].
  cbn [Escrow.amount Escrow.expires_at].
  destruct (int_of_float (compensation offer * 1000000)%float);
    cbn [mbind outcome_bind]; [| cbn; intuition discriminate].
  destruct (posix_timestamp _); cbn; intuition discriminate.
Qed.

(** X26. When [accept_offer] raises and when it returns. For an offer that is
    not registered it raises "Offer not found", and for one that is not
    PENDING "Offer is not available", in both cases changing nothing. For a
    PENDING offer past its validity it raises "Offer has expired" after
    marking the offer EXPIRED, and changes nothing else. Otherwise it
    returns exactly when the sample bundle is built, the dates of the
    escrow, 72 and 96 hours after the clock reading, can be represented,
    the compensation times 1,000,000 converts to an integer (the product is
    neither NaN nor infinite) and the expiry has a POSIX timestamp. *)
Theorem accept_offer_raises_or_returns (now : Z) (d : AcceptDraws)
    (offer_id_ patient_did_ patient_addr requester_addr : string) (p : SportiQuePlatform) :
  let r := accept_offer now d offer_id_ patient_did_ patient_addr requester_addr p in
  match offers p !! offer_id_ with
  | None => r = (p, Raise (ValueError "Offer not found"))
  | Some offer =>
      if bool_decide (status offer = PENDING) then
        if (now >? valid_until offer)%Z then
          r.2 = Raise (ValueError "Offer has expired") /\
          offers r.1 = <[offer_id_ := set_offer_status EXPIRED offer]> (offers p) /\
          (status <$> offers r.1 !! offer_id_) = Some EXPIRED /\
          consent_manager r.1 = consent_manager p /\
          escrow_manager r.1 = escrow_manager p /\
          audit_manager r.1 = audit_manager p /\
          transactions r.1 = transactions p
        else
          is_return r.2 = true <->
          acceptance_possible now d patient_did_ (compensation offer)
      else r = (p, Raise (ValueError "Offer is not available"))
  end.
Proof.
  intros r. subst r.
  destruct (offers p !! offer_id_) as [offer |] eqn:Hoffer;
    [| unfold accept_offer; by rewrite Hoffer].
  destruct (bool_decide_reflect (status offer = PENDING)) as [Hpending | Hpending];
    [| unfold accept_offer; by rewrite Hoffer, bool_decide_eq_false_2].
  destruct (now >? valid_until offer)%Z eqn:Hvalid;
    [| by apply accept_offer_valid_returns].
  unfold accept_offer. rewrite Hoffer, bool_decide_eq_true_2, Hvalid by done.
  cbn [negb fst snd store_offer offers consent_manager escrow_manager audit_manager
       transactions].
  by rewrite lookup_insert_eq.
Qed.

(** X27. A credential without an escrow. When the compensation of a PENDING,
    valid offer times 1,000,000 does not convert to an integer,
    [accept_offer] raises after the consent credential was issued: the
    credential is registered in the consent manager, while the offer is
    still PENDING and no transaction, no escrow and no audit event was
    recorded. *)
Theorem accept_offer_failure_leaves_credential (now : Z) (d : AcceptDraws)
    (offer_id_ patient_did_ patient_addr requester_addr : string) (p : SportiQuePlatform)
    (offer : DataOffer) :
  offers p !! offer_id_ = Some offer ->
  status offer = PENDING ->
  (now <= valid_until offer)%Z ->
  is_return (int_of_float (compensation offer * 1000000)%float) = false ->
  let r := accept_offer now d offer_id_ patient_did_ patient_addr requester_addr p in
  is_return r.2 = false /\
  is_Some (Consent.active_consents (consent_manager r.1) !! ("urn:uuid:" +:+ vc_uuid d)) /\
  offers r.1 = offers p /\ transactions r.1 = transactions p /\
  escrow_manager r.1 = escrow_manager p /\ audit_manager r.1 = audit_manager p.
Proof.
  intros Hoffer Hpending Hvalid Hraise r. subst r. unfold accept_offer.
  rewrite Hoffer, bool_decide_eq_true_2 by done. cbn [negb].
  destruct (Z.gtb_spec now (valid_until offer)) as [? | _]; [lia |].
  unfold Consent.create_consent_vc. cbn [Consent.id Consent.set_proof snd].
  destruct (create_sample_heart_rate_bundle _ _ _ _ _) as [[bundle_id_ bundle_hash_] |].
  2: { cbn. split; [done |]. split; [| done]. rewrite lookup_insert_eq. by eexists. }
  unfold Escrow.create_escrow_offer, Escrow._build_escrow_create_transaction.
  destruct (Escrow.escrow_dates now 72) as [[deadline expiry] |].
  - cbn [Escrow.amount].
    destruct (int_of_float (compensation offer * 1000000)%float); [discriminate |].
    cbn. split; [done |]. split; [| by destruct (escrow_manager p)].
    rewrite lookup_insert_eq. by eexists.
  - cbn. split; [done |]. split; [| by destruct (escrow_manager p)].
    rewrite lookup_insert_eq. by eexists.
Qed.



(** One step of the loop of [withdraw_consent]. *)
Lemma cancel_related_cons (now : Z) (tid : string) (tx : DataTransaction)
    (rest : list (string * DataTransaction)) (p : SportiQuePlatform) :
  cancel_related now ((tid, tx) :: rest) p
  = cancel_related now rest
      (if bool_decide (tx_status tx ∈ ["COMPLETED"; "CANCELLED"]) then p
       else
         let c := Escrow.cancel_escrow now (escrow_id tx) (escrow_manager p) in
         if c.2.1
         then store_transaction tid (cancel_transaction tx) (set_escrow_manager c.1 p)
         else set_escrow_manager c.1 p).
Proof.
  cbn [cancel_related]. case_bool_decide; [done |].
  by destruct (Escrow.cancel_escrow now (escrow_id tx) (escrow_manager p))
    as [em [[|] cancel_tx]].
Qed.

Lemma cancel_related_frame (now : Z) (related : list (string * DataTransaction))
    (p : SportiQuePlatform) :
  consent_manager (cancel_related now related p) = consent_manager p /\
  audit_manager (cancel_related now related p) = audit_manager p /\
  offers (cancel_related now related p) = offers p.
Proof.
  revert p. induction related as [| [tid tx] rest IH]; intros p; [done |].
  rewrite cancel_related_cons. cbn zeta.
  match goal with |- context [cancel_related now rest ?q] => set (p1 := q) end.
  destruct (IH p1) as (-> & -> & ->). subst p1.
  case_bool_decide; [done |].
  by destruct (Escrow.cancel_escrow now (escrow_id tx) (escrow_manager p)).2.1.
Qed.




(** X28. Withdrawal is recorded when it takes place. [withdraw_consent] of the
    platform returns what [withdraw_consent] of the consent manager
    returns and leaves the offers alone. When that is [True], it appends
    one CONSENT_WITHDRAWN event for the consent, with the patient as actor
    and empty metadata, marked COMPLIANT; when the consent manager refuses
    (unknown consent, or another DID than the subject's) or raises, no audit
    event is appended and transactions and escrows are as before. *)
Theorem withdraw_consent_recorded_on_success (now : Z) (audit_token_ : string)
    (order : list string) (consent_id_ patient_did_ : string) (p : SportiQuePlatform) :
  let r := withdraw_consent now audit_token_ order consent_id_ patient_did_ p in
  let c := Consent.withdraw_consent now consent_id_ patient_did_ (consent_manager p) in
  r.2 = c.2 /\ consent_manager r.1 = c.1 /\ offers r.1 = offers p /\
  match c.2 with
  | Return true =>
      exists e,
        Audit.audit_events (audit_manager r.1)
        = (Audit.audit_events (audit_manager p) ++ [e])%list /\
        Audit.event_type e = Audit.CONSENT_WITHDRAWN /\
        Audit.resource_id e = consent_id_ /\
        Audit.actor e = patient_did_ /\ Audit.subject e = patient_did_ /\
        Audit.metadata e = Some [] /\
        Audit.compliance_status e = Some "COMPLIANT"
  | _ =>
      audit_manager r.1 = audit_manager p /\
      escrow_manager r.1 = escrow_manager p /\
      transactions r.1 = transactions p
  end.
Proof.
  intros r c. subst r c. unfold withdraw_consent.
  destruct (Consent.withdraw_consent now consent_id_ patient_did_ (consent_manager p))
    as [cm [[|] | err]]; cbn [fst snd]; try done.
  match goal with |- context [cancel_related now ?l ?q] =>
    destruct (cancel_related_frame now l q) as (Hc & Ha & Ho)
  end.
  cbn [Audit.record_audit_event fst snd set_audit_manager consent_manager offers
       audit_manager Audit.audit_events].
  rewrite Hc, Ha, Ho. split; [done |]. split; [done |]. split; [done |].
  eexists. split; [reflexivity |]. by repeat split.
Qed.


End PlatformSaga.

Lemma accept_then_complete_settles_witness :
  is_return Scenario.accepted.2 = true /\
  (20 <= 10 + Escrow.hours 72 + Escrow.hours 24)%Z /\
  is_return (Platform.complete_data_delivery (H := reference_host) 20 "t1" "t2" "tx_7a" 12345
               Scenario.accepted.1).2 = true.
Proof.
  assert (Hret : is_return Scenario.accepted.2 = true) by (vm_compute; reflexivity).
  assert (Htime : (20 <= 10 + Escrow.hours 72 + Escrow.hours 24)%Z)
    by (vm_compute; discriminate).
  split; [exact Hret |]. split; [exact Htime |].
  apply (accept_then_complete_settles (H := reference_host) 10 20 Scenario.draws
           "offer_0ffe5" "did:xrpl:patient-kim-001" Scenario.payee Scenario.payer
           "t1" "t2" 12345 Scenario.offered Hret Htime).
Defined.

Lemma complete_data_delivery_repeatable_witness :
  let first := Platform.complete_data_delivery (H := reference_host) 20 "t1" "t2" "tx_7a"
                 12345 Scenario.accepted.1 in
  is_return first.2 = true /\
  is_return (Platform.complete_data_delivery (H := reference_host) 20 "t3" "t4" "tx_7a"
               999 first.1).2 = true.
Proof.
  intros first.
  assert (Hret : is_return first.2 = true) by (vm_compute; reflexivity).
  split; [exact Hret |].
  apply (complete_data_delivery_repeatable (H := reference_host) 20 "t1" "t2" "t3" "t4"
           "tx_7a" 12345 999 Scenario.accepted.1 Hret).
Defined.

Lemma accept_offer_only_once_witness :
  is_return Scenario.accepted.2 = true /\
  Platform.accept_offer (H := reference_host) 11 Scenario.draws "offer_0ffe5"
    "did:xrpl:patient-lee-002" Scenario.payee Scenario.payer Scenario.accepted.1
  = (Scenario.accepted.1, Raise (ValueError "Offer is not available")).
Proof.
  assert (Hret : is_return Scenario.accepted.2 = true) by (vm_compute; reflexivity).
  split; [exact Hret |].
  apply (accept_offer_only_once (H := reference_host) 10 11 Scenario.draws Scenario.draws
           "offer_0ffe5" "did:xrpl:patient-kim-001" Scenario.payee Scenario.payer
           "did:xrpl:patient-lee-002" Scenario.payee Scenario.payer Scenario.offered Hret).
Defined.

Lemma accept_offer_failure_leaves_credential_witness :
  (Platform.status <$> Platform.offers Scenario.offered_nan !! "offer_bad")
  = Some Platform.PENDING /\
  is_return (Platform.accept_offer (H := reference_host) 10 Scenario.draws "offer_bad"
               "did:xrpl:patient-kim-001" Scenario.payee Scenario.payer
               Scenario.offered_nan).2 = false.
Proof.
  split; [vm_compute; reflexivity |].
  destruct (Platform.offers Scenario.offered_nan !! "offer_bad") as [offer |] eqn:Hoffer;
    [| vm_compute in Hoffer; discriminate].
  apply (accept_offer_failure_leaves_credential (H := reference_host) 10 Scenario.draws
           "offer_bad" "did:xrpl:patient-kim-001" Scenario.payee Scenario.payer
           Scenario.offered_nan offer Hoffer).
  - vm_compute in Hoffer. by injection Hoffer as <-.
  - vm_compute in Hoffer. injection Hoffer as <-. vm_compute. discriminate.
  - vm_compute in Hoffer. by injection Hoffer as <-.
Defined.

Section OfferLifecycle.
Context `{Host}.
Import Platform.

(** [accept_offer] on an offer that is not PENDING. *)
Lemma accept_offer_not_pending (now : Z) (d : AcceptDraws)
    (offer_id_ patient_did_ patient_addr requester_addr : string) (p : SportiQuePlatform)
    (offer : DataOffer) :
  offers p !! offer_id_ = Some offer ->
  status offer <> PENDING ->
  accept_offer now d offer_id_ patient_did_ patient_addr requester_addr p
  = (p, Raise (ValueError "Offer is not available")).
Proof.
  intros Hoffer Hstatus. unfold accept_offer.
  by rewrite Hoffer, bool_decide_eq_false_2.
Qed.

(** [accept_offer] on a PENDING offer, up to the test of its validity. *)
Lemma accept_offer_pending (now : Z) (d : AcceptDraws)
    (offer_id_ patient_did_ patient_addr requester_addr : string) (p : SportiQuePlatform)
    (offer : DataOffer) :
  offers p !! offer_id_ = Some offer ->
  status offer = PENDING ->
  let r := accept_offer now d offer_id_ patient_did_ patient_addr requester_addr p in
  if (now >? valid_until offer)%Z
  then r = (store_offer offer_id_ (set_offer_status EXPIRED offer) p,
            Raise (ValueError "Offer has expired"))
  else is_return r.2 = true <->
       acceptance_possible now d patient_did_ (compensation offer).
Proof.
  intros Hoffer Hstatus r. subst r.
  destruct (now >? valid_until offer)%Z eqn:Hvalid;
    [| by apply accept_offer_valid_returns].
  unfold accept_offer. by rewrite Hoffer, bool_decide_eq_true_2, Hvalid.
Qed.

Lemma days_days (valid_days : Z) : (days valid_days / 86400000000 = valid_days)%Z.
Proof. unfold days. by rewrite Z.div_mul. Qed.

(** The end of validity [create_data_offer] computes, when it exists. *)
Lemma offer_valid_until_return (now valid_days valid_until_ : Z) :
  offer_valid_until now valid_days = Return valid_until_ ->
  valid_until_ = (now + days valid_days)%Z /\ validity_representable now valid_days.
Proof.
  unfold offer_valid_until, validity_representable.
  destruct (timedelta (days valid_days)) as [delta |] eqn:Hdelta;
    cbn [mbind outcome_bind]; [| discriminate].
  apply timedelta_inv in Hdelta as [-> Hdays]. rewrite days_days in Hdays.
  by intros [-> ?]%datetime_add_inv.
Qed.

Lemma offer_valid_until_eq (now valid_days : Z) :
  validity_representable now valid_days ->
  offer_valid_until now valid_days = Return (now + days valid_days)%Z.
Proof.
  intros [Hdays Hdate]. unfold offer_valid_until.
  rewrite timedelta_return by (by rewrite days_days). cbn [mbind outcome_bind].
  by apply datetime_add_return.
Qed.

Lemma offer_valid_until_raise (now valid_days : Z) (err : PyError) :
  offer_valid_until now valid_days = Raise err -> exists msg, err = OverflowError msg.
Proof.
  unfold offer_valid_until, timedelta, datetime_add.
  repeat (case_match; cbn [mbind outcome_bind]); intros [= <-]; by eexists.
Qed.

(** X30. The validity window of an offer. [create_data_offer] returns
    exactly when the end of validity, [valid_days] days after the clock
    reading, can be represented; otherwise it raises [OverflowError] and
    changes nothing. When it returns, it returns the identifier "offer_"
    followed by the drawn token and has appended one DATA_REQUESTED event
    for it, with the requester as actor. The new offer can be accepted up
    to [valid_days] days after its creation, where [accept_offer] returns
    exactly when the sample bundle is built, the dates of the escrow can be
    represented, the compensation times 1,000,000 converts to an integer
    and the expiry has a POSIX timestamp; a call after that
    raises "Offer has expired" and marks the offer EXPIRED, after which
    every call for it, whatever the clock reading, raises "Offer is not
    available" and changes nothing. *)
Theorem offer_validity_window (now later : Z) (token audit_token_ : string)
    (requester_did requester_name_ : string) (data_types_ : list string) (purpose_ : string)
    (compensation_ : float) (collection_period_ retention_period_ : string)
    (third_party_sharing_ : bool) (valid_days : Z) (target_criteria_ : option pydict)
    (d : AcceptDraws) (patient_did_ patient_addr requester_addr : string)
    (p : SportiQuePlatform) :
  let c := create_data_offer now token audit_token_ requester_did requester_name_
             data_types_ purpose_ compensation_ collection_period_ retention_period_
             third_party_sharing_ valid_days target_criteria_ p in
  let offer_id_ := "offer_" +:+ token in
  let r := accept_offer later d offer_id_ patient_did_ patient_addr requester_addr c.1 in
  (is_return c.2 = true <-> validity_representable now valid_days) /\
  (is_return c.2 = false -> c.1 = p /\ exists msg, c.2 = Raise (OverflowError msg)) /\
  (is_return c.2 = true ->
   c.2 = Return offer_id_ /\
   (exists e,
      Audit.audit_events (audit_manager c.1)
      = (Audit.audit_events (audit_manager p) ++ [e])%list /\
      Audit.event_type e = Audit.DATA_REQUESTED /\
      Audit.actor e = requester_did /\ Audit.resource_id e = offer_id_) /\
   if (later >? now + days valid_days)%Z then
     r.2 = Raise (ValueError "Offer has expired") /\
     (status <$> offers r.1 !! offer_id_) = Some EXPIRED /\
     forall (now' : Z) (d' : AcceptDraws)
            (patient_did' patient_addr' requester_addr' : string),
       accept_offer now' d' offer_id_ patient_did' patient_addr' requester_addr' r.1
       = (r.1, Raise (ValueError "Offer is not available"))
   else
     is_return r.2 = true <-> acceptance_possible later d patient_did_ compensation_).
Proof.
  intros c offer_id_ r. subst r c. unfold create_data_offer. fold offer_id_.
  destruct (offer_valid_until now valid_days) as [valid_until_ | err] eqn:Hdate.
  - apply offer_valid_until_return in Hdate as [-> Hdate].
    cbn [Audit.record_audit_event fst snd is_return].
    split; [done |]. split; [discriminate |]. intros _.
    set (offer := {| offer_id := offer_id_; requester := requester_did;
                     requester_name := requester_name_; data_types := data_types_;
                     purpose := purpose_; compensation := compensation_;
                     collection_period := collection_period_;
                     retention_period := retention_period_;
                     third_party_sharing := third_party_sharing_;
                     valid_until := now + days valid_days; created_at := now;
                     status := PENDING; target_criteria := target_criteria_ |}).
    match goal with |- context [accept_offer later d offer_id_ _ _ _ ?q] => set (c := q) end.
    assert (Hoffer : offers c !! offer_id_ = Some offer) by apply lookup_insert_eq.
    split; [done |]. split.
    { eexists. split; [reflexivity |]. done. }
    pose proof (accept_offer_pending later d offer_id_ patient_did_ patient_addr
                  requester_addr c offer Hoffer eq_refl) as Hr.
    cbn [valid_until offer compensation] in Hr. clearbody c.
    destruct (later >? now + days valid_days)%Z; [| done].
    rewrite Hr. cbn [fst snd]. split; [done |].
    assert (Hexpired :
              offers (store_offer offer_id_ (set_offer_status EXPIRED offer) c) !! offer_id_
              = Some (set_offer_status EXPIRED offer)) by apply lookup_insert_eq.
    split; [by rewrite Hexpired |].
    intros now' d' patient_did' patient_addr' requester_addr'.
    by apply (accept_offer_not_pending _ _ _ _ _ _ _ _ Hexpired).
  - cbn [fst snd is_return]. split; [| split; [| discriminate]].
    + split; [discriminate |]. intros Hrep.
      by rewrite offer_valid_until_eq in Hdate.
    + intros _. split; [done |].
      destruct (offer_valid_until_raise _ _ _ Hdate) as [msg ->]. by exists msg.
Qed.

End OfferLifecycle.

Section ConsentRoundTrip.
Context `{Host}.
Import Consent.

(** X16. Issue, then withdraw. [create_consent_vc] registers the credential it
    returns under its identifier, "urn:uuid:" followed by the drawn UUID;
    [withdraw_consent] for that identifier by the patient, at any later
    clock reading, returns [True] and removes it again, so that the
    registry is the one before the issue when the identifier was new. The
    history has grown by a CREATED and a WITHDRAWN entry for the
    credential, in that order. *)
Theorem consent_issue_withdraw_round_trip (now later : Z) (uuid salt patient_did : string)
    (terms : ConsentTerms) (m : ConsentManager) :
  let c := create_consent_vc now uuid salt patient_did terms m in
  let w := withdraw_consent later (id c.2) patient_did c.1 in
  id c.2 = "urn:uuid:" +:+ uuid /\
  active_consents c.1 !! id c.2 = Some c.2 /\
  w.2 = Return true /\
  active_consents w.1 = delete (id c.2) (active_consents m) /\
  (active_consents m !! id c.2 = None -> active_consents w.1 = active_consents m) /\
  exists created withdrawn,
    consent_history w.1 = (consent_history m ++ [created; withdrawn])%list /\
    dict_get "action" created = Some (JStr "CREATED") /\
    dict_get "action" withdrawn = Some (JStr "WITHDRAWN") /\
    dict_get "consentId" created = Some (JStr (id c.2)) /\
    dict_get "consentId" withdrawn = Some (JStr (id c.2)).
Proof.
  intros c w.
  assert (Hid : id c.2 = "urn:uuid:" +:+ uuid) by done.
  assert (Hreg : active_consents c.1 !! id c.2 = Some c.2) by apply lookup_insert_eq.
  assert (Hsubject : credential_subject c.2 = make_credential_subject patient_did terms)
    by done.
  assert (Hregistry : active_consents c.1 = <[id c.2 := c.2]> (active_consents m)) by done.
  assert (Hhistory : exists created,
             consent_history c.1 = (consent_history m ++ [created])%list /\
             dict_get "action" created = Some (JStr "CREATED") /\
             dict_get "consentId" created = Some (JStr (id c.2))).
  { eexists. split; [reflexivity |]. by split. }
  split; [done |]. split; [done |].
  subst w. clearbody c. unfold withdraw_consent. rewrite Hreg, Hsubject.
  cbn [make_credential_subject dict_item dict_get String.eqb Ascii.eqb Bool.eqb].
  unfold ne_str. rewrite String.eqb_refl. cbn [negb].
  cbn [make_credential_subject dict_set String.eqb Ascii.eqb Bool.eqb dict_item dict_get
       mbind outcome_bind subscript fst snd].
  split; [done |].
  cbn [_log_consent_action active_consents consent_history].
  rewrite Hregistry, delete_insert_eq.
  split; [done |]. split; [intros Hnew; by apply delete_id |].
  destruct Hhistory as (created & -> & Haction & Hcid).
  exists created. eexists. rewrite <- app_assoc. split; [reflexivity |]. by repeat split.
Qed.

End ConsentRoundTrip.
